(** * Oscillating-vector animations: frame schedule, sampling and composition

    Shallow embedding of the three Streamlit scripts [c3.py] (one vector on
    the x axis), [c4.py] (two vectors on the x / y axes, the second in
    quadrature) and [c5.py] (reference vector, angled vector and their
    resultant), followed by the properties of the frame schedule, of the
    per-frame samples and of the resultant.

    Modelling conventions.
    - Python and NumPy floats are modelled as the mathematical reals [R]:
      [np.pi] is [PI], [np.sin] / [np.cos] are [sin] / [cos], and the
      samples are computed without rounding, so equalities between samples
      are equalities of real numbers.
    - Rounding is modelled where it decides a discrete outcome: the product
      [duration * 60] that [int] truncates to the frame count is the exact
      product rounded to a double (an infinity when it overflows, on which
      [int] raises [OverflowError]).  The rounding is a parameter
      ([FloatRounding]) of which only two laws are used, both laws of
      IEEE 754 round-to-nearest: it is monotone, and it leaves unchanged
      the numbers that are doubles.  Exhaustion of the memory by a huge
      frame count is not modelled.
    - Python exceptions are the left summand of ExtLib's [sum] monad.
    - Matplotlib artists are modelled by the data handed to [set_data];
      figure styling, ffmpeg encoding and the Streamlit widgets are left
      out.  [create_animation] returns the schedule and the per-frame
      artist data instead of the path of the encoded file, and an outcome
      [inr] means that the schedule and every frame were computed without a
      Python exception; what the encoder does with the frames is outside
      the model.
    - Frame indices are natural numbers, as produced by [range]. *)

From Stdlib Require Import Reals Lra Lia ZArith String Bool List.
From ExtLib Require Import Structures.Monad Structures.MonadExc Data.Monads.EitherMonad.
Import ListNotations.
Import MonadNotation.
Local Open Scope monad_scope.
Local Open Scope R_scope.

(** ** Python and NumPy primitives used by the scripts *)

(** The exceptions the modelled code can raise. *)
Inductive PyError : Type :=
| ZeroDivisionError   (* float division [1 / 0.0] *)
| ValueError          (* [np.linspace] with a negative number of samples *)
| IndexError          (* [time[frame]] out of bounds *)
| OverflowError.      (* [int] of an infinite float *)

Definition Py : Type -> Type := sum PyError.

(** [a / b] on Python floats. *)
Definition truediv (a b : R) : Py R :=
  if Req_dec_T b 0 then raise ZeroDivisionError else ret (a / b).

(** [int(x)] on a float: truncation toward zero. *)
Definition int (x : R) : Z :=
  if Rle_dec 0 x then Int_part x else (- Int_part (- x))%Z.

(** [range(n)]; empty when [n <= 0]. *)
Definition range (n : Z) : list nat := seq 0 (Z.to_nat n).

(** [y[-1] = stop] on a non-empty array. *)
Fixpoint set_last (y : list R) (stop : R) : list R :=
  match y with
  | [] => []
  | [_] => [stop]
  | a :: y' => a :: set_last y' stop
  end.

(** [np.linspace(start, stop, num)] with [endpoint=True], following NumPy's
    implementation: [y = arange(0, num)]; when [div = num - 1 > 0] the step
    is [delta / div] and [y = y * step] (or [y / div * delta] when the step
    is zero), otherwise [y = y * delta]; then [y += start], and for
    [num > 1] the last entry is overwritten with [stop]. *)
Definition linspace (start stop : R) (num : Z) : Py (list R) :=
  if (num <? 0)%Z then raise ValueError
  else
    let div := (num - 1)%Z in
    let delta := stop - start in
    let y := map INR (range num) in
    let y :=
      if (0 <? div)%Z then
        let step := delta / IZR div in
        if Req_dec_T step 0 then map (fun v => v / IZR div * delta) y
        else map (fun v => v * step) y
      else map (fun v => v * delta) y in
    let y := map (fun v => v + start) y in
    ret (if (1 <? num)%Z then set_last y stop else y).

(** [a[i]] for a non-negative index. *)
Definition getitem {A : Type} (a : list A) (i : nat) : Py A :=
  match nth_error a i with
  | Some v => ret v
  | None => raise IndexError
  end.

(** [np.radians(deg)]. *)
Definition radians (deg : R) : R := deg * (PI / 180).

(** [FuncAnimation(fig, update, frames=n)] followed by [save]: [update] is
    called once per frame of [range(n)], in order; the first exception
    aborts the rendering. *)
Fixpoint for_each {A B : Type} (f : A -> Py B) (l : list A) : Py (list B) :=
  match l with
  | [] => ret []
  | a :: l' => b <- f a ;; bs <- for_each f l' ;; ret (b :: bs)
  end.

(** A point of the plane. *)
Definition Sample : Type := (R * R)%type.

(** The data of a [Line2D] artist after [set_data(xs, ys)]. *)
Record Line2D : Type := set_data { xdata : list R; ydata : list R }.

(** The tip of a vector drawn as the segment [[0, x], [0, y]]. *)
Definition tip (l : Line2D) : Sample := (nth 1 (xdata l) 0, nth 1 (ydata l) 0).

(** A Python float: a finite number, an infinity or a NaN.  The vectors
    and the time grid are only modelled on finite numbers. *)
Inductive pyfloat : Type :=
| Finite (r : R)
| PosInf
| NegInf
| NaN.

(** [a < b] and [a > b] for a float [a] and a finite bound [b]; every
    comparison with a NaN is false. *)
Definition float_lt (a : pyfloat) (b : R) : bool :=
  match a with
  | Finite r => if Rlt_dec r b then true else false
  | NegInf => true
  | PosInf | NaN => false
  end.

Definition float_gt (a : pyfloat) (b : R) : bool :=
  match a with
  | Finite r => if Rlt_dec b r then true else false
  | PosInf => true
  | NegInf | NaN => false
  end.

(** The order of the floats; a NaN is not comparable. *)
Definition float_le (a b : pyfloat) : Prop :=
  match a, b with
  | NaN, _ | _, NaN => False
  | NegInf, _ => True
  | _, PosInf => True
  | Finite x, Finite y => x <= y
  | PosInf, _ => False
  | Finite _, NegInf => False
  end.

(** [2 ^ 53]: every integer up to it, in absolute value, is a double. *)
Definition max_exact_int : Z := 9007199254740992.

(** A set of numbers that are doubles: [m * 2 ^ e] with [|m| <= 2 ^ 53]
    and [-1074 <= e <= 970]. *)
Definition representable (x : R) : Prop :=
  exists m e : Z,
    (Z.abs m <= max_exact_int)%Z /\ (-1074 <= e <= 970)%Z /\
    x = IZR m * powerRZ 2 e.

(** Rounding of a real number to a double, as the float operations of
    Python do with their exact result (to an infinity on overflow):
    monotone, and the identity on the doubles. *)
Class FloatRounding : Type := {
  round_double : R -> pyfloat;
  round_monotone :
    forall x y : R, x <= y -> float_le (round_double x) (round_double y);
  round_representable :
    forall x : R, representable x -> round_double x = Finite x
}.

(** [a * b] on Python floats. *)
Definition fmul `{FR : FloatRounding} (a b : R) : pyfloat :=
  round_double (a * b).

(** [int(x)] on a float that may be infinite or a NaN. *)
Definition int_float (x : pyfloat) : Py Z :=
  match x with
  | Finite r => ret (int r)
  | PosInf | NegInf => raise OverflowError
  | NaN => raise ValueError
  end.

(** The rounding that changes nothing: an instance of the two laws.  It is
    used to run the scripts on concrete inputs whose product
    [duration * 60] is a double, or lies between two doubles with the same
    truncation, where every rounding that satisfies the laws gives the same
    frame count. *)
Definition exact_rounding : FloatRounding :=
  {| round_double := Finite;
     round_monotone := fun (x y : R) (H : x <= y) => H;
     round_representable := fun (x : R) (_ : representable x) => eq_refl |}.

(** The calls made on [st.sidebar] to report on an input; the message of
    each call is determined by the label and the bound it is built from. *)
Inductive SidebarCall : Type :=
| warning_less (label : string) (min_value : R)
    (* warning: label cannot be less than min_value *)
| warning_greater (label : string) (max_value : R)
    (* warning: label cannot be greater than max_value *)
| error_invalid (label : string).
    (* error: Invalid input for label. Using default value. *)

(** Whether a point lies inside the axes limits [xlim] x [ylim]. *)
Definition within_limits (xlim ylim : R * R) (p : Sample) : Prop :=
  fst xlim <= fst p <= snd xlim /\ fst ylim <= snd p <= snd ylim.

(** ** c3.py: one vector oscillating along the x axis *)
Module Src_c3.

Record Vector : Type := {
  amplitude : R;
  frequency : R;
  color : string;
  point_shape : string;
  point_size : Z;
  line_style : string;
  dotted : bool
}.

(** [Vector.__init__]: stores its arguments. *)
Definition init (amplitude frequency : R) (color point_shape : string)
    (point_size : Z) (line_style : string) (dotted : bool) : Py Vector :=
  ret {| amplitude := amplitude; frequency := frequency; color := color;
         point_shape := point_shape; point_size := point_size;
         line_style := line_style; dotted := dotted |}.

Record Animation : Type := {
  ani_duration : R;
  ani_total_frames : Z;
  ani_time : list R;
  ani_frames : list Line2D
}.

(** The closure [update(frame)] of [create_animation]. *)
Definition update (self : Vector) (time : list R) (frame : nat) : Py Line2D :=
  t <- getitem time frame ;;
  let x := amplitude self * sin (2 * PI * frequency self * t) in
  let y := 0 in
  ret (set_data [0; x] [0; y]).

Definition create_animation `{FR : FloatRounding} (self : Vector)
    (duration : option R) : Py Animation :=
  duration <- match duration with
              | None => truediv 1 (frequency self)
              | Some d => ret d
              end ;;
  total_frames <- int_float (fmul duration 60) ;;
  time <- linspace 0 duration total_frames ;;
  frames <- for_each (update self time) (range total_frames) ;;
  ret {| ani_duration := duration; ani_total_frames := total_frames;
         ani_time := time; ani_frames := frames |}.

(** The body of the script: the vector is built from the widget values and,
    when "Start Animation" is pressed, animated over [1 / frequency]. *)
Definition script `{FR : FloatRounding} (amplitude frequency : R)
    (vector_color vector_shape : string) (vector_size : Z)
    (vector_dotted : bool) : Py Animation :=
  vector <- init amplitude frequency vector_color vector_shape vector_size "-"
                 vector_dotted ;;
  duration <- truediv 1 frequency ;;
  create_animation vector (Some duration).

(** The vector the script builds from the initial widget values. *)
Definition default_vector : Vector :=
  {| amplitude := 2; frequency := 1; color := "#1f77b4"; point_shape := "o";
     point_size := 10; line_style := "-"; dotted := false |}.

(** The axes limits set by [create_animation]:
    [ax.set_xlim(-self.amplitude - 1, self.amplitude + 1)] and
    [ax.set_ylim(-1, 1)]. *)
Definition xlim (self : Vector) : R * R :=
  (- amplitude self - 1, amplitude self + 1).

Definition ylim (self : Vector) : R * R := (-1, 1).

(** The values the two sliders of the script can return: between their
    [min_value] and [max_value]. *)
Definition slider_values (amplitude frequency : R) : Prop :=
  1 / 10 <= amplitude <= 5 /\ 1 / 10 <= frequency <= 5.

End Src_c3.

(** ** c4.py: two vectors on the x / y axes *)
Module Src_c4.

Record Vector : Type := {
  amplitude : R;
  frequency : R;
  axis : string;
  color : string;
  point_shape : string;
  point_size : Z;
  line_style : string;
  dotted : bool
}.

(** [Vector.__init__]: stores its arguments. *)
Definition init (amplitude frequency : R) (axis color point_shape : string)
    (point_size : Z) (line_style : string) (dotted : bool) : Py Vector :=
  ret {| amplitude := amplitude; frequency := frequency; axis := axis;
         color := color; point_shape := point_shape; point_size := point_size;
         line_style := line_style; dotted := dotted |}.

(** The two artists updated at each frame. *)
Record Frame : Type := {
  vector_self : Line2D;
  vector_other : Line2D
}.

Record Animation : Type := {
  ani_duration : R;
  ani_total_frames : Z;
  ani_time : list R;
  ani_frames : list Frame
}.

(** The closure [update(frame)] of [create_animation]. *)
Definition update (self other_vector : Vector) (time : list R) (frame : nat)
    : Py Frame :=
  t <- getitem time frame ;;
  let '(x_self, y_self) :=
    if String.eqb (axis self) "x"
    then (amplitude self * sin (2 * PI * frequency self * t), 0)
    else (0, amplitude self * sin (2 * PI * frequency self * t)) in
  let '(x_other, y_other) :=
    if String.eqb (axis other_vector) "y"
    then (0, amplitude other_vector
             * sin (2 * PI * frequency other_vector * t + PI / 2))
    else (amplitude other_vector
          * sin (2 * PI * frequency other_vector * t + PI / 2), 0) in
  ret {| vector_self := set_data [0; x_self] [0; y_self];
         vector_other := set_data [0; x_other] [0; y_other] |}.

Definition create_animation `{FR : FloatRounding} (self other_vector : Vector)
    (duration : option R) : Py Animation :=
  duration <- match duration with
              | None => truediv 1 (frequency self)
              | Some d => ret d
              end ;;
  total_frames <- int_float (fmul duration 60) ;;
  time <- linspace 0 duration total_frames ;;
  frames <- for_each (update self other_vector time) (range total_frames) ;;
  ret {| ani_duration := duration; ani_total_frames := total_frames;
         ani_time := time; ani_frames := frames |}.

(** The body of the script: both vectors share the widget values, the first
    on the x axis and the second on the y axis. *)
Definition script `{FR : FloatRounding} (amplitude frequency : R)
    (vector1_color vector2_color vector_shape : string) (vector_size : Z)
    (vector_dotted : bool) : Py Animation :=
  vector1 <- init amplitude frequency "x" vector1_color vector_shape vector_size
                  "-" vector_dotted ;;
  vector2 <- init amplitude frequency "y" vector2_color vector_shape vector_size
                  "-" vector_dotted ;;
  duration <- truediv 1 frequency ;;
  create_animation vector1 vector2 (Some duration).

(** The vectors the script builds from the initial widget values. *)
Definition default_vector1 : Vector :=
  {| amplitude := 2; frequency := 1 / 10; axis := "x"; color := "#1f77b4";
     point_shape := "o"; point_size := 10; line_style := "-";
     dotted := false |}.

Definition default_vector2 : Vector :=
  {| amplitude := 2; frequency := 1 / 10; axis := "y"; color := "#ff7f0e";
     point_shape := "o"; point_size := 10; line_style := "-";
     dotted := false |}.

(** The axes limits set by [create_animation], both from the amplitude of
    the first vector. *)
Definition xlim (self : Vector) : R * R :=
  (- amplitude self - 1, amplitude self + 1).

Definition ylim (self : Vector) : R * R :=
  (- amplitude self - 1, amplitude self + 1).

(** The values the two sliders of the script can return: between their
    [min_value] and [max_value]. *)
Definition slider_values (amplitude frequency : R) : Prop :=
  1 / 10 <= amplitude <= 5 /\ 1 / 100 <= frequency <= 1.

End Src_c4.

(** ** c5.py: reference vector, angled vector and resultant *)
Module Src_c5.

Record Vector : Type := {
  amplitude : R;
  frequency : R;
  angle : R;          (* radians *)
  phase_shift : R;    (* radians *)
  color : string;
  point_shape : string;
  point_size : R;
  line_style : string;
  dotted : bool
}.

(** [Vector.__init__]: [angle] and [phase_shift] are given in degrees and
    stored in radians. *)
Definition init (amplitude frequency angle phase_shift : R)
    (color point_shape : string) (point_size : R) (line_style : string)
    (dotted : bool) : Py Vector :=
  ret {| amplitude := amplitude; frequency := frequency;
         angle := radians angle; phase_shift := radians phase_shift;
         color := color; point_shape := point_shape; point_size := point_size;
         line_style := line_style; dotted := dotted |}.

(** The three artists updated at each frame. *)
Record Frame : Type := {
  vector_self : Line2D;
  vector_other : Line2D;
  resultant_vector : Line2D
}.

Record Animation : Type := {
  ani_duration : R;
  ani_total_frames : Z;
  ani_time : list R;
  ani_frames : list Frame
}.

(** The closure [update(frame)] of [create_animation]. *)
Definition update (self other_vector : Vector) (time : list R) (frame : nat)
    : Py Frame :=
  t <- getitem time frame ;;
  let x_self := amplitude self * sin (2 * PI * frequency self * t) in
  let y_self := 0 in
  let x_other :=
    amplitude other_vector * cos (angle other_vector)
    * sin (2 * PI * frequency other_vector * t + phase_shift other_vector) in
  let y_other :=
    amplitude other_vector * sin (angle other_vector)
    * sin (2 * PI * frequency other_vector * t + phase_shift other_vector) in
  let x_res := x_self + x_other in
  let y_res := y_self + y_other in
  ret {| vector_self := set_data [0; x_self] [0; y_self];
         vector_other := set_data [0; x_other] [0; y_other];
         resultant_vector := set_data [0; x_res] [0; y_res] |}.

Definition create_animation `{FR : FloatRounding} (self other_vector : Vector)
    (duration : option R) : Py Animation :=
  duration <- match duration with
              | None => truediv 1 (frequency self)
              | Some d => ret d
              end ;;
  total_frames <- int_float (fmul duration 60) ;;
  time <- linspace 0 duration total_frames ;;
  frames <- for_each (update self other_vector time) (range total_frames) ;;
  ret {| ani_duration := duration; ani_total_frames := total_frames;
         ani_time := time; ani_frames := frames |}.

(** The body of the script, from the validated inputs: the first vector has
    angle 0 and the default phase shift 0, the second the configured angle
    and phase shift (both in degrees). *)
Definition script `{FR : FloatRounding} (amplitude frequency : R)
    (vector1_color vector2_color vector_shape : string) (vector_size : R)
    (vector_dotted : bool) (angle_vector2 phase_shift_vector2 : R)
    : Py Animation :=
  vector1 <- init amplitude frequency 0 0 vector1_color vector_shape vector_size
                  "-" vector_dotted ;;
  vector2 <- init amplitude frequency angle_vector2 phase_shift_vector2
                  vector2_color vector_shape vector_size "-" vector_dotted ;;
  duration <- truediv 1 frequency ;;
  create_animation vector1 vector2 (Some duration).

(** The vectors the script builds from the initial input values (angle 45
    and phase shift 90 degrees for the second). *)
Definition default_vector1 : Vector :=
  {| amplitude := 2; frequency := 1 / 10; angle := radians 0;
     phase_shift := radians 0; color := "#1f77b4"; point_shape := "o";
     point_size := 10; line_style := "-"; dotted := false |}.

Definition default_vector2 : Vector :=
  {| amplitude := 2; frequency := 1 / 10; angle := radians 45;
     phase_shift := radians 90; color := "#ff7f0e"; point_shape := "o";
     point_size := 10; line_style := "-"; dotted := false |}.

(** The axes limits set by [create_animation], both from the amplitude of
    the first vector. *)
Definition xlim (self : Vector) : R * R :=
  (- amplitude self - 1, amplitude self + 1).

Definition ylim (self : Vector) : R * R :=
  (- amplitude self - 1, amplitude self + 1).

Section InputWithValidation.

(** The builtin [float(text)]: [None] stands for its [ValueError]. *)
Variable float : string -> option pyfloat.

(** [input_with_validation(label, value, step, min_value, max_value)], where
    [text] is what [st.sidebar.text_input] returns (the text typed by the
    user).  The result is the validated value together with the calls made
    on the sidebar, in order. *)
Definition input_with_validation (text : string) (label : string)
    (value step : R) (min_value max_value : option R)
    : pyfloat * list SidebarCall :=
  match float text with
  | Some input_val =>
      let '(input_val, calls) :=
        match min_value with
        | Some m =>
            if float_lt input_val m then (Finite m, [warning_less label m])
            else (input_val, [])
        | None => (input_val, [])
        end in
      let '(input_val, calls) :=
        match max_value with
        | Some m =>
            if float_gt input_val m
            then (Finite m, calls ++ [warning_greater label m])
            else (input_val, calls)
        | None => (input_val, calls)
        end in
      (input_val, calls)
  | None => (Finite value, [error_invalid label])
  end.

(** The amplitude and the frequency as the script reads them. *)
Definition amplitude_input (text : string) : pyfloat * list SidebarCall :=
  input_with_validation text "Amplitude (Max Displacement for Both Vectors)"
    2 (1 / 10) (Some (1 / 10)) (Some 5).

Definition frequency_input (text : string) : pyfloat * list SidebarCall :=
  input_with_validation text "Frequency (Hz)"
    (1 / 10) (1 / 100) (Some (1 / 100)) (Some 1).

End InputWithValidation.

End Src_c5.

(** ** Notions used in the statements *)

(** The time grid of [n] frames over [[0, d]]: it has [n] entries; from
    two frames on, entry [i] is [i * d / (n - 1)], so the grid starts at
    [0] and ends at [d]; a one-frame grid is [[0]] and a zero-frame grid is
    empty. *)
Definition frame_schedule (d : R) (n : Z) (time : list R) : Prop :=
  length time = Z.to_nat n /\
  ((2 <= n)%Z ->
     (forall i, (i < Z.to_nat n)%nat ->
        nth_error time i = Some (INR i * (d / IZR (n - 1)))) /\
     nth_error time 0 = Some 0 /\
     nth_error time (Z.to_nat n - 1) = Some d) /\
  (n = 1%Z -> time = [0]) /\
  (n = 0%Z -> time = []).

(** The frame count [n] obtained from the duration [d]: the truncation of
    the double [p] that the product [d * 60] rounds to.  It is the floor of
    [d * 60] or one more, and the floor itself when [d * 60] is a double. *)
Definition frame_count `{FR : FloatRounding} (d : R) (n : Z) : Prop :=
  (exists p, fmul d 60 = Finite p /\ n = Int_part p) /\
  (Int_part (d * 60) <= n <= Int_part (d * 60) + 1)%Z /\
  (representable (d * 60) -> n = Int_part (d * 60)).

(** The three sample sequences of a run of [c5.py]: the tips of the first
    vector, of the second vector and of the resultant, frame by frame. *)
Definition self_samples (ani : Src_c5.Animation) : list Sample :=
  map (fun fr => tip (Src_c5.vector_self fr)) (Src_c5.ani_frames ani).

Definition other_samples (ani : Src_c5.Animation) : list Sample :=
  map (fun fr => tip (Src_c5.vector_other fr)) (Src_c5.ani_frames ani).

Definition resultant_samples (ani : Src_c5.Animation) : list Sample :=
  map (fun fr => tip (Src_c5.resultant_vector fr)) (Src_c5.ani_frames ani).

(** A schedule built without any guard on the frame count [n] obtained
    from the duration [d]: the grid and the frame list have [n] entries;
    when [d * 60 < 1] the frame count is [0], with an empty grid and no
    frame, unless the product rounds up to [1]; the grid has at least one
    entry when [d >= 1 / 60], and has none when [d * 60 <= 1 - 2 ^ -53]. *)
Definition unguarded_schedule `{FR : FloatRounding} (d : R) (n : Z)
    (time : list R) (frames : nat) : Prop :=
  length time = Z.to_nat n /\
  frames = length time /\
  (d * 60 < 1 ->
   n = 0%Z /\ time = [] /\ frames = 0%nat \/
   n = 1%Z /\ fmul d 60 = Finite 1) /\
  (1 / 60 <= d -> (1 <= length time)%nat) /\
  (d * 60 <= 1 - / 9007199254740992 -> time = [] /\ frames = 0%nat).

(** ** Properties of the primitives *)

Section Primitives.

Lemma int_floor (x : R) : 0 <= x -> int x = Int_part x.
Proof.
  intros Hx. unfold int.
  destruct (Rle_dec 0 x); [reflexivity | contradiction].
Qed.

Lemma int_bounds (x : R) : 0 <= x -> IZR (int x) <= x < IZR (int x) + 1.
Proof.
  intros Hx. rewrite (int_floor x Hx).
  destruct (base_Int_part x) as [Hlo Hhi]. lra.
Qed.

Lemma int_nonneg (x : R) : 0 <= x -> (0 <= int x)%Z.
Proof.
  intros Hx. destruct (int_bounds x Hx) as [_ Hhi].
  apply Z.lt_succ_r. apply lt_IZR. rewrite succ_IZR. lra.
Qed.

Lemma int_unique (x : R) (z : Z) :
  0 <= x -> IZR z <= x < IZR z + 1 -> int x = z.
Proof.
  intros Hx [Hlo Hhi]. rewrite (int_floor x Hx). symmetry.
  apply Int_part_spec. lra.
Qed.

Lemma int_ge_1 (x : R) : 0 <= x -> ((1 <= int x)%Z <-> 1 <= x).
Proof.
  intros Hx. destruct (int_bounds x Hx) as [Hlo Hhi]. split; intros H.
  - apply IZR_le in H. lra.
  - apply Z.lt_succ_r. apply lt_IZR. rewrite succ_IZR. lra.
Qed.

Lemma int_lt_1 (x : R) : 0 <= x -> x < 1 -> int x = 0%Z.
Proof. intros Hx Hlt. apply int_unique; lra. Qed.

Lemma set_last_length (y : list R) (stop : R) :
  length (set_last y stop) = length y.
Proof.
  induction y as [| a [| b y'] IH]; simpl in *; try reflexivity.
  now rewrite IH.
Qed.

Lemma set_last_nth_error (y : list R) (stop : R) (i : nat) :
  (i < length y)%nat ->
  nth_error (set_last y stop) i
  = if Nat.eqb (S i) (length y) then Some stop else nth_error y i.
Proof.
  revert i. induction y as [| a [| b y'] IH]; intros i Hi.
  - simpl in Hi. lia.
  - simpl in Hi. assert (i = 0%nat) as -> by lia. reflexivity.
  - destruct i as [| i].
    + reflexivity.
    + change (set_last (a :: b :: y') stop) with (a :: set_last (b :: y') stop).
      change (nth_error (a :: set_last (b :: y') stop) (S i))
        with (nth_error (set_last (b :: y') stop) i).
      rewrite IH by (simpl in *; lia). reflexivity.
Qed.

Lemma range_length (n : Z) : length (range n) = Z.to_nat n.
Proof. unfold range. apply length_seq. Qed.

Lemma range_nth_error (n : Z) (i : nat) :
  (i < Z.to_nat n)%nat -> nth_error (range n) i = Some i.
Proof.
  intros Hi. unfold range.
  rewrite (nth_error_nth' _ 0%nat) by (rewrite length_seq; exact Hi).
  rewrite seq_nth by exact Hi. reflexivity.
Qed.

Lemma range_In (n : Z) (i : nat) : In i (range n) -> (i < Z.to_nat n)%nat.
Proof. unfold range. intros Hi. apply in_seq in Hi. lia. Qed.

Lemma getitem_ok {A : Type} (a : list A) (i : nat) :
  (i < length a)%nat -> exists v, nth_error a i = Some v /\ getitem a i = inr v.
Proof.
  intros Hi. unfold getitem.
  destruct (nth_error a i) as [v |] eqn:Hv.
  - exists v. split; reflexivity.
  - apply nth_error_None in Hv. lia.
Qed.

Lemma getitem_Some {A : Type} (a : list A) (i : nat) (v : A) :
  nth_error a i = Some v -> getitem a i = inr v.
Proof. intros Hv. unfold getitem. rewrite Hv. reflexivity. Qed.

Lemma truediv_nonzero (a b : R) : b <> 0 -> truediv a b = inr (a / b).
Proof.
  intros Hb. unfold truediv.
  destruct (Req_dec_T b 0); [contradiction | reflexivity].
Qed.

Lemma truediv_zero (a : R) : truediv a 0 = inl ZeroDivisionError.
Proof.
  unfold truediv. destruct (Req_dec_T 0 0) as [_ | Hne]; [reflexivity |].
  now contradiction Hne.
Qed.

End Primitives.

Section Linspace.

Variables start stop : R.

Lemma linspace_ok (num : Z) :
  (0 <= num)%Z -> exists time, linspace start stop num = inr time.
Proof.
  intros Hn. unfold linspace.
  destruct (Z.ltb_spec num 0); [lia |]. eexists. reflexivity.
Qed.


Lemma linspace_error (num : Z) (e : PyError) :
  linspace start stop num = inl e -> e = ValueError /\ (num < 0)%Z.
Proof.
  unfold linspace. destruct (Z.ltb_spec num 0); [| discriminate].
  intros Heq. injection Heq as <-. split; [reflexivity | assumption].
Qed.

Lemma linspace_length (num : Z) (time : list R) :
  linspace start stop num = inr time -> length time = Z.to_nat num.
Proof.
  unfold linspace. destruct (Z.ltb_spec num 0); [discriminate |].
  intros Heq. injection Heq as <-.
  destruct (Z.ltb_spec 1 num); rewrite ?set_last_length, length_map;
    destruct (Z.ltb_spec 0 (num - 1)); try destruct (Req_dec_T _ 0);
    rewrite length_map, length_map; apply range_length.
Qed.

Lemma linspace_0 : linspace start stop 0 = inr [].
Proof. reflexivity. Qed.

Lemma linspace_1 : linspace start stop 1 = inr [start].
Proof.
  unfold linspace. simpl. f_equal. f_equal. lra.
Qed.

Lemma linspace_nth_error (num : Z) (time : list R) (i : nat) :
  (2 <= num)%Z ->
  linspace start stop num = inr time ->
  (i < Z.to_nat num)%nat ->
  nth_error time i = Some (start + INR i * ((stop - start) / IZR (num - 1))).
Proof.
  intros Hn Heq Hi. unfold linspace in Heq.
  destruct (Z.ltb_spec num 0); [lia |].
  destruct (Z.ltb_spec 0 (num - 1)); [| lia].
  destruct (Z.ltb_spec 1 num); [| lia].
  injection Heq as <-.
  assert (Hdiv : 0 < IZR (num - 1)) by (apply IZR_lt; lia).
  set (y := if Req_dec_T _ 0 then _ else _).
  assert (Hy : nth_error (map (fun v => v + start) y) i
               = Some (start + INR i * ((stop - start) / IZR (num - 1)))).
  { subst y.
    destruct (Req_dec_T ((stop - start) / IZR (num - 1)) 0) as [Hz | Hz].
    - rewrite map_map, nth_error_map, nth_error_map, (range_nth_error num i Hi).
      simpl. f_equal. rewrite Hz.
      assert (stop - start = 0) as ->.
      { apply (Rmult_eq_compat_r (IZR (num - 1))) in Hz.
        unfold Rdiv in Hz. rewrite Rmult_assoc, Rinv_l in Hz; lra. }
      lra.
    - rewrite map_map, nth_error_map, nth_error_map, (range_nth_error num i Hi).
      simpl. f_equal. lra. }
  assert (Hlen : length (map (fun v => v + start) y) = Z.to_nat num).
  { subst y. destruct (Req_dec_T _ 0); rewrite !length_map; apply range_length. }
  rewrite set_last_nth_error by (rewrite Hlen; exact Hi).
  rewrite Hlen.
  destruct (Nat.eqb_spec (S i) (Z.to_nat num)) as [Hlast | _]; [| exact Hy].
  f_equal.
  assert (Hi' : INR i = IZR (num - 1)).
  { rewrite INR_IZR_INZ. f_equal. lia. }
  rewrite Hi'. field. lra.
Qed.

Lemma linspace_first (num : Z) (time : list R) :
  (1 <= num)%Z -> linspace start stop num = inr time ->
  nth_error time 0 = Some start.
Proof.
  intros Hn Heq. destruct (Z.eq_dec num 1) as [-> | Hne].
  - rewrite linspace_1 in Heq. injection Heq as <-. reflexivity.
  - rewrite (linspace_nth_error num time 0) by (assumption || lia).
    f_equal. simpl. lra.
Qed.

Lemma linspace_last (num : Z) (time : list R) :
  (2 <= num)%Z -> linspace start stop num = inr time ->
  nth_error time (Z.to_nat num - 1) = Some stop.
Proof.
  intros Hn Heq.
  rewrite (linspace_nth_error num time _ Hn Heq) by lia.
  f_equal.
  assert (Hi : INR (Z.to_nat num - 1) = IZR (num - 1)).
  { rewrite INR_IZR_INZ. f_equal. lia. }
  assert (0 < IZR (num - 1)) by (apply IZR_lt; lia).
  rewrite Hi. field. lra.
Qed.

End Linspace.

Section ForEach.

Context {A B : Type}.
Variable f : A -> Py B.

Lemma for_each_exists (l : list A) :
  (forall a, In a l -> exists b, f a = inr b) ->
  exists bs, for_each f l = inr bs.
Proof.
  induction l as [| a l IH]; intros Hf; simpl.
  - eexists. reflexivity.
  - destruct (Hf a) as [b ->]; [left; reflexivity |].
    destruct IH as [bs ->]; [intros; apply Hf; right; assumption |].
    eexists. reflexivity.
Qed.

Lemma for_each_length (l : list A) (bs : list B) :
  for_each f l = inr bs -> length bs = length l.
Proof.
  revert bs. induction l as [| a l IH]; intros bs; simpl.
  - intros Heq. injection Heq as <-. reflexivity.
  - destruct (f a) as [e | b]; simpl; [discriminate |].
    destruct (for_each f l) as [e | bs']; simpl; [discriminate |].
    intros Heq. injection Heq as <-. simpl. f_equal. apply IH. reflexivity.
Qed.

Lemma for_each_nth_error (l : list A) (bs : list B) (i : nat) (a : A) :
  for_each f l = inr bs -> nth_error l i = Some a ->
  exists b, f a = inr b /\ nth_error bs i = Some b.
Proof.
  revert bs i. induction l as [| a0 l IH]; intros bs i; simpl.
  - intros _ Hi. destruct i; discriminate.
  - destruct (f a0) as [e | b0] eqn:Hf0; simpl; [discriminate |].
    destruct (for_each f l) as [e | bs'] eqn:Hrest; simpl; [discriminate |].
    intros Heq Hi. injection Heq as <-. destruct i as [| i]; simpl in *.
    + injection Hi as <-. exists b0. split; [assumption | reflexivity].
    + apply (IH bs' i); [reflexivity | assumption].
Qed.

Lemma for_each_error (l : list A) (e : PyError) :
  for_each f l = inl e -> exists a, In a l /\ f a = inl e.
Proof.
  induction l as [| a l IH]; simpl; [discriminate |].
  destruct (f a) as [e' | b] eqn:Hfa; simpl.
  - intros Heq. injection Heq as <-. exists a. split; [left; reflexivity | assumption].
  - destruct (for_each f l) as [e' | bs]; simpl; [| discriminate].
    intros Heq. injection Heq as <-.
    destruct IH as (a' & Hin & Ha'); [reflexivity |].
    exists a'. split; [right; assumption | assumption].
Qed.

End ForEach.

(** ** Rounding and the frame count *)

Lemma integer_representable (n : Z) :
  (Z.abs n <= max_exact_int)%Z -> representable (IZR n).
Proof.
  intros Hn. exists n, 0%Z. split; [exact Hn |]. split; [lia |].
  simpl. ring.
Qed.

Lemma half_integer_representable (n : Z) :
  (Z.abs n <= max_exact_int)%Z -> representable (IZR n / 2).
Proof.
  intros Hn. exists n, (-1)%Z. split; [exact Hn |]. split; [lia |].
  simpl. field.
Qed.

Lemma below_one_representable : representable (1 - / 9007199254740992).
Proof.
  exists (max_exact_int - 1)%Z, (-53)%Z.
  split; [unfold max_exact_int; lia |]. split; [lia |].
  unfold max_exact_int.
  assert (Hp : powerRZ 2 (-53) = / 9007199254740992).
  { unfold powerRZ. f_equal.
    replace (Pos.to_nat 53) with 53%nat by reflexivity.
    rewrite pow_IZR. f_equal. }
  rewrite Hp, minus_IZR. field.
Qed.

Section Rounding.

Context `{FR : FloatRounding}.

Lemma round_not_nan (x : R) : round_double x <> NaN.
Proof.
  intros Hx. pose proof (round_monotone x x (Rle_refl x)) as H.
  rewrite Hx in H. exact H.
Qed.

Lemma round_integer (n : Z) :
  (Z.abs n <= max_exact_int)%Z -> round_double (IZR n) = Finite (IZR n).
Proof. intros Hn. apply round_representable, integer_representable, Hn. Qed.

(** Between two doubles, a number rounds to a finite number between them. *)
Lemma round_between (lo x hi : R) :
  representable lo -> representable hi -> lo <= x <= hi ->
  exists p, round_double x = Finite p /\ lo <= p <= hi.
Proof.
  intros Hlo Hhi [H1 H2].
  pose proof (round_monotone lo x H1) as Ha.
  pose proof (round_monotone x hi H2) as Hb.
  rewrite (round_representable lo Hlo) in Ha.
  rewrite (round_representable hi Hhi) in Hb.
  destruct (round_double x) as [p | | |]; simpl in *; try contradiction.
  exists p. split; [reflexivity | split; assumption].
Qed.

Lemma round_ge (lo x : R) (p : R) :
  representable lo -> lo <= x -> round_double x = Finite p -> lo <= p.
Proof.
  intros Hlo H1 Hp. pose proof (round_monotone lo x H1) as Ha.
  rewrite (round_representable lo Hlo), Hp in Ha. exact Ha.
Qed.

Lemma round_le (x hi : R) (p : R) :
  representable hi -> x <= hi -> round_double x = Finite p -> p <= hi.
Proof.
  intros Hhi H1 Hp. pose proof (round_monotone x hi H1) as Ha.
  rewrite (round_representable hi Hhi), Hp in Ha. exact Ha.
Qed.

(** A non-negative number never rounds to minus infinity, nor a
    non-positive one to plus infinity. *)
Lemma round_nonneg (x : R) :
  0 <= x -> round_double x = PosInf \/ exists p, round_double x = Finite p /\ 0 <= p.
Proof.
  intros Hx. pose proof (round_monotone 0 x Hx) as Ha.
  rewrite (round_integer 0) in Ha by (unfold max_exact_int; lia).
  destruct (round_double x) as [p | | |]; simpl in *; try contradiction.
  - right. exists p. split; [reflexivity | exact Ha].
  - left. reflexivity.
Qed.

Lemma round_nonpos (x : R) :
  x <= 0 -> round_double x = NegInf \/ exists p, round_double x = Finite p /\ p <= 0.
Proof.
  intros Hx. pose proof (round_monotone x 0 Hx) as Ha.
  rewrite (round_integer 0) in Ha by (unfold max_exact_int; lia).
  destruct (round_double x) as [p | | |]; simpl in *; try contradiction.
  - right. exists p. split; [reflexivity | exact Ha].
  - left. reflexivity.
Qed.

(** Within [[0, 2 ^ 53]] the truncation of the rounded number is the floor
    of the number or one more. *)
Lemma round_floor (x : R) :
  0 <= x <= IZR max_exact_int ->
  exists p,
    round_double x = Finite p /\ 0 <= p <= IZR max_exact_int /\
    int p = Int_part p /\
    (Int_part x <= Int_part p <= Int_part x + 1)%Z /\
    (representable x -> p = x).
Proof.
  intros [Hx0 HxB].
  destruct (round_between 0 x (IZR max_exact_int)) as (p & Hp & Hp0 & HpB).
  { apply (integer_representable 0). unfold max_exact_int. lia. }
  { apply integer_representable. unfold max_exact_int. lia. }
  { split; assumption. }
  exists p. split; [exact Hp |]. split; [split; assumption |].
  split; [apply int_floor; exact Hp0 |].
  destruct (base_Int_part x) as [Hfx1 Hfx2].
  destruct (base_Int_part p) as [Hfp1 Hfp2].
  assert (Hn0 : (0 <= Int_part x)%Z).
  { apply Z.lt_succ_r. apply lt_IZR. rewrite succ_IZR. lra. }
  assert (HnB : (Int_part x <= max_exact_int)%Z) by (apply le_IZR; lra).
  split; [split |].
  - (* floor x <= x, so floor x <= p *)
    assert (Hge : IZR (Int_part x) <= p).
    { apply (round_ge _ x p); [| lra | exact Hp].
      apply integer_representable. lia. }
    apply Z.lt_succ_r. apply lt_IZR. rewrite succ_IZR. lra.
  - destruct (Z.eq_dec (Int_part x) max_exact_int) as [Heq | Hne].
    + apply le_IZR. rewrite plus_IZR, Heq. lra.
    + assert (Hle : p <= IZR (Int_part x + 1)).
      { apply (round_le x _ p); [| rewrite plus_IZR; lra | exact Hp].
        apply integer_representable. lia. }
      apply le_IZR. lra.
  - intros Hrep. rewrite (round_representable x Hrep) in Hp.
    now injection Hp as <-.
Qed.

End Rounding.

(** ** The frame schedule shared by the three scripts *)

Section Schedule.

Variable d : R.

Lemma schedule_grid (n : Z) (time : list R) :
  linspace 0 d n = inr time -> frame_schedule d n time.
Proof.
  intros Htime. unfold frame_schedule.
  split; [apply (linspace_length _ _ _ _ Htime) |].
  split; [| split].
  - intros Hn. split; [| split].
    + intros i Hi. rewrite (linspace_nth_error 0 d _ time i Hn Htime Hi).
      f_equal. lra.
    + apply (linspace_first 0 d n time); [lia | assumption].
    + apply (linspace_last 0 d _ time Hn Htime).
  - intros Hn. rewrite Hn, linspace_1 in Htime. now injection Htime as <-.
  - intros Hn. rewrite Hn, linspace_0 in Htime. now injection Htime as <-.
Qed.

End Schedule.

Section FrameCount.

Context `{FR : FloatRounding}.

Lemma int_float_finite (x : pyfloat) (n : Z) :
  int_float x = inr n -> exists p, x = Finite p /\ n = int p.
Proof.
  destruct x as [p | | |]; simpl; try discriminate.
  intros Heq. injection Heq as <-. exists p. split; reflexivity.
Qed.

(** For a duration within the range where the product is at most [2 ^ 53]
    the frame count exists, is not negative, and is as [frame_count] says. *)
Lemma count_exists (d : R) :
  0 <= d -> d * 60 <= IZR max_exact_int ->
  exists n, int_float (fmul d 60) = inr n /\ (0 <= n)%Z /\ frame_count d n.
Proof.
  intros Hd HB.
  destruct (round_floor (d * 60)) as (p & Hp & [Hp0 HpB] & Hint & Hbr & Hrep);
    [lra |].
  exists (Int_part p). unfold fmul. rewrite Hp. simpl. rewrite Hint.
  split; [reflexivity |]. split.
  - rewrite <- Hint. apply int_nonneg. exact Hp0.
  - unfold frame_count, fmul. split; [exists p; split; [exact Hp | reflexivity] |].
    split; [exact Hbr |]. intros Hr. rewrite (Hrep Hr). reflexivity.
Qed.

(** For a non-negative duration the frame count is not negative, unless the
    product overflows, which needs a product beyond [2 ^ 53]. *)
Lemma count_outcome (d : R) :
  0 <= d ->
  (int_float (fmul d 60) = inl OverflowError /\ IZR max_exact_int < d * 60) \/
  (exists n, int_float (fmul d 60) = inr n /\ (0 <= n)%Z).
Proof.
  intros Hd.
  destruct (Rle_dec (d * 60) (IZR max_exact_int)) as [HB | HB].
  - right. destruct (count_exists d Hd HB) as (n & Hn & Hn0 & _).
    exists n. split; assumption.
  - destruct (round_nonneg (d * 60)) as [Hinf | (p & Hp & Hp0)]; [lra | |].
    + left. unfold fmul. rewrite Hinf. split; [reflexivity | lra].
    + right. exists (int p). unfold fmul. rewrite Hp. simpl.
      split; [reflexivity | apply int_nonneg; exact Hp0].
Qed.

Lemma count_unique (d : R) (n m : Z) :
  int_float (fmul d 60) = inr n -> int_float (fmul d 60) = inr m -> n = m.
Proof. intros Hn Hm. congruence. Qed.

Lemma count_frame_count (d : R) (n : Z) :
  0 <= d -> d * 60 <= IZR max_exact_int ->
  int_float (fmul d 60) = inr n -> (0 <= n)%Z /\ frame_count d n.
Proof.
  intros Hd HB Hn. destruct (count_exists d Hd HB) as (m & Hm & Hm0 & Hfc).
  rewrite (count_unique d n m Hn Hm). split; assumption.
Qed.

(** At least one frame from [d * 60 >= 1] on. *)
Lemma count_ge_1 (d : R) (n : Z) :
  1 <= d * 60 -> int_float (fmul d 60) = inr n -> (1 <= n)%Z.
Proof.
  intros Hd Hn. destruct (int_float_finite _ _ Hn) as (p & Hp & ->).
  assert (H1 : 1 <= p).
  { apply (round_ge 1 (d * 60) p); [| exact Hd | exact Hp].
    apply (integer_representable 1). unfold max_exact_int. lia. }
  apply int_ge_1; lra.
Qed.

(** No frame when [d * 60] is at most the double below [1], and at most one
    frame when [d * 60 < 1]. *)
Lemma count_below_1 (d : R) (n : Z) :
  0 <= d -> d * 60 < 1 -> int_float (fmul d 60) = inr n ->
  n = 0%Z \/ n = 1%Z /\ fmul d 60 = Finite 1.
Proof.
  intros Hd Hlt Hn. destruct (int_float_finite _ _ Hn) as (p & Hp & ->).
  assert (Hp0 : 0 <= p).
  { apply (round_ge 0 (d * 60) p); [| lra | exact Hp].
    apply (integer_representable 0). unfold max_exact_int. lia. }
  assert (Hp1 : p <= 1).
  { apply (round_le (d * 60) 1 p); [| lra | exact Hp].
    apply (integer_representable 1). unfold max_exact_int. lia. }
  destruct (Rlt_dec p 1) as [Hlt1 | Hge1].
  - left. apply int_lt_1; assumption.
  - right. assert (p = 1) as -> by lra. split; [| exact Hp].
    apply int_unique; lra.
Qed.

Lemma count_zero (d : R) (n : Z) :
  0 <= d -> d * 60 <= 1 - / 9007199254740992 ->
  int_float (fmul d 60) = inr n -> n = 0%Z.
Proof.
  intros Hd Hle Hn. destruct (int_float_finite _ _ Hn) as (p & Hp & ->).
  assert (Hp0 : 0 <= p).
  { apply (round_ge 0 (d * 60) p); [| lra | exact Hp].
    apply (integer_representable 0). unfold max_exact_int. lia. }
  assert (Hp1 : p <= 1 - / 9007199254740992).
  { apply (round_le (d * 60) _ p); [| exact Hle | exact Hp].
    apply below_one_representable. }
  assert (0 < / 9007199254740992) by (apply Rinv_0_lt_compat; lra).
  apply int_lt_1; lra.
Qed.

Lemma schedule_unguarded (d : R) (n : Z) (time : list R) :
  0 < d ->
  int_float (fmul d 60) = inr n ->
  linspace 0 d n = inr time ->
  unguarded_schedule d n time (length time).
Proof.
  intros Hd Hn Htime. unfold unguarded_schedule.
  pose proof (linspace_length _ _ _ _ Htime) as Hlen.
  split; [exact Hlen |]. split; [reflexivity |]. split; [| split].
  - intros Hlt.
    destruct (count_below_1 d n) as [H0 | H1]; [lra | exact Hlt | exact Hn | |].
    + left. rewrite H0 in *. rewrite linspace_0 in Htime.
      injection Htime as <-. repeat split; reflexivity.
    + right. exact H1.
  - intros Hge. rewrite Hlen.
    assert (1 <= n)%Z by (apply (count_ge_1 d n); [lra | exact Hn]). lia.
  - intros Hle. assert (n = 0%Z) as -> by (apply (count_zero d); [lra | assumption..]).
    rewrite linspace_0 in Htime. injection Htime as <-. split; reflexivity.
Qed.

End FrameCount.

(** ** Runs of [create_animation] *)

(** Unfolds a run of [create_animation] whose outcome is known. *)
Ltac invert_run H :=
  simpl in H;
  repeat match type of H with
         | context [truediv ?a ?b] =>
             let Hf := fresh "Hfreq" in
             unfold truediv in H; destruct (Req_dec_T b 0) as [Hf | Hf];
             simpl in H; [discriminate H |]
         | context [int_float ?x] =>
             let Hc := fresh "Hcount" in
             destruct (int_float x) as [? | ?] eqn:Hc;
             simpl in H; [discriminate H |]
         | context [linspace ?a ?b ?n] =>
             let Ht := fresh "Htime" in
             destruct (linspace a b n) as [? | ?] eqn:Ht;
             simpl in H; [discriminate H |]
         | context [for_each ?f ?l] =>
             let Hfr := fresh "Hframes" in
             destruct (for_each f l) as [? | ?] eqn:Hfr;
             simpl in H; [discriminate H |]
         end;
  injection H as <-; simpl.

Section Runs_c3.

Import Src_c3.
Context `{FR : FloatRounding}.

Lemma c3_update_at (self : Vector) (time : list R) (i : nat) (t : R) :
  nth_error time i = Some t ->
  update self time i
  = inr (set_data [0; amplitude self * sin (2 * PI * frequency self * t)] [0; 0]).
Proof.
  intros Ht. unfold update. rewrite (getitem_Some _ _ _ Ht). reflexivity.
Qed.

Lemma c3_run_inv (self : Vector) (dur : option R) (ani : Animation) :
  create_animation self dur = inr ani ->
  (match dur with
   | Some d => ani_duration ani = d
   | None => frequency self <> 0 /\ ani_duration ani = 1 / frequency self
   end) /\
  int_float (fmul (ani_duration ani) 60) = inr (ani_total_frames ani) /\
  linspace 0 (ani_duration ani) (ani_total_frames ani) = inr (ani_time ani) /\
  for_each (update self (ani_time ani)) (range (ani_total_frames ani))
  = inr (ani_frames ani).
Proof.
  intros H. unfold create_animation in H.
  destruct dur as [d |]; invert_run H; repeat split; assumption.
Qed.

(** The run for a duration whose frame count is [n >= 0]. *)
Lemma c3_run_count (self : Vector) (d : R) (n : Z) :
  int_float (fmul d 60) = inr n -> (0 <= n)%Z ->
  exists ani,
    create_animation self (Some d) = inr ani /\
    ani_duration ani = d /\
    ani_total_frames ani = n /\
    linspace 0 d n = inr (ani_time ani).
Proof.
  intros Hn Hn0.
  destruct (linspace_ok 0 d n Hn0) as [time Htime].
  destruct (for_each_exists (update self time) (range n))
    as [frames Hframes].
  { intros i Hi%range_In. rewrite <- (linspace_length _ _ _ _ Htime) in Hi.
    destruct (getitem_ok time i Hi) as (t & Ht & _).
    rewrite (c3_update_at self time i t Ht). eexists. reflexivity. }
  unfold create_animation. simpl. rewrite Hn. simpl. rewrite Htime. simpl.
  rewrite Hframes. simpl. eexists. repeat split.
Qed.

(** A frame count that cannot be computed ends the run. *)
Lemma c3_run_count_error (self : Vector) (d : R) (e : PyError) :
  int_float (fmul d 60) = inl e -> create_animation self (Some d) = inl e.
Proof.
  intros Hn. unfold create_animation. simpl. rewrite Hn. reflexivity.
Qed.

Lemma c3_run_some (self : Vector) (d : R) :
  0 <= d -> d * 60 <= IZR max_exact_int ->
  exists ani, create_animation self (Some d) = inr ani.
Proof.
  intros Hd HB. destruct (count_exists d Hd HB) as (n & Hn & Hn0 & _).
  destruct (c3_run_count self d n Hn Hn0) as (ani & Hrun & _).
  exists ani. exact Hrun.
Qed.

(** The run over a non-negative duration [d]: it overflows, with a product
    beyond [2 ^ 53], or it succeeds. *)
Lemma c3_run_outcome (self : Vector) (d : R) :
  0 <= d ->
  (create_animation self (Some d) = inl OverflowError /\
   IZR max_exact_int < d * 60) \/
  (exists ani,
      create_animation self (Some d) = inr ani /\
      ani_duration ani = d /\
      int_float (fmul d 60) = inr (ani_total_frames ani) /\
      (0 <= ani_total_frames ani)%Z /\
      linspace 0 d (ani_total_frames ani) = inr (ani_time ani)).
Proof.
  intros Hd. destruct (count_outcome d Hd) as [[Herr HB] | (n & Hn & Hn0)].
  - left. split; [apply c3_run_count_error; exact Herr | exact HB].
  - right. destruct (c3_run_count self d n Hn Hn0)
      as (ani & Hrun & Hdur & Htot & Htime).
    exists ani. rewrite Htot.
    split; [exact Hrun |]. split; [exact Hdur |]. split; [exact Hn |].
    split; [exact Hn0 | exact Htime].
Qed.

(** The run over a duration in the range where the product is at most
    [2 ^ 53]: it succeeds, with the frame count of [frame_count]. *)
Lemma c3_run_schedule (self : Vector) (d : R) :
  0 <= d -> d * 60 <= IZR max_exact_int ->
  exists ani,
    create_animation self (Some d) = inr ani /\
    ani_duration ani = d /\
    int_float (fmul d 60) = inr (ani_total_frames ani) /\
    (0 <= ani_total_frames ani)%Z /\
    frame_count d (ani_total_frames ani) /\
    linspace 0 d (ani_total_frames ani) = inr (ani_time ani).
Proof.
  intros Hd HB. destruct (count_exists d Hd HB) as (n & Hn & Hn0 & Hfc).
  destruct (c3_run_count self d n Hn Hn0)
    as (ani & Hrun & Hdur & Htot & Htime).
  exists ani. rewrite Htot.
  split; [exact Hrun |]. split; [exact Hdur |]. split; [exact Hn |].
  split; [exact Hn0 |]. split; [exact Hfc | exact Htime].
Qed.

Lemma c3_run_none (self : Vector) :
  frequency self <> 0 ->
  create_animation self None = create_animation self (Some (1 / frequency self)).
Proof.
  intros Hf. unfold create_animation. rewrite (truediv_nonzero _ _ Hf).
  reflexivity.
Qed.

Lemma c3_run_frame (self : Vector) (dur : option R) (ani : Animation)
    (i : nat) (t : R) :
  create_animation self dur = inr ani ->
  nth_error (ani_time ani) i = Some t ->
  nth_error (ani_frames ani) i
  = Some (set_data [0; amplitude self * sin (2 * PI * frequency self * t)] [0; 0]).
Proof.
  intros Hrun Ht.
  destruct (c3_run_inv self dur ani Hrun) as (_ & _ & Htime & Hframes).
  assert (Hi : (i < Z.to_nat (ani_total_frames ani))%nat).
  { rewrite <- (linspace_length _ _ _ _ Htime). apply nth_error_Some. congruence. }
  destruct (for_each_nth_error _ _ _ i i Hframes (range_nth_error _ _ Hi))
    as (fr & Hupd & Hfr).
  rewrite (c3_update_at self _ i t Ht) in Hupd. congruence.
Qed.

End Runs_c3.

Section Runs_c4.

Import Src_c4.
Context `{FR : FloatRounding}.

Lemma c4_update_at (self other : Vector) (time : list R) (i : nat) (t : R) :
  nth_error time i = Some t ->
  exists fr,
    update self other time i = inr fr /\
    tip (vector_self fr)
    = (if String.eqb (axis self) "x"
       then (amplitude self * sin (2 * PI * frequency self * t), 0)
       else (0, amplitude self * sin (2 * PI * frequency self * t))) /\
    tip (vector_other fr)
    = (if String.eqb (axis other) "y"
       then (0, amplitude other * sin (2 * PI * frequency other * t + PI / 2))
       else (amplitude other * sin (2 * PI * frequency other * t + PI / 2), 0)).
Proof.
  intros Ht. unfold update. rewrite (getitem_Some _ _ _ Ht). simpl.
  destruct (String.eqb (axis self) "x"), (String.eqb (axis other) "y");
    eexists; repeat split; reflexivity.
Qed.

Lemma c4_run_inv (self other : Vector) (dur : option R) (ani : Animation) :
  create_animation self other dur = inr ani ->
  (match dur with
   | Some d => ani_duration ani = d
   | None => frequency self <> 0 /\ ani_duration ani = 1 / frequency self
   end) /\
  int_float (fmul (ani_duration ani) 60) = inr (ani_total_frames ani) /\
  linspace 0 (ani_duration ani) (ani_total_frames ani) = inr (ani_time ani) /\
  for_each (update self other (ani_time ani)) (range (ani_total_frames ani))
  = inr (ani_frames ani).
Proof.
  intros H. unfold create_animation in H.
  destruct dur as [d |]; invert_run H; repeat split; assumption.
Qed.

(** The run for a duration whose frame count is [n >= 0]. *)
Lemma c4_run_count (self other : Vector) (d : R) (n : Z) :
  int_float (fmul d 60) = inr n -> (0 <= n)%Z ->
  exists ani,
    create_animation self other (Some d) = inr ani /\
    ani_duration ani = d /\
    ani_total_frames ani = n /\
    linspace 0 d n = inr (ani_time ani).
Proof.
  intros Hn Hn0.
  destruct (linspace_ok 0 d n Hn0) as [time Htime].
  destruct (for_each_exists (update self other time) (range n))
    as [frames Hframes].
  { intros i Hi%range_In. rewrite <- (linspace_length _ _ _ _ Htime) in Hi.
    destruct (getitem_ok time i Hi) as (t & Ht & _).
    destruct (c4_update_at self other time i t Ht) as (fr & Hfr & _).
    exists fr. exact Hfr. }
  unfold create_animation. simpl. rewrite Hn. simpl. rewrite Htime. simpl.
  rewrite Hframes. simpl. eexists. repeat split.
Qed.

(** A frame count that cannot be computed ends the run. *)
Lemma c4_run_count_error (self other : Vector) (d : R) (e : PyError) :
  int_float (fmul d 60) = inl e -> create_animation self other (Some d) = inl e.
Proof.
  intros Hn. unfold create_animation. simpl. rewrite Hn. reflexivity.
Qed.

Lemma c4_run_some (self other : Vector) (d : R) :
  0 <= d -> d * 60 <= IZR max_exact_int ->
  exists ani, create_animation self other (Some d) = inr ani.
Proof.
  intros Hd HB. destruct (count_exists d Hd HB) as (n & Hn & Hn0 & _).
  destruct (c4_run_count self other d n Hn Hn0) as (ani & Hrun & _).
  exists ani. exact Hrun.
Qed.

(** The run over a non-negative duration [d]: it overflows, with a product
    beyond [2 ^ 53], or it succeeds. *)
Lemma c4_run_outcome (self other : Vector) (d : R) :
  0 <= d ->
  (create_animation self other (Some d) = inl OverflowError /\
   IZR max_exact_int < d * 60) \/
  (exists ani,
      create_animation self other (Some d) = inr ani /\
      ani_duration ani = d /\
      int_float (fmul d 60) = inr (ani_total_frames ani) /\
      (0 <= ani_total_frames ani)%Z /\
      linspace 0 d (ani_total_frames ani) = inr (ani_time ani)).
Proof.
  intros Hd. destruct (count_outcome d Hd) as [[Herr HB] | (n & Hn & Hn0)].
  - left. split; [apply c4_run_count_error; exact Herr | exact HB].
  - right. destruct (c4_run_count self other d n Hn Hn0)
      as (ani & Hrun & Hdur & Htot & Htime).
    exists ani. rewrite Htot.
    split; [exact Hrun |]. split; [exact Hdur |]. split; [exact Hn |].
    split; [exact Hn0 | exact Htime].
Qed.

(** The run over a duration in the range where the product is at most
    [2 ^ 53]: it succeeds, with the frame count of [frame_count]. *)
Lemma c4_run_schedule (self other : Vector) (d : R) :
  0 <= d -> d * 60 <= IZR max_exact_int ->
  exists ani,
    create_animation self other (Some d) = inr ani /\
    ani_duration ani = d /\
    int_float (fmul d 60) = inr (ani_total_frames ani) /\
    (0 <= ani_total_frames ani)%Z /\
    frame_count d (ani_total_frames ani) /\
    linspace 0 d (ani_total_frames ani) = inr (ani_time ani).
Proof.
  intros Hd HB. destruct (count_exists d Hd HB) as (n & Hn & Hn0 & Hfc).
  destruct (c4_run_count self other d n Hn Hn0)
    as (ani & Hrun & Hdur & Htot & Htime).
  exists ani. rewrite Htot.
  split; [exact Hrun |]. split; [exact Hdur |]. split; [exact Hn |].
  split; [exact Hn0 |]. split; [exact Hfc | exact Htime].
Qed.

Lemma c4_run_none (self other : Vector) :
  frequency self <> 0 ->
  create_animation self other None
  = create_animation self other (Some (1 / frequency self)).
Proof.
  intros Hf. unfold create_animation. rewrite (truediv_nonzero _ _ Hf).
  reflexivity.
Qed.

Lemma c4_run_frame (self other : Vector) (dur : option R) (ani : Animation)
    (i : nat) (t : R) :
  create_animation self other dur = inr ani ->
  nth_error (ani_time ani) i = Some t ->
  exists fr,
    nth_error (ani_frames ani) i = Some fr /\
    update self other (ani_time ani) i = inr fr.
Proof.
  intros Hrun Ht.
  destruct (c4_run_inv self other dur ani Hrun) as (_ & _ & Htime & Hframes).
  assert (Hi : (i < Z.to_nat (ani_total_frames ani))%nat).
  { rewrite <- (linspace_length _ _ _ _ Htime). apply nth_error_Some. congruence. }
  destruct (for_each_nth_error _ _ _ i i Hframes (range_nth_error _ _ Hi))
    as (fr & Hupd & Hfr).
  exists fr. split; assumption.
Qed.

End Runs_c4.

Section Runs_c5.

Import Src_c5.
Context `{FR : FloatRounding}.

Lemma c5_update_at (self other : Vector) (time : list R) (i : nat) (t : R) :
  nth_error time i = Some t ->
  exists fr,
    update self other time i = inr fr /\
    tip (vector_self fr)
    = (amplitude self * sin (2 * PI * frequency self * t), 0) /\
    tip (vector_other fr)
    = (amplitude other * cos (angle other)
       * sin (2 * PI * frequency other * t + phase_shift other),
       amplitude other * sin (angle other)
       * sin (2 * PI * frequency other * t + phase_shift other)) /\
    tip (resultant_vector fr)
    = (fst (tip (vector_self fr)) + fst (tip (vector_other fr)),
       snd (tip (vector_self fr)) + snd (tip (vector_other fr))).
Proof.
  intros Ht. unfold update. rewrite (getitem_Some _ _ _ Ht). simpl.
  eexists. repeat split; reflexivity.
Qed.

Lemma c5_run_inv (self other : Vector) (dur : option R) (ani : Animation) :
  create_animation self other dur = inr ani ->
  (match dur with
   | Some d => ani_duration ani = d
   | None => frequency self <> 0 /\ ani_duration ani = 1 / frequency self
   end) /\
  int_float (fmul (ani_duration ani) 60) = inr (ani_total_frames ani) /\
  linspace 0 (ani_duration ani) (ani_total_frames ani) = inr (ani_time ani) /\
  for_each (update self other (ani_time ani)) (range (ani_total_frames ani))
  = inr (ani_frames ani).
Proof.
  intros H. unfold create_animation in H.
  destruct dur as [d |]; invert_run H; repeat split; assumption.
Qed.

(** The run for a duration whose frame count is [n >= 0]. *)
Lemma c5_run_count (self other : Vector) (d : R) (n : Z) :
  int_float (fmul d 60) = inr n -> (0 <= n)%Z ->
  exists ani,
    create_animation self other (Some d) = inr ani /\
    ani_duration ani = d /\
    ani_total_frames ani = n /\
    linspace 0 d n = inr (ani_time ani).
Proof.
  intros Hn Hn0.
  destruct (linspace_ok 0 d n Hn0) as [time Htime].
  destruct (for_each_exists (update self other time) (range n))
    as [frames Hframes].
  { intros i Hi%range_In. rewrite <- (linspace_length _ _ _ _ Htime) in Hi.
    destruct (getitem_ok time i Hi) as (t & Ht & _).
    destruct (c5_update_at self other time i t Ht) as (fr & Hfr & _).
    exists fr. exact Hfr. }
  unfold create_animation. simpl. rewrite Hn. simpl. rewrite Htime. simpl.
  rewrite Hframes. simpl. eexists. repeat split.
Qed.

(** A frame count that cannot be computed ends the run. *)
Lemma c5_run_count_error (self other : Vector) (d : R) (e : PyError) :
  int_float (fmul d 60) = inl e -> create_animation self other (Some d) = inl e.
Proof.
  intros Hn. unfold create_animation. simpl. rewrite Hn. reflexivity.
Qed.

Lemma c5_run_some (self other : Vector) (d : R) :
  0 <= d -> d * 60 <= IZR max_exact_int ->
  exists ani, create_animation self other (Some d) = inr ani.
Proof.
  intros Hd HB. destruct (count_exists d Hd HB) as (n & Hn & Hn0 & _).
  destruct (c5_run_count self other d n Hn Hn0) as (ani & Hrun & _).
  exists ani. exact Hrun.
Qed.

(** The run over a non-negative duration [d]: it overflows, with a product
    beyond [2 ^ 53], or it succeeds. *)
Lemma c5_run_outcome (self other : Vector) (d : R) :
  0 <= d ->
  (create_animation self other (Some d) = inl OverflowError /\
   IZR max_exact_int < d * 60) \/
  (exists ani,
      create_animation self other (Some d) = inr ani /\
      ani_duration ani = d /\
      int_float (fmul d 60) = inr (ani_total_frames ani) /\
      (0 <= ani_total_frames ani)%Z /\
      linspace 0 d (ani_total_frames ani) = inr (ani_time ani)).
Proof.
  intros Hd. destruct (count_outcome d Hd) as [[Herr HB] | (n & Hn & Hn0)].
  - left. split; [apply c5_run_count_error; exact Herr | exact HB].
  - right. destruct (c5_run_count self other d n Hn Hn0)
      as (ani & Hrun & Hdur & Htot & Htime).
    exists ani. rewrite Htot.
    split; [exact Hrun |]. split; [exact Hdur |]. split; [exact Hn |].
    split; [exact Hn0 | exact Htime].
Qed.

(** The run over a duration in the range where the product is at most
    [2 ^ 53]: it succeeds, with the frame count of [frame_count]. *)
Lemma c5_run_schedule (self other : Vector) (d : R) :
  0 <= d -> d * 60 <= IZR max_exact_int ->
  exists ani,
    create_animation self other (Some d) = inr ani /\
    ani_duration ani = d /\
    int_float (fmul d 60) = inr (ani_total_frames ani) /\
    (0 <= ani_total_frames ani)%Z /\
    frame_count d (ani_total_frames ani) /\
    linspace 0 d (ani_total_frames ani) = inr (ani_time ani).
Proof.
  intros Hd HB. destruct (count_exists d Hd HB) as (n & Hn & Hn0 & Hfc).
  destruct (c5_run_count self other d n Hn Hn0)
    as (ani & Hrun & Hdur & Htot & Htime).
  exists ani. rewrite Htot.
  split; [exact Hrun |]. split; [exact Hdur |]. split; [exact Hn |].
  split; [exact Hn0 |]. split; [exact Hfc | exact Htime].
Qed.

Lemma c5_run_none (self other : Vector) :
  frequency self <> 0 ->
  create_animation self other None
  = create_animation self other (Some (1 / frequency self)).
Proof.
  intros Hf. unfold create_animation. rewrite (truediv_nonzero _ _ Hf).
  reflexivity.
Qed.

Lemma c5_run_frame (self other : Vector) (dur : option R) (ani : Animation)
    (i : nat) (t : R) :
  create_animation self other dur = inr ani ->
  nth_error (ani_time ani) i = Some t ->
  exists fr,
    nth_error (ani_frames ani) i = Some fr /\
    update self other (ani_time ani) i = inr fr.
Proof.
  intros Hrun Ht.
  destruct (c5_run_inv self other dur ani Hrun) as (_ & _ & Htime & Hframes).
  assert (Hi : (i < Z.to_nat (ani_total_frames ani))%nat).
  { rewrite <- (linspace_length _ _ _ _ Htime). apply nth_error_Some. congruence. }
  destruct (for_each_nth_error _ _ _ i i Hframes (range_nth_error _ _ Hi))
    as (fr & Hupd & Hfr).
  exists fr. split; assumption.
Qed.

End Runs_c5.
(** ** Trigonometric facts *)

Lemma sin_one_period (f t phi : R) :
  f <> 0 -> sin (2 * PI * f * (t + 1 / f) + phi) = sin (2 * PI * f * t + phi).
Proof.
  intros Hf.
  replace (2 * PI * f * (t + 1 / f) + phi)
    with (2 * PI * f * t + phi + 2 * PI) by (field; exact Hf).
  rewrite sin_plus, sin_2PI, cos_2PI. ring.
Qed.

Lemma sin_at_origin (f : R) : sin (2 * PI * f * 0) = 0.
Proof. rewrite Rmult_0_r. apply sin_0. Qed.

Lemma radians_45 : radians 45 = PI / 4.
Proof. unfold radians. field. Qed.

Lemma radians_90 : radians 90 = PI / 2.
Proof. unfold radians. field. Qed.

Lemma two_over_sqrt2 : 2 * (1 / sqrt 2) = sqrt 2.
Proof.
  assert (Hs : 0 < sqrt 2) by (apply sqrt_lt_R0; lra).
  assert (Hsq : sqrt 2 * sqrt 2 = 2) by (apply sqrt_sqrt; lra).
  apply (Rmult_eq_reg_r (sqrt 2)); [| lra].
  field_simplify; [| lra]. lra.
Qed.

(** ** The default duration *)

Lemma inverse_nonneg (f : R) : 0 < f -> 0 <= 1 / f.
Proof. intros Hf. apply Rlt_le. apply Rdiv_lt_0_compat; lra. Qed.

Lemma c3_default_run `{FR : FloatRounding} (self : Src_c3.Vector) :
  0 < Src_c3.frequency self ->
  (exists ani, Src_c3.create_animation self None = inr ani /\
               Src_c3.ani_duration ani = 1 / Src_c3.frequency self) \/
  (Src_c3.create_animation self None = inl OverflowError /\
   IZR max_exact_int < 1 / Src_c3.frequency self * 60).
Proof.
  intros Hf. rewrite c3_run_none by lra.
  destruct (c3_run_outcome self _ (inverse_nonneg _ Hf))
    as [Hover | (ani & Hrun & Hdur & _)].
  - right. exact Hover.
  - left. exists ani. split; assumption.
Qed.

Lemma c4_default_run `{FR : FloatRounding} (self other : Src_c4.Vector) :
  0 < Src_c4.frequency self ->
  (exists ani, Src_c4.create_animation self other None = inr ani /\
               Src_c4.ani_duration ani = 1 / Src_c4.frequency self) \/
  (Src_c4.create_animation self other None = inl OverflowError /\
   IZR max_exact_int < 1 / Src_c4.frequency self * 60).
Proof.
  intros Hf. rewrite c4_run_none by lra.
  destruct (c4_run_outcome self other _ (inverse_nonneg _ Hf))
    as [Hover | (ani & Hrun & Hdur & _)].
  - right. exact Hover.
  - left. exists ani. split; assumption.
Qed.

Lemma c5_default_run `{FR : FloatRounding} (self other : Src_c5.Vector) :
  0 < Src_c5.frequency self ->
  (exists ani, Src_c5.create_animation self other None = inr ani /\
               Src_c5.ani_duration ani = 1 / Src_c5.frequency self) \/
  (Src_c5.create_animation self other None = inl OverflowError /\
   IZR max_exact_int < 1 / Src_c5.frequency self * 60).
Proof.
  intros Hf. rewrite c5_run_none by lra.
  destruct (c5_run_outcome self other _ (inverse_nonneg _ Hf))
    as [Hover | (ani & Hrun & Hdur & _)].
  - right. exact Hover.
  - left. exists ani. split; assumption.
Qed.

(** C1: with a positive frequency [f] and no requested duration
    ([duration = None]), the duration of the animation built by
    [create_animation] is [1 / f], one period of the primary vector -- in
    each of the three scripts.  The call is the call with the requested
    duration [1 / f], whatever its outcome; it succeeds, with an animation
    of duration [1 / f], unless the frame count overflows, which needs a
    product [1 / f * 60] beyond [2 ^ 53]. *)
Theorem C1_default_duration_is_one_period `{FR : FloatRounding}
    (v3 : Src_c3.Vector) (v4 o4 : Src_c4.Vector) (v5 o5 : Src_c5.Vector) :
  0 < Src_c3.frequency v3 ->
  0 < Src_c4.frequency v4 ->
  0 < Src_c5.frequency v5 ->
  (Src_c3.create_animation v3 None
   = Src_c3.create_animation v3 (Some (1 / Src_c3.frequency v3)) /\
   ((exists ani, Src_c3.create_animation v3 None = inr ani /\
                 Src_c3.ani_duration ani = 1 / Src_c3.frequency v3) \/
    (Src_c3.create_animation v3 None = inl OverflowError /\
     IZR max_exact_int < 1 / Src_c3.frequency v3 * 60))) /\
  (Src_c4.create_animation v4 o4 None
   = Src_c4.create_animation v4 o4 (Some (1 / Src_c4.frequency v4)) /\
   ((exists ani, Src_c4.create_animation v4 o4 None = inr ani /\
                 Src_c4.ani_duration ani = 1 / Src_c4.frequency v4) \/
    (Src_c4.create_animation v4 o4 None = inl OverflowError /\
     IZR max_exact_int < 1 / Src_c4.frequency v4 * 60))) /\
  (Src_c5.create_animation v5 o5 None
   = Src_c5.create_animation v5 o5 (Some (1 / Src_c5.frequency v5)) /\
   ((exists ani, Src_c5.create_animation v5 o5 None = inr ani /\
                 Src_c5.ani_duration ani = 1 / Src_c5.frequency v5) \/
    (Src_c5.create_animation v5 o5 None = inl OverflowError /\
     IZR max_exact_int < 1 / Src_c5.frequency v5 * 60))).
Proof.
  intros H3 H4 H5. split; [| split]; split.
  - apply c3_run_none. lra.
  - apply c3_default_run. exact H3.
  - apply c4_run_none. lra.
  - apply c4_default_run. exact H4.
  - apply c5_run_none. lra.
  - apply c5_default_run. exact H5.
Qed.

Lemma C1_default_duration_witness :
  0 < Src_c3.frequency Src_c3.default_vector /\
  0 < Src_c4.frequency Src_c4.default_vector1 /\
  0 < Src_c5.frequency Src_c5.default_vector1 /\
  (exists ani, Src_c3.create_animation (FR := exact_rounding)
                 Src_c3.default_vector None = inr ani /\
               Src_c3.ani_duration ani = 1 / 1) /\
  (exists ani, Src_c4.create_animation (FR := exact_rounding)
                 Src_c4.default_vector1 Src_c4.default_vector2 None = inr ani /\
               Src_c4.ani_duration ani = 1 / (1 / 10)) /\
  (exists ani, Src_c5.create_animation (FR := exact_rounding)
                 Src_c5.default_vector1 Src_c5.default_vector2 None = inr ani /\
               Src_c5.ani_duration ani = 1 / (1 / 10)).
Proof.
  assert (H3 : 0 < Src_c3.frequency Src_c3.default_vector) by (simpl; lra).
  assert (H4 : 0 < Src_c4.frequency Src_c4.default_vector1) by (simpl; lra).
  assert (H5 : 0 < Src_c5.frequency Src_c5.default_vector1) by (simpl; lra).
  split; [exact H3 |]. split; [exact H4 |]. split; [exact H5 |].
  destruct (C1_default_duration_is_one_period (FR := exact_rounding)
              Src_c3.default_vector
              Src_c4.default_vector1 Src_c4.default_vector2
              Src_c5.default_vector1 Src_c5.default_vector2 H3 H4 H5)
    as ((_ & [R3 | [_ B3]]) & (_ & [R4 | [_ B4]]) & (_ & [R5 | [_ B5]]));
    try (exfalso; unfold max_exact_int in *; simpl in *; lra).
  split; [exact R3 |]. split; [exact R4 | exact R5].
Defined.

(** A zero frequency with no requested duration is a division by zero. *)
Lemma c3_default_duration_zero_frequency `{FR : FloatRounding}
    (self : Src_c3.Vector) :
  Src_c3.frequency self = 0 ->
  Src_c3.create_animation self None = inl ZeroDivisionError.
Proof.
  intros Hf. unfold Src_c3.create_animation. rewrite Hf, truediv_zero.
  reflexivity.
Qed.

(** ** Periodicity of the samples *)

(** C2: the displacement [amplitude * sin (2 * PI * f * t + phase)] drawn by
    [update] has period [1 / f] whenever [f] is positive: the data drawn for
    a vector at a timestamp [t + 1 / f] are those drawn at [t], for the
    single vector of [c3.py], for both vectors of [c4.py] (phase [0] and
    [PI / 2]) and for both vectors of [c5.py] (phase [0] and any
    [phase_shift]).  In particular, with the default duration the data drawn
    at timestamp [0] and at timestamp [duration] coincide (the run with the
    default duration succeeds unless the frame count overflows, which needs
    a product [1 / f * 60] beyond [2 ^ 53]). *)
Theorem C2_displacement_periodic `{FR : FloatRounding} :
  (forall (self : Src_c3.Vector) (time time' : list R) (i j : nat) (t : R),
      0 < Src_c3.amplitude self -> 0 < Src_c3.frequency self ->
      nth_error time i = Some t ->
      nth_error time' j = Some (t + 1 / Src_c3.frequency self) ->
      Src_c3.update self time' j = Src_c3.update self time i) /\
  (forall (self other : Src_c4.Vector) (time time' : list R) (i j : nat) (t : R),
      nth_error time i = Some t ->
      exists fr, Src_c4.update self other time i = inr fr /\
      (0 < Src_c4.amplitude self -> 0 < Src_c4.frequency self ->
       nth_error time' j = Some (t + 1 / Src_c4.frequency self) ->
       exists fr', Src_c4.update self other time' j = inr fr' /\
                   Src_c4.vector_self fr' = Src_c4.vector_self fr) /\
      (0 < Src_c4.amplitude other -> 0 < Src_c4.frequency other ->
       nth_error time' j = Some (t + 1 / Src_c4.frequency other) ->
       exists fr', Src_c4.update self other time' j = inr fr' /\
                   Src_c4.vector_other fr' = Src_c4.vector_other fr)) /\
  (forall (self other : Src_c5.Vector) (time time' : list R) (i j : nat) (t : R),
      nth_error time i = Some t ->
      exists fr, Src_c5.update self other time i = inr fr /\
      (0 < Src_c5.amplitude self -> 0 < Src_c5.frequency self ->
       nth_error time' j = Some (t + 1 / Src_c5.frequency self) ->
       exists fr', Src_c5.update self other time' j = inr fr' /\
                   Src_c5.vector_self fr' = Src_c5.vector_self fr) /\
      (0 < Src_c5.amplitude other -> 0 < Src_c5.frequency other ->
       nth_error time' j = Some (t + 1 / Src_c5.frequency other) ->
       exists fr', Src_c5.update self other time' j = inr fr' /\
                   Src_c5.vector_other fr' = Src_c5.vector_other fr)) /\
  (forall (self : Src_c3.Vector) (time time' : list R) (i j : nat),
      0 < Src_c3.amplitude self -> 0 < Src_c3.frequency self ->
      (exists ani,
          Src_c3.create_animation self None = inr ani /\
          Src_c3.ani_duration ani = 1 / Src_c3.frequency self /\
          (nth_error time i = Some 0 ->
           nth_error time' j = Some (Src_c3.ani_duration ani) ->
           Src_c3.update self time' j = Src_c3.update self time i)) \/
      (Src_c3.create_animation self None = inl OverflowError /\
       IZR max_exact_int < 1 / Src_c3.frequency self * 60)).
Proof.
  assert (P3 : forall (self : Src_c3.Vector) (time time' : list R) (i j : nat) (t : R),
      0 < Src_c3.frequency self ->
      nth_error time i = Some t ->
      nth_error time' j = Some (t + 1 / Src_c3.frequency self) ->
      Src_c3.update self time' j = Src_c3.update self time i).
  { intros self time time' i j t Hf Ht Ht'.
    rewrite (c3_update_at _ _ _ _ Ht), (c3_update_at _ _ _ _ Ht').
    pose proof (sin_one_period (Src_c3.frequency self) t 0) as Hp.
    rewrite !Rplus_0_r in Hp. rewrite Hp by lra. reflexivity. }
  split; [| split; [| split]].
  - intros self time time' i j t _ Hf. apply P3; assumption.
  - intros self other time time' i j t Ht.
    unfold Src_c4.update. rewrite (getitem_Some _ _ _ Ht). simpl.
    destruct (String.eqb (Src_c4.axis self) "x"),
      (String.eqb (Src_c4.axis other) "y");
      (eexists; split; [reflexivity |]; split; intros _ Hf Ht';
       rewrite (getitem_Some _ _ _ Ht'); simpl; eexists;
       (split; [reflexivity |]); simpl;
       [ pose proof (sin_one_period (Src_c4.frequency self) t 0) as Hp;
         rewrite !Rplus_0_r in Hp
       | pose proof (sin_one_period (Src_c4.frequency other) t (PI / 2)) as Hp ];
       rewrite Hp by lra; reflexivity).
  - intros self other time time' i j t Ht.
    unfold Src_c5.update. rewrite (getitem_Some _ _ _ Ht). simpl.
    eexists. split; [reflexivity |]. split; intros _ Hf Ht';
      rewrite (getitem_Some _ _ _ Ht'); simpl; eexists; (split; [reflexivity |]);
      simpl.
    + pose proof (sin_one_period (Src_c5.frequency self) t 0) as Hp.
      rewrite !Rplus_0_r in Hp. rewrite Hp by lra. reflexivity.
    + pose proof (sin_one_period (Src_c5.frequency other) t
                    (Src_c5.phase_shift other)) as Hp.
      rewrite Hp by lra. reflexivity.
  - intros self time time' i j _ Hf.
    destruct (c3_default_run self Hf) as [(ani & Hrun & Hdur) | Hover];
      [left | right; exact Hover].
    exists ani. split; [exact Hrun |]. split; [exact Hdur |].
    intros Ht Ht'. rewrite Hdur in Ht'.
    apply (P3 self time time' i j 0 Hf Ht).
    rewrite Rplus_0_l. exact Ht'.
Qed.

Lemma C2_displacement_periodic_witness :
  Src_c3.update Src_c3.default_vector
    [0 + 1 / Src_c3.frequency Src_c3.default_vector] 0
  = Src_c3.update Src_c3.default_vector [0] 0 /\
  (exists fr fr',
      Src_c5.update Src_c5.default_vector1 Src_c5.default_vector2 [0] 0 = inr fr /\
      Src_c5.update Src_c5.default_vector1 Src_c5.default_vector2
        [0 + 1 / Src_c5.frequency Src_c5.default_vector2] 0 = inr fr' /\
      Src_c5.vector_other fr' = Src_c5.vector_other fr) /\
  (exists ani,
      Src_c3.create_animation (FR := exact_rounding) Src_c3.default_vector None
      = inr ani /\
      Src_c3.ani_duration ani = 1 / 1).
Proof.
  destruct (C2_displacement_periodic (FR := exact_rounding))
    as (P3 & _ & P5 & Ploop).
  split; [| split].
  - apply (P3 Src_c3.default_vector [0]
             [0 + 1 / Src_c3.frequency Src_c3.default_vector] 0%nat 0%nat 0);
      simpl; try lra; reflexivity.
  - destruct (P5 Src_c5.default_vector1 Src_c5.default_vector2 [0]
                [0 + 1 / Src_c5.frequency Src_c5.default_vector2] 0%nat 0%nat 0
                eq_refl) as (fr & Hfr & _ & Hother).
    destruct Hother as (fr' & Hfr' & Heq); simpl; try lra; try reflexivity.
    exists fr, fr'. repeat split; assumption.
  - destruct (Ploop Src_c3.default_vector [0] [0] 0%nat 0%nat)
      as [(ani & Hrun & Hdur & _) | [_ HB]]; simpl; try lra.
    + exists ani. split; assumption.
    + exfalso. unfold max_exact_int in HB. simpl in HB. lra.
Defined.

(** With the default duration the first and the last rendered frame of
    [c3.py] carry the same data. *)
Lemma c3_default_run_loops `{FR : FloatRounding} (self : Src_c3.Vector)
    (ani : Src_c3.Animation) :
  0 < Src_c3.frequency self ->
  Src_c3.create_animation self None = inr ani ->
  nth_error (Src_c3.ani_frames ani) (Z.to_nat (Src_c3.ani_total_frames ani) - 1)
  = nth_error (Src_c3.ani_frames ani) 0.
Proof.
  intros Hf Hrun.
  destruct (c3_run_inv self None ani Hrun) as ((_ & Hdur) & Hn & Htime & Hframes).
  assert (Hd : 0 < Src_c3.ani_duration ani).
  { rewrite Hdur. apply Rdiv_lt_0_compat; lra. }
  destruct (schedule_grid _ _ _ Htime) as (_ & Hgrid & _ & _).
  destruct (Z_lt_le_dec (Src_c3.ani_total_frames ani) 2) as [Hsmall | Hbig].
  - replace (Z.to_nat (Src_c3.ani_total_frames ani) - 1)%nat with 0%nat by lia.
    reflexivity.
  - destruct (Hgrid Hbig) as (_ & Hfirst & Hlast).
    rewrite (c3_run_frame self None ani _ _ Hrun Hfirst).
    rewrite (c3_run_frame self None ani _ _ Hrun Hlast).
    rewrite Hdur. pose proof (sin_one_period (Src_c3.frequency self) 0 0) as Hp.
    rewrite !Rplus_0_r, Rplus_0_l in Hp. rewrite Hp by lra. reflexivity.
Qed.

(** ** The frame schedule *)

Lemma floor_three_halves : Int_part (1 / 40 * 60) = 1%Z.
Proof. symmetry. apply Int_part_spec. lra. Qed.

Lemma three_halves_representable : representable (1 / 40 * 60).
Proof.
  replace (1 / 40 * 60) with (IZR 3 / 2) by lra.
  apply half_integer_representable. unfold max_exact_int. lia.
Qed.

(** The run of [c3.py] over [1 / 40] second, whatever the rounding: the
    product [1.5] is a double, the frame count is [1] and the grid is
    [[0]]. *)
Lemma c3_single_frame_run `{FR : FloatRounding} (self : Src_c3.Vector) :
  exists ani,
    Src_c3.create_animation self (Some (1 / 40)) = inr ani /\
    Src_c3.ani_total_frames ani = 1%Z /\
    Src_c3.ani_time ani = [0].
Proof.
  destruct (c3_run_schedule self (1 / 40))
    as (ani & Hrun & _ & _ & _ & (_ & _ & Hrep) & Htime);
    [lra | unfold max_exact_int; lra |].
  pose proof (Hrep three_halves_representable) as Hn.
  rewrite floor_three_halves in Hn.
  exists ani. split; [exact Hrun |]. split; [exact Hn |].
  rewrite Hn, linspace_1 in Htime. now injection Htime as <-.
Qed.

(** C3 (as stated) fails on durations below [2 / 60]: for a duration of
    [1 / 40] second the frame count is [floor 1.5 = 1] and the time grid is
    the single timestamp [0], so its last timestamp is not the duration. *)
Lemma C3_counterexample_single_frame :
  0 < 1 / 40 /\
  exists ani,
    Src_c3.create_animation (FR := exact_rounding) Src_c3.default_vector
      (Some (1 / 40)) = inr ani /\
    Src_c3.ani_total_frames ani = Int_part (1 / 40 * 60) /\
    Src_c3.ani_total_frames ani = 1%Z /\
    Src_c3.ani_time ani = [0] /\
    nth_error (Src_c3.ani_time ani) (length (Src_c3.ani_time ani) - 1)
    <> Some (1 / 40).
Proof.
  split; [lra |].
  destruct (c3_single_frame_run (FR := exact_rounding) Src_c3.default_vector)
    as (ani & Hrun & Hn & Htime).
  exists ani. split; [exact Hrun |].
  split; [rewrite floor_three_halves; exact Hn |]. split; [exact Hn |].
  split; [exact Htime |]. rewrite Htime. simpl.
  intros Heq. injection Heq as Heq. lra.
Qed.

(** C3 (amended): for every positive duration [d] with [d * 60 <= 2 ^ 53],
    each script builds its schedule with a frame count that is the
    truncation of the double that [d * 60] rounds to -- [floor (d * 60)], or
    one more when the product rounds up to that integer, and
    [floor (d * 60)] itself when [d * 60] is a double -- and a time grid of
    exactly [frame_count] timestamps; when [frame_count >= 2] the
    timestamps are [i * d / (frame_count - 1)], evenly spaced from [0] to
    [d] inclusive; with one frame the grid is [[0]] and with no frame it is
    empty. *)
Theorem C3_frame_schedule `{FR : FloatRounding}
    (v3 : Src_c3.Vector) (v4 o4 : Src_c4.Vector) (v5 o5 : Src_c5.Vector)
    (d : R) :
  0 < d ->
  d * 60 <= IZR max_exact_int ->
  (exists ani,
      Src_c3.create_animation v3 (Some d) = inr ani /\
      Src_c3.ani_duration ani = d /\
      frame_count d (Src_c3.ani_total_frames ani) /\
      frame_schedule d (Src_c3.ani_total_frames ani) (Src_c3.ani_time ani)) /\
  (exists ani,
      Src_c4.create_animation v4 o4 (Some d) = inr ani /\
      Src_c4.ani_duration ani = d /\
      frame_count d (Src_c4.ani_total_frames ani) /\
      frame_schedule d (Src_c4.ani_total_frames ani) (Src_c4.ani_time ani)) /\
  (exists ani,
      Src_c5.create_animation v5 o5 (Some d) = inr ani /\
      Src_c5.ani_duration ani = d /\
      frame_count d (Src_c5.ani_total_frames ani) /\
      frame_schedule d (Src_c5.ani_total_frames ani) (Src_c5.ani_time ani)).
Proof.
  intros Hd HB. split; [| split].
  - destruct (c3_run_schedule v3 d) as (ani & Hrun & Hdur & _ & _ & Hfc & Htime);
      [lra | exact HB |].
    exists ani. split; [exact Hrun |]. split; [exact Hdur |].
    split; [exact Hfc |]. apply (schedule_grid d _ _ Htime).
  - destruct (c4_run_schedule v4 o4 d)
      as (ani & Hrun & Hdur & _ & _ & Hfc & Htime); [lra | exact HB |].
    exists ani. split; [exact Hrun |]. split; [exact Hdur |].
    split; [exact Hfc |]. apply (schedule_grid d _ _ Htime).
  - destruct (c5_run_schedule v5 o5 d)
      as (ani & Hrun & Hdur & _ & _ & Hfc & Htime); [lra | exact HB |].
    exists ani. split; [exact Hrun |]. split; [exact Hdur |].
    split; [exact Hfc |]. apply (schedule_grid d _ _ Htime).
Qed.

Lemma C3_frame_schedule_witness :
  0 < 10 /\ 10 * 60 <= IZR max_exact_int /\
  (exists ani,
      Src_c3.create_animation (FR := exact_rounding) Src_c3.default_vector
        (Some 10) = inr ani /\
      Src_c3.ani_duration ani = 10 /\
      frame_count (FR := exact_rounding) 10 (Src_c3.ani_total_frames ani) /\
      frame_schedule 10 (Src_c3.ani_total_frames ani) (Src_c3.ani_time ani)).
Proof.
  assert (Hd : 0 < 10) by lra.
  assert (HB : 10 * 60 <= IZR max_exact_int) by (unfold max_exact_int; lra).
  split; [exact Hd |]. split; [exact HB |].
  exact (proj1 (C3_frame_schedule (FR := exact_rounding) Src_c3.default_vector
                  Src_c4.default_vector1 Src_c4.default_vector2
                  Src_c5.default_vector1 Src_c5.default_vector2 10 Hd HB)).
Defined.

(** ** Construction of vectors *)

(** C4 (as stated) fails: a vector with amplitude [-1] and frequency [0] is
    constructed without error, in [c3.py] and in [c5.py]. *)
Lemma C4_counterexample_nonpositive_accepted :
  -1 <= 0 /\ 0 <= 0 /\
  (exists v, Src_c3.init (-1) 0 "#1f77b4" "o" 10 "-" false = inr v /\
             Src_c3.amplitude v = -1 /\ Src_c3.frequency v = 0) /\
  (exists v, Src_c5.init (-1) 0 45 90 "#ff7f0e" "o" 10 "-" false = inr v /\
             Src_c5.amplitude v = -1 /\ Src_c5.frequency v = 0).
Proof.
  split; [lra |]. split; [lra |].
  split; eexists; (split; [reflexivity |]); split; reflexivity.
Qed.

(** C4 (amended): constructing a vector never fails and validates nothing:
    whatever the amplitude and the frequency (also when they are zero or
    negative) the vector is built and stores them unchanged; [c5.py]
    additionally stores the angle and the phase shift converted to
    radians.  A zero frequency shows only later, as the division by zero of
    [create_animation] called without a duration. *)
Theorem C4_construction_never_fails `{FR : FloatRounding}
    (amplitude frequency angle phase_shift : R)
    (axis color point_shape line_style : string) (size3 : Z) (size5 : R)
    (dotted : bool) :
  (exists v, Src_c3.init amplitude frequency color point_shape size3 line_style
               dotted = inr v /\
             Src_c3.amplitude v = amplitude /\
             Src_c3.frequency v = frequency /\
             (frequency = 0 ->
              Src_c3.create_animation v None = inl ZeroDivisionError)) /\
  (exists v, Src_c4.init amplitude frequency axis color point_shape size3
               line_style dotted = inr v /\
             Src_c4.amplitude v = amplitude /\
             Src_c4.frequency v = frequency /\
             Src_c4.axis v = axis /\
             (frequency = 0 ->
              forall other,
                Src_c4.create_animation v other None = inl ZeroDivisionError)) /\
  (exists v, Src_c5.init amplitude frequency angle phase_shift color point_shape
               size5 line_style dotted = inr v /\
             Src_c5.amplitude v = amplitude /\
             Src_c5.frequency v = frequency /\
             Src_c5.angle v = angle * (PI / 180) /\
             Src_c5.phase_shift v = phase_shift * (PI / 180) /\
             (frequency = 0 ->
              forall other,
                Src_c5.create_animation v other None = inl ZeroDivisionError)).
Proof.
  split; [| split]; eexists; (split; [reflexivity |]); simpl;
    repeat (split; [reflexivity |]).
  - intros ->. unfold Src_c3.create_animation. simpl.
    rewrite truediv_zero. reflexivity.
  - intros -> other. unfold Src_c4.create_animation. simpl.
    rewrite truediv_zero. reflexivity.
  - intros -> other. unfold Src_c5.create_animation. simpl.
    rewrite truediv_zero. reflexivity.
Qed.

Lemma C4_construction_never_fails_witness :
  exists v,
    Src_c3.init 2 0 "#1f77b4" "o" 10 "-" false = inr v /\
    Src_c3.frequency v = 0 /\
    Src_c3.create_animation (FR := exact_rounding) v None
    = inl ZeroDivisionError.
Proof.
  destruct (proj1 (C4_construction_never_fails (FR := exact_rounding)
                     2 0 45 90 "x" "#1f77b4" "o" "-"
                     10 10 false)) as (v & Hinit & _ & Hfreq & Hzero).
  exists v. split; [exact Hinit |]. split; [exact Hfreq |].
  exact (Hzero eq_refl).
Defined.

(** ** Degenerate schedules *)

(** The run of [c3.py] over [1 / 100] second, whatever the rounding: the
    product [0.6] is below the double that precedes [1], the frame count is
    [0], the grid is empty and no frame is drawn. *)
Lemma c3_empty_run `{FR : FloatRounding} (self : Src_c3.Vector) :
  exists ani,
    Src_c3.create_animation self (Some (1 / 100)) = inr ani /\
    Src_c3.ani_total_frames ani = 0%Z /\
    Src_c3.ani_time ani = [] /\
    Src_c3.ani_frames ani = [].
Proof.
  destruct (c3_run_schedule self (1 / 100))
    as (ani & Hrun & _ & Hcount & _ & _ & Htime);
    [lra | unfold max_exact_int; lra |].
  assert (Hinv : 0 < / 9007199254740992 < 1 / 10).
  { split; [apply Rinv_0_lt_compat; lra |].
    apply (Rmult_lt_reg_r 9007199254740992); [lra |].
    rewrite Rinv_l by lra. lra. }
  assert (Hn : Src_c3.ani_total_frames ani = 0%Z).
  { apply (count_zero (1 / 100)); [lra | lra | exact Hcount]. }
  destruct (c3_run_inv _ _ ani Hrun) as (_ & _ & _ & Hframes).
  rewrite Hn in Htime, Hframes.
  rewrite linspace_0 in Htime. injection Htime as Htime.
  simpl in Hframes. injection Hframes as Hframes.
  exists ani. rewrite <- Htime, <- Hframes. repeat split. exact Hrun. exact Hn.
Qed.

(** C5 (as stated) fails: for the positive duration [1 / 100], where
    [duration * 60 < 1], the schedule is computed without any error, with a
    frame count of [0] and an empty time grid, and no frame is drawn. *)
Lemma C5_counterexample_empty_schedule :
  0 < 1 / 100 /\ 1 / 100 * 60 < 1 /\
  exists ani,
    Src_c3.create_animation (FR := exact_rounding) Src_c3.default_vector
      (Some (1 / 100)) = inr ani /\
    Src_c3.ani_total_frames ani = 0%Z /\
    Src_c3.ani_time ani = [] /\
    Src_c3.ani_frames ani = [] /\
    ~ (1 <= length (Src_c3.ani_time ani))%nat.
Proof.
  split; [lra |]. split; [lra |].
  destruct (c3_empty_run (FR := exact_rounding) Src_c3.default_vector)
    as (ani & Hrun & Hn & Htime & Hframes).
  exists ani. split; [exact Hrun |]. split; [exact Hn |].
  split; [exact Htime |]. split; [exact Hframes |].
  rewrite Htime. simpl. lia.
Qed.

(** C5 (amended): no guard on the frame count exists.  For every positive
    duration [d] with [d * 60 <= 2 ^ 53] each script computes its schedule
    and its frames without error; the time grid and the frame list have
    [frame_count] entries, where [frame_count] is [floor (d * 60)], or one
    more when the double product rounds up to that integer; when
    [d * 60 < 1] the frame count is [0] and both are empty, unless the
    product rounds up to [1]; the time grid has at least one entry for
    every [d >= 1 / 60], and none when [d * 60 <= 1 - 2 ^ -53]. *)
Theorem C5_schedule_is_unguarded `{FR : FloatRounding}
    (v3 : Src_c3.Vector) (v4 o4 : Src_c4.Vector) (v5 o5 : Src_c5.Vector)
    (d : R) :
  0 < d ->
  d * 60 <= IZR max_exact_int ->
  (exists ani,
      Src_c3.create_animation v3 (Some d) = inr ani /\
      frame_count d (Src_c3.ani_total_frames ani) /\
      unguarded_schedule d (Src_c3.ani_total_frames ani) (Src_c3.ani_time ani)
        (length (Src_c3.ani_frames ani))) /\
  (exists ani,
      Src_c4.create_animation v4 o4 (Some d) = inr ani /\
      frame_count d (Src_c4.ani_total_frames ani) /\
      unguarded_schedule d (Src_c4.ani_total_frames ani) (Src_c4.ani_time ani)
        (length (Src_c4.ani_frames ani))) /\
  (exists ani,
      Src_c5.create_animation v5 o5 (Some d) = inr ani /\
      frame_count d (Src_c5.ani_total_frames ani) /\
      unguarded_schedule d (Src_c5.ani_total_frames ani) (Src_c5.ani_time ani)
        (length (Src_c5.ani_frames ani))).
Proof.
  intros Hd HB. split; [| split].
  - destruct (c3_run_schedule v3 d)
      as (ani & Hrun & _ & Hcount & _ & Hfc & Htime); [lra | exact HB |].
    destruct (c3_run_inv _ _ ani Hrun) as (_ & _ & _ & Hframes).
    exists ani. split; [exact Hrun |]. split; [exact Hfc |].
    rewrite (for_each_length _ _ _ Hframes), range_length,
      <- (linspace_length _ _ _ _ Htime).
    apply (schedule_unguarded d _ _ Hd Hcount Htime).
  - destruct (c4_run_schedule v4 o4 d)
      as (ani & Hrun & _ & Hcount & _ & Hfc & Htime); [lra | exact HB |].
    destruct (c4_run_inv _ _ _ ani Hrun) as (_ & _ & _ & Hframes).
    exists ani. split; [exact Hrun |]. split; [exact Hfc |].
    rewrite (for_each_length _ _ _ Hframes), range_length,
      <- (linspace_length _ _ _ _ Htime).
    apply (schedule_unguarded d _ _ Hd Hcount Htime).
  - destruct (c5_run_schedule v5 o5 d)
      as (ani & Hrun & _ & Hcount & _ & Hfc & Htime); [lra | exact HB |].
    destruct (c5_run_inv _ _ _ ani Hrun) as (_ & _ & _ & Hframes).
    exists ani. split; [exact Hrun |]. split; [exact Hfc |].
    rewrite (for_each_length _ _ _ Hframes), range_length,
      <- (linspace_length _ _ _ _ Htime).
    apply (schedule_unguarded d _ _ Hd Hcount Htime).
Qed.

Lemma C5_schedule_is_unguarded_witness :
  0 < 1 / 100 /\ 1 / 100 * 60 <= IZR max_exact_int /\
  (exists ani,
      Src_c3.create_animation (FR := exact_rounding) Src_c3.default_vector
        (Some (1 / 100)) = inr ani /\
      frame_count (FR := exact_rounding) (1 / 100)
        (Src_c3.ani_total_frames ani) /\
      unguarded_schedule (FR := exact_rounding) (1 / 100)
        (Src_c3.ani_total_frames ani) (Src_c3.ani_time ani)
        (length (Src_c3.ani_frames ani))).
Proof.
  assert (Hd : 0 < 1 / 100) by lra.
  assert (HB : 1 / 100 * 60 <= IZR max_exact_int)
    by (unfold max_exact_int; lra).
  split; [exact Hd |]. split; [exact HB |].
  exact (proj1 (C5_schedule_is_unguarded (FR := exact_rounding)
                  Src_c3.default_vector
                  Src_c4.default_vector1 Src_c4.default_vector2
                  Src_c5.default_vector1 Src_c5.default_vector2 (1 / 100)
                  Hd HB)).
Defined.

(** ** Composition of the two vectors *)

Lemma c5_run_lengths `{FR : FloatRounding} (self other : Src_c5.Vector) (dur : option R)
    (ani : Src_c5.Animation) :
  Src_c5.create_animation self other dur = inr ani ->
  length (Src_c5.ani_time ani) = Z.to_nat (Src_c5.ani_total_frames ani) /\
  length (Src_c5.ani_frames ani) = Z.to_nat (Src_c5.ani_total_frames ani).
Proof.
  intros Hrun.
  destruct (c5_run_inv _ _ _ ani Hrun) as (_ & _ & Htime & Hframes).
  split.
  - apply (linspace_length _ _ _ _ Htime).
  - rewrite (for_each_length _ _ _ Hframes). apply range_length.
Qed.

(** ** The first timestamp *)

Lemma c3_first_timestamp `{FR : FloatRounding} (self : Src_c3.Vector) (dur : option R)
    (ani : Src_c3.Animation) :
  Src_c3.create_animation self dur = inr ani ->
  (1 <= Src_c3.ani_total_frames ani)%Z ->
  nth_error (Src_c3.ani_time ani) 0 = Some 0.
Proof.
  intros Hrun Hn.
  destruct (c3_run_inv _ _ ani Hrun) as (_ & _ & Htime & _).
  apply (linspace_first 0 _ _ _ Hn Htime).
Qed.

Lemma c4_first_timestamp `{FR : FloatRounding} (self other : Src_c4.Vector) (dur : option R)
    (ani : Src_c4.Animation) :
  Src_c4.create_animation self other dur = inr ani ->
  (1 <= Src_c4.ani_total_frames ani)%Z ->
  nth_error (Src_c4.ani_time ani) 0 = Some 0.
Proof.
  intros Hrun Hn.
  destruct (c4_run_inv _ _ _ ani Hrun) as (_ & _ & Htime & _).
  apply (linspace_first 0 _ _ _ Hn Htime).
Qed.

Lemma c5_first_timestamp `{FR : FloatRounding} (self other : Src_c5.Vector) (dur : option R)
    (ani : Src_c5.Animation) :
  Src_c5.create_animation self other dur = inr ani ->
  (1 <= Src_c5.ani_total_frames ani)%Z ->
  nth_error (Src_c5.ani_time ani) 0 = Some 0.
Proof.
  intros Hrun Hn.
  destruct (c5_run_inv _ _ _ ani Hrun) as (_ & _ & Htime & _).
  apply (linspace_first 0 _ _ _ Hn Htime).
Qed.

(** A run over [d] seconds with at least one frame, and its first timestamp. *)
Lemma c4_run_with_first_frame `{FR : FloatRounding} (self other : Src_c4.Vector) (d : R) :
  1 <= d * 60 -> d * 60 <= IZR max_exact_int ->
  exists ani, Src_c4.create_animation self other (Some d) = inr ani /\
              (1 <= Src_c4.ani_total_frames ani)%Z /\
              nth_error (Src_c4.ani_time ani) 0 = Some 0.
Proof.
  intros Hd HB.
  destruct (c4_run_schedule self other d)
    as (ani & Hrun & _ & Hcount & _ & _ & Htime); [lra | exact HB |].
  pose proof (count_ge_1 d _ Hd Hcount) as Hn.
  exists ani. split; [exact Hrun |]. split; [exact Hn |].
  apply (linspace_first 0 d _ _ Hn Htime).
Qed.

Lemma c5_run_with_first_frame `{FR : FloatRounding} (self other : Src_c5.Vector) (d : R) :
  1 <= d * 60 -> d * 60 <= IZR max_exact_int ->
  exists ani, Src_c5.create_animation self other (Some d) = inr ani /\
              (1 <= Src_c5.ani_total_frames ani)%Z /\
              nth_error (Src_c5.ani_time ani) 0 = Some 0.
Proof.
  intros Hd HB.
  destruct (c5_run_schedule self other d)
    as (ani & Hrun & _ & Hcount & _ & _ & Htime); [lra | exact HB |].
  pose proof (count_ge_1 d _ Hd Hcount) as Hn.
  exists ani. split; [exact Hrun |]. split; [exact Hn |].
  apply (linspace_first 0 d _ _ Hn Htime).
Qed.

Lemma c3_run_with_first_frame `{FR : FloatRounding} (self : Src_c3.Vector) (d : R) :
  1 <= d * 60 -> d * 60 <= IZR max_exact_int ->
  exists ani, Src_c3.create_animation self (Some d) = inr ani /\
              (1 <= Src_c3.ani_total_frames ani)%Z /\
              nth_error (Src_c3.ani_time ani) 0 = Some 0.
Proof.
  intros Hd HB.
  destruct (c3_run_schedule self d)
    as (ani & Hrun & _ & Hcount & _ & _ & Htime); [lra | exact HB |].
  pose proof (count_ge_1 d _ Hd Hcount) as Hn.
  exists ani. split; [exact Hrun |]. split; [exact Hn |].
  apply (linspace_first 0 d _ _ Hn Htime).
Qed.

Lemma one_frame_duration : 1 <= 1 / 60 * 60 <= IZR max_exact_int.
Proof. unfold max_exact_int. lra. Qed.

Lemma ten_seconds_frames : 1 <= 1 / (1 / 10) * 60 <= IZR max_exact_int.
Proof. unfold max_exact_int. lra. Qed.

(** ** Angle mode ([c5.py]) *)

(** C7: in [c5.py], when the second vector is constructed from an angle and
    a phase shift in degrees, both are stored in radians (converted once, by
    the constructor), and at every frame, of timestamp [t], its sample is
    [(amplitude * cos angle * sin (2 * PI * frequency * t + phase_shift),
      amplitude * sin angle * sin (2 * PI * frequency * t + phase_shift))]
    with these radians, while the sample of the first (reference) vector is
    [(amplitude * sin (2 * PI * frequency * t), 0)]. *)
Theorem C7_angle_mode_samples `{FR : FloatRounding}
    (self other : Src_c5.Vector) (amplitude frequency angle phase_shift : R)
    (color point_shape line_style : string) (point_size : R) (dotted : bool)
    (dur : option R) (ani : Src_c5.Animation) (i : nat) (t : R) :
  Src_c5.init amplitude frequency angle phase_shift color point_shape
    point_size line_style dotted = inr other ->
  Src_c5.create_animation self other dur = inr ani ->
  nth_error (Src_c5.ani_time ani) i = Some t ->
  Src_c5.angle other = angle * (PI / 180) /\
  Src_c5.phase_shift other = phase_shift * (PI / 180) /\
  exists fr,
    nth_error (Src_c5.ani_frames ani) i = Some fr /\
    tip (Src_c5.vector_other fr)
    = (amplitude * cos (angle * (PI / 180))
       * sin (2 * PI * frequency * t + phase_shift * (PI / 180)),
       amplitude * sin (angle * (PI / 180))
       * sin (2 * PI * frequency * t + phase_shift * (PI / 180))) /\
    tip (Src_c5.vector_self fr)
    = (Src_c5.amplitude self * sin (2 * PI * Src_c5.frequency self * t), 0).
Proof.
  intros Hinit Hrun Ht.
  destruct (c5_run_frame _ _ _ _ _ _ Hrun Ht) as (fr & Hfr & Hupd).
  destruct (c5_update_at self other _ i t Ht) as (fr' & Hupd' & Hself & Hother & _).
  rewrite Hupd in Hupd'. injection Hupd' as <-.
  unfold Src_c5.init in Hinit. simpl in Hinit. injection Hinit as <-.
  simpl in Hother.
  split; [reflexivity |]. split; [reflexivity |].
  exists fr. split; [exact Hfr |]. split; [exact Hother | exact Hself].
Qed.

Lemma C7_angle_mode_samples_witness :
  exists ani fr,
    Src_c5.init 2 (1 / 10) 45 90 "#ff7f0e" "o" 10 "-" false
    = inr Src_c5.default_vector2 /\
    Src_c5.create_animation (FR := exact_rounding) Src_c5.default_vector1 Src_c5.default_vector2
      (Some (1 / 60)) = inr ani /\
    nth_error (Src_c5.ani_time ani) 0 = Some 0 /\
    nth_error (Src_c5.ani_frames ani) 0 = Some fr /\
    tip (Src_c5.vector_other fr)
    = (2 * cos (45 * (PI / 180)) * sin (2 * PI * (1 / 10) * 0 + 90 * (PI / 180)),
       2 * sin (45 * (PI / 180)) * sin (2 * PI * (1 / 10) * 0 + 90 * (PI / 180))).
Proof.
  destruct ((c5_run_with_first_frame (FR := exact_rounding)) Src_c5.default_vector1
              Src_c5.default_vector2 (1 / 60)) as (ani & Hrun & _ & Ht);
    [apply (proj1 one_frame_duration) | apply (proj2 one_frame_duration) |].
  destruct ((C7_angle_mode_samples (FR := exact_rounding)) Src_c5.default_vector1 Src_c5.default_vector2
              2 (1 / 10) 45 90 "#ff7f0e" "o" "-" 10 false (Some (1 / 60)) ani
              0%nat 0 eq_refl Hrun Ht) as (_ & _ & fr & Hfr & Hother & _).
  exists ani, fr. repeat split; assumption.
Defined.

(** ** Axis mode ([c4.py]) *)

(** C8: in [c4.py], at every frame, of timestamp [t], the sample of the
    first vector is [(amplitude * sin (2 * PI * f * t), 0)] when its axis is
    ["x"] and [(0, amplitude * sin (2 * PI * f * t))] when it is ["y"]; the
    sample of the second vector has the fixed phase offset [PI / 2], on the
    y axis when its axis is ["y"] and on the x axis when it is ["x"], the
    other coordinate being [0] (a vector of [c4.py] has no phase-shift
    field).  In the script run with amplitude [2] and frequency [1 / 10] the
    first timestamp is [0], where the first vector is at [(0, 0)] and the
    second, on the y axis, at [(0, 2)]. *)
Theorem C8_axis_mode_samples `{FR : FloatRounding} :
  (forall (self other : Src_c4.Vector) (dur : option R)
          (ani : Src_c4.Animation) (i : nat) (t : R),
      Src_c4.create_animation self other dur = inr ani ->
      nth_error (Src_c4.ani_time ani) i = Some t ->
      exists fr,
        nth_error (Src_c4.ani_frames ani) i = Some fr /\
        (Src_c4.axis self = "x"%string ->
         tip (Src_c4.vector_self fr)
         = (Src_c4.amplitude self * sin (2 * PI * Src_c4.frequency self * t), 0)) /\
        (Src_c4.axis self = "y"%string ->
         tip (Src_c4.vector_self fr)
         = (0, Src_c4.amplitude self * sin (2 * PI * Src_c4.frequency self * t))) /\
        (Src_c4.axis other = "y"%string ->
         tip (Src_c4.vector_other fr)
         = (0, Src_c4.amplitude other
               * sin (2 * PI * Src_c4.frequency other * t + PI / 2))) /\
        (Src_c4.axis other = "x"%string ->
         tip (Src_c4.vector_other fr)
         = (Src_c4.amplitude other
            * sin (2 * PI * Src_c4.frequency other * t + PI / 2), 0))) /\
  (forall (vector1_color vector2_color vector_shape : string) (vector_size : Z)
          (vector_dotted : bool),
      exists ani fr,
        Src_c4.script 2 (1 / 10) vector1_color vector2_color vector_shape
          vector_size vector_dotted = inr ani /\
        nth_error (Src_c4.ani_time ani) 0 = Some 0 /\
        nth_error (Src_c4.ani_frames ani) 0 = Some fr /\
        tip (Src_c4.vector_self fr) = (0, 0) /\
        tip (Src_c4.vector_other fr) = (0, 2)).
Proof.
  split.
  - intros self other dur ani i t Hrun Ht.
    destruct (c4_run_frame _ _ _ _ _ _ Hrun Ht) as (fr & Hfr & Hupd).
    destruct (c4_update_at self other _ i t Ht) as (fr' & Hupd' & Hself & Hother).
    rewrite Hupd in Hupd'. injection Hupd' as <-.
    exists fr. split; [exact Hfr |].
    repeat split; intros Hax; rewrite Hax in *; simpl in *; assumption.
  - intros c1 c2 shape size dotted.
    unfold Src_c4.script. simpl.
    rewrite truediv_nonzero by lra. simpl.
    match goal with
    | |- context [Src_c4.create_animation ?v1 ?v2 _] =>
        destruct (c4_run_with_first_frame v1 v2 (1 / (1 / 10)))
          as (ani & Hrun & _ & Ht); [apply (proj1 ten_seconds_frames) | apply (proj2 ten_seconds_frames) |];
        destruct (c4_run_frame _ _ _ _ _ _ Hrun Ht) as (fr & Hfr & Hupd);
        destruct (c4_update_at v1 v2 _ 0 0 Ht) as (fr' & Hupd' & Hself & Hother)
    end.
    rewrite Hupd in Hupd'. injection Hupd' as <-.
    simpl in Hself, Hother.
    exists ani, fr. split; [exact Hrun |]. split; [exact Ht |].
    split; [exact Hfr |]. split.
    + rewrite Hself, sin_at_origin. f_equal. lra.
    + rewrite Hother. f_equal.
      replace (2 * PI * (1 / 10) * 0 + PI / 2) with (PI / 2) by lra.
      rewrite sin_PI2. lra.
Qed.

Lemma C8_axis_mode_samples_witness :
  exists ani fr,
    Src_c4.create_animation (FR := exact_rounding) Src_c4.default_vector1 Src_c4.default_vector2
      (Some (1 / 60)) = inr ani /\
    nth_error (Src_c4.ani_time ani) 0 = Some 0 /\
    nth_error (Src_c4.ani_frames ani) 0 = Some fr /\
    tip (Src_c4.vector_self fr) = (2 * sin (2 * PI * (1 / 10) * 0), 0) /\
    tip (Src_c4.vector_other fr) = (0, 2 * sin (2 * PI * (1 / 10) * 0 + PI / 2)).
Proof.
  destruct ((c4_run_with_first_frame (FR := exact_rounding)) Src_c4.default_vector1
              Src_c4.default_vector2 (1 / 60)) as (ani & Hrun & _ & Ht);
    [apply (proj1 one_frame_duration) | apply (proj2 one_frame_duration) |].
  destruct (proj1 (C8_axis_mode_samples (FR := exact_rounding)) Src_c4.default_vector1
              Src_c4.default_vector2 (Some (1 / 60)) ani 0%nat 0 Hrun Ht)
    as (fr & Hfr & Hx & _ & Hy & _).
  exists ani, fr. split; [exact Hrun |]. split; [exact Ht |].
  split; [exact Hfr |]. split; [exact (Hx eq_refl) | exact (Hy eq_refl)].
Defined.

(** ** The resultant ([c5.py]) *)

Lemma nth_error_map_inv {A B : Type} (g : A -> B) (l : list A) (i : nat) (b : B) :
  nth_error (map g l) i = Some b ->
  exists a, nth_error l i = Some a /\ b = g a.
Proof.
  rewrite nth_error_map. destruct (nth_error l i) as [a |]; simpl.
  - intros Heq. injection Heq as <-. exists a. split; reflexivity.
  - discriminate.
Qed.

(** C9: in every run of [c5.py] the sample sequences of the two vectors and
    of the resultant have the same length, and at every index the resultant
    sample is the componentwise sum of the two vectors' samples.  In the
    script run with amplitude [2], frequency [1 / 10], angle 45 degrees and
    phase shift 90 degrees, the first timestamp is [0], where the second
    vector and the resultant are both at [(sqrt 2, sqrt 2)]. *)
Theorem C9_resultant_is_componentwise_sum `{FR : FloatRounding} :
  (forall (self other : Src_c5.Vector) (dur : option R)
          (ani : Src_c5.Animation),
      Src_c5.create_animation self other dur = inr ani ->
      length (self_samples ani) = length (other_samples ani) /\
      length (resultant_samples ani) = length (self_samples ani) /\
      forall (i : nat) (a b : Sample),
        nth_error (self_samples ani) i = Some a ->
        nth_error (other_samples ani) i = Some b ->
        nth_error (resultant_samples ani) i
        = Some (fst a + fst b, snd a + snd b)) /\
  (forall (vector1_color vector2_color vector_shape : string) (vector_size : R)
          (vector_dotted : bool),
      exists ani fr,
        Src_c5.script 2 (1 / 10) vector1_color vector2_color vector_shape
          vector_size vector_dotted 45 90 = inr ani /\
        nth_error (Src_c5.ani_time ani) 0 = Some 0 /\
        nth_error (Src_c5.ani_frames ani) 0 = Some fr /\
        tip (Src_c5.vector_self fr) = (0, 0) /\
        tip (Src_c5.vector_other fr) = (sqrt 2, sqrt 2) /\
        tip (Src_c5.resultant_vector fr) = (sqrt 2, sqrt 2)).
Proof.
  split.
  - intros self other dur ani Hrun.
    unfold self_samples, other_samples, resultant_samples.
    rewrite !length_map. split; [reflexivity |]. split; [reflexivity |].
    intros i a b Ha Hb.
    apply nth_error_map_inv in Ha. destruct Ha as (fr & Hfr & ->).
    apply nth_error_map_inv in Hb. destruct Hb as (fr0 & Hfr0 & ->).
    assert (fr0 = fr) as -> by congruence.
    rewrite nth_error_map, Hfr. simpl. f_equal.
    destruct (c5_run_lengths _ _ _ _ Hrun) as [Hlt Hlf].
    assert (Hi : (i < length (Src_c5.ani_time ani))%nat).
    { rewrite Hlt, <- Hlf. apply nth_error_Some. congruence. }
    destruct (getitem_ok _ i Hi) as (t & Ht & _).
    destruct (c5_run_frame _ _ _ _ _ _ Hrun Ht) as (fr1 & Hfr1 & Hupd).
    assert (fr1 = fr) as -> by congruence.
    destruct (c5_update_at self other _ i t Ht) as (fr' & Hupd' & _ & _ & Hres).
    rewrite Hupd in Hupd'. injection Hupd' as <-. exact Hres.
  - intros c1 c2 shape size dotted.
    unfold Src_c5.script. simpl.
    rewrite truediv_nonzero by lra. simpl.
    match goal with
    | |- context [Src_c5.create_animation ?v1 ?v2 _] =>
        destruct (c5_run_with_first_frame v1 v2 (1 / (1 / 10)))
          as (ani & Hrun & _ & Ht); [apply (proj1 ten_seconds_frames) | apply (proj2 ten_seconds_frames) |];
        destruct (c5_run_frame _ _ _ _ _ _ Hrun Ht) as (fr & Hfr & Hupd);
        destruct (c5_update_at v1 v2 _ 0 0 Ht)
          as (fr' & Hupd' & Hself & Hother & Hres)
    end.
    rewrite Hupd in Hupd'. injection Hupd' as <-.
    simpl in Hself, Hother.
    assert (Hs : tip (Src_c5.vector_self fr) = (0, 0)).
    { rewrite Hself, sin_at_origin. f_equal. lra. }
    assert (Ho : tip (Src_c5.vector_other fr) = (sqrt 2, sqrt 2)).
    { rewrite Hother, radians_45, radians_90.
      replace (2 * PI * (1 / 10) * 0 + PI / 2) with (PI / 2) by lra.
      rewrite sin_PI2, cos_PI4, sin_PI4, !Rmult_1_r, two_over_sqrt2.
      reflexivity. }
    exists ani, fr. split; [exact Hrun |]. split; [exact Ht |].
    split; [exact Hfr |]. split; [exact Hs |]. split; [exact Ho |].
    rewrite Hres, Hs, Ho. simpl. f_equal; lra.
Qed.

Lemma C9_resultant_witness :
  exists ani a b,
    Src_c5.create_animation (FR := exact_rounding) Src_c5.default_vector1 Src_c5.default_vector2
      (Some (1 / 60)) = inr ani /\
    length (self_samples ani) = length (other_samples ani) /\
    nth_error (self_samples ani) 0 = Some a /\
    nth_error (other_samples ani) 0 = Some b /\
    nth_error (resultant_samples ani) 0 = Some (fst a + fst b, snd a + snd b).
Proof.
  destruct ((c5_run_with_first_frame (FR := exact_rounding)) Src_c5.default_vector1
              Src_c5.default_vector2 (1 / 60)) as (ani & Hrun & _ & Ht);
    [apply (proj1 one_frame_duration) | apply (proj2 one_frame_duration) |].
  destruct ((c5_run_frame (FR := exact_rounding)) _ _ _ _ _ _ Hrun Ht) as (fr & Hfr & _).
  assert (Ha : nth_error (self_samples ani) 0
               = Some (tip (Src_c5.vector_self fr))).
  { unfold self_samples. rewrite nth_error_map, Hfr. reflexivity. }
  assert (Hb : nth_error (other_samples ani) 0
               = Some (tip (Src_c5.vector_other fr))).
  { unfold other_samples. rewrite nth_error_map, Hfr. reflexivity. }
  destruct (proj1 (C9_resultant_is_componentwise_sum (FR := exact_rounding)) Src_c5.default_vector1
              Src_c5.default_vector2 (Some (1 / 60)) ani Hrun)
    as (Hlen & _ & Hres).
  exists ani, (tip (Src_c5.vector_self fr)), (tip (Src_c5.vector_other fr)).
  split; [exact Hrun |]. split; [exact Hlen |]. split; [exact Ha |].
  split; [exact Hb |]. exact (Hres 0%nat _ _ Ha Hb).
Defined.

(** ** The first frame *)

Lemma int_nonpos (x : R) : x <= 0 -> (int x <= 0)%Z.
Proof.
  intros Hx. unfold int.
  destruct (base_Int_part x) as [Hlo _].
  destruct (base_Int_part (- x)) as [_ Hhi].
  destruct (Rle_dec 0 x) as [H0 | H0].
  - apply le_IZR. lra.
  - assert (H : (-1 < Int_part (- x))%Z) by (apply lt_IZR; lra). lia.
Qed.

(** A duration that yields at least one frame is positive. *)
Lemma count_positive `{FR : FloatRounding} (d : R) (n : Z) :
  int_float (fmul d 60) = inr n -> (1 <= n)%Z -> 0 < d.
Proof.
  intros Hcount Hn.
  destruct (Rlt_le_dec 0 d) as [Hd | Hd]; [exact Hd | exfalso].
  destruct (int_float_finite _ _ Hcount) as (p & Hp & Hnp).
  unfold fmul in Hp.
  destruct (round_nonpos (d * 60)) as [Hinf | (q & Hq & Hq0)]; [lra | congruence |].
  rewrite Hp in Hq. injection Hq as <-.
  pose proof (int_nonpos p Hq0). lia.
Qed.

(** The artist of the primary vector at a timestamp [0]: both of its data
    lists are [[0; 0]], so the drawn segment is the point at the origin. *)
Lemma c3_update_origin (self : Src_c3.Vector) (time : list R) (i : nat) :
  nth_error time i = Some 0 ->
  Src_c3.update self time i = inr (set_data [0; 0] [0; 0]).
Proof.
  intros Ht. rewrite (c3_update_at self time i 0 Ht).
  rewrite sin_at_origin, Rmult_0_r. reflexivity.
Qed.

Lemma c4_update_origin (self other : Src_c4.Vector) (time : list R) (i : nat)
    (fr : Src_c4.Frame) :
  nth_error time i = Some 0 ->
  Src_c4.update self other time i = inr fr ->
  Src_c4.vector_self fr = set_data [0; 0] [0; 0].
Proof.
  intros Ht Hupd. unfold Src_c4.update in Hupd.
  rewrite (getitem_Some _ _ _ Ht) in Hupd. simpl in Hupd.
  rewrite sin_at_origin, Rmult_0_r in Hupd.
  destruct (String.eqb (Src_c4.axis self) "x"),
           (String.eqb (Src_c4.axis other) "y");
    injection Hupd as <-; reflexivity.
Qed.

Lemma c5_update_origin (self other : Src_c5.Vector) (time : list R) (i : nat)
    (fr : Src_c5.Frame) :
  nth_error time i = Some 0 ->
  Src_c5.update self other time i = inr fr ->
  Src_c5.vector_self fr = set_data [0; 0] [0; 0].
Proof.
  intros Ht Hupd. unfold Src_c5.update in Hupd.
  rewrite (getitem_Some _ _ _ Ht) in Hupd. simpl in Hupd.
  rewrite sin_at_origin, Rmult_0_r in Hupd.
  injection Hupd as <-. reflexivity.
Qed.

(** C10: in each of the three scripts, whatever the amplitudes, the
    frequencies and the other settings, a run of [create_animation] over a
    duration [d] that produces at least one frame has a positive duration, a
    time grid whose first timestamp is exactly [0] and a first frame in which
    the artist of the primary vector is given the data [[0; 0]] and
    [[0; 0]]: it is drawn, with both of its end points at the origin, and
    its tip is [(0, 0)].  Such runs exist: every duration with
    [1 <= d * 60 <= 2 ^ 53] gives one in each script. *)
Theorem C10_animation_starts_at_origin `{FR : FloatRounding}
    (v3 : Src_c3.Vector) (v4 o4 : Src_c4.Vector) (v5 o5 : Src_c5.Vector)
    (d : R) :
  (1 <= d * 60 <= IZR max_exact_int ->
   exists a3 a4 a5,
     Src_c3.create_animation v3 (Some d) = inr a3 /\
     (1 <= Src_c3.ani_total_frames a3)%Z /\
     Src_c4.create_animation v4 o4 (Some d) = inr a4 /\
     (1 <= Src_c4.ani_total_frames a4)%Z /\
     Src_c5.create_animation v5 o5 (Some d) = inr a5 /\
     (1 <= Src_c5.ani_total_frames a5)%Z) /\
  (forall ani,
      Src_c3.create_animation v3 (Some d) = inr ani ->
      (1 <= Src_c3.ani_total_frames ani)%Z ->
      0 < d /\
      nth_error (Src_c3.ani_time ani) 0 = Some 0 /\
      exists fr,
        nth_error (Src_c3.ani_frames ani) 0 = Some fr /\
        fr = set_data [0; 0] [0; 0] /\
        tip fr = (0, 0)) /\
  (forall ani,
      Src_c4.create_animation v4 o4 (Some d) = inr ani ->
      (1 <= Src_c4.ani_total_frames ani)%Z ->
      0 < d /\
      nth_error (Src_c4.ani_time ani) 0 = Some 0 /\
      exists fr,
        nth_error (Src_c4.ani_frames ani) 0 = Some fr /\
        Src_c4.vector_self fr = set_data [0; 0] [0; 0] /\
        tip (Src_c4.vector_self fr) = (0, 0)) /\
  (forall ani,
      Src_c5.create_animation v5 o5 (Some d) = inr ani ->
      (1 <= Src_c5.ani_total_frames ani)%Z ->
      0 < d /\
      nth_error (Src_c5.ani_time ani) 0 = Some 0 /\
      exists fr,
        nth_error (Src_c5.ani_frames ani) 0 = Some fr /\
        Src_c5.vector_self fr = set_data [0; 0] [0; 0] /\
        tip (Src_c5.vector_self fr) = (0, 0)).
Proof.
  split; [| split; [| split]].
  - intros [Hlo Hhi].
    destruct (c3_run_with_first_frame v3 d Hlo Hhi) as (a3 & H3 & N3 & _).
    destruct (c4_run_with_first_frame v4 o4 d Hlo Hhi) as (a4 & H4 & N4 & _).
    destruct (c5_run_with_first_frame v5 o5 d Hlo Hhi) as (a5 & H5 & N5 & _).
    exists a3, a4, a5. repeat split; assumption.
  - intros ani Hrun Hn.
    destruct (c3_run_inv _ _ _ Hrun) as (Hdur & Hcount & Htime & Hframes).
    simpl in Hdur. rewrite Hdur in Hcount, Htime.
    pose proof (linspace_first 0 d _ _ Hn Htime) as Ht.
    split; [exact (count_positive d _ Hcount Hn) |]. split; [exact Ht |].
    pose proof (c3_run_frame _ _ _ _ _ Hrun Ht) as Hfr.
    rewrite sin_at_origin, Rmult_0_r in Hfr.
    eexists. split; [exact Hfr |]. split; reflexivity.
  - intros ani Hrun Hn.
    destruct (c4_run_inv _ _ _ _ Hrun) as (Hdur & Hcount & Htime & Hframes).
    simpl in Hdur. rewrite Hdur in Hcount, Htime.
    pose proof (linspace_first 0 d _ _ Hn Htime) as Ht.
    split; [exact (count_positive d _ Hcount Hn) |]. split; [exact Ht |].
    destruct (c4_run_frame _ _ _ _ _ _ Hrun Ht) as (fr & Hfr & Hupd).
    pose proof (c4_update_origin _ _ _ _ _ Ht Hupd) as Hdata.
    exists fr. split; [exact Hfr |]. split; [exact Hdata |].
    rewrite Hdata. reflexivity.
  - intros ani Hrun Hn.
    destruct (c5_run_inv _ _ _ _ Hrun) as (Hdur & Hcount & Htime & Hframes).
    simpl in Hdur. rewrite Hdur in Hcount, Htime.
    pose proof (linspace_first 0 d _ _ Hn Htime) as Ht.
    split; [exact (count_positive d _ Hcount Hn) |]. split; [exact Ht |].
    destruct (c5_run_frame _ _ _ _ _ _ Hrun Ht) as (fr & Hfr & Hupd).
    pose proof (c5_update_origin _ _ _ _ _ Ht Hupd) as Hdata.
    exists fr. split; [exact Hfr |]. split; [exact Hdata |].
    rewrite Hdata. reflexivity.
Qed.

Lemma C10_animation_starts_at_origin_witness :
  1 <= 1 / 60 * 60 <= IZR max_exact_int /\
  exists a3 a4 a5,
    Src_c3.create_animation (FR := exact_rounding) Src_c3.default_vector
      (Some (1 / 60)) = inr a3 /\
    (1 <= Src_c3.ani_total_frames a3)%Z /\
    nth_error (Src_c3.ani_time a3) 0 = Some 0 /\
    nth_error (Src_c3.ani_frames a3) 0 = Some (set_data [0; 0] [0; 0]) /\
    Src_c4.create_animation (FR := exact_rounding) Src_c4.default_vector1
      Src_c4.default_vector2 (Some (1 / 60)) = inr a4 /\
    (1 <= Src_c4.ani_total_frames a4)%Z /\
    nth_error (Src_c4.ani_time a4) 0 = Some 0 /\
    (exists fr,
        nth_error (Src_c4.ani_frames a4) 0 = Some fr /\
        Src_c4.vector_self fr = set_data [0; 0] [0; 0]) /\
    Src_c5.create_animation (FR := exact_rounding) Src_c5.default_vector1
      Src_c5.default_vector2 (Some (1 / 60)) = inr a5 /\
    (1 <= Src_c5.ani_total_frames a5)%Z /\
    nth_error (Src_c5.ani_time a5) 0 = Some 0 /\
    (exists fr,
        nth_error (Src_c5.ani_frames a5) 0 = Some fr /\
        Src_c5.vector_self fr = set_data [0; 0] [0; 0]).
Proof.
  split; [exact one_frame_duration |].
  destruct (C10_animation_starts_at_origin (FR := exact_rounding)
              Src_c3.default_vector
              Src_c4.default_vector1 Src_c4.default_vector2
              Src_c5.default_vector1 Src_c5.default_vector2 (1 / 60))
    as (Hex & H3 & H4 & H5).
  destruct (Hex one_frame_duration) as (a3 & a4 & a5 & R3 & N3 & R4 & N4 & R5 & N5).
  destruct (H3 a3 R3 N3) as (_ & T3 & f3 & F3 & D3 & _).
  destruct (H4 a4 R4 N4) as (_ & T4 & f4 & F4 & D4 & _).
  destruct (H5 a5 R5 N5) as (_ & T5 & f5 & F5 & D5 & _).
  exists a3, a4, a5.
  split; [exact R3 |]. split; [exact N3 |]. split; [exact T3 |].
  split; [rewrite F3, D3; reflexivity |].
  split; [exact R4 |]. split; [exact N4 |]. split; [exact T4 |].
  split; [exists f4; split; assumption |].
  split; [exact R5 |]. split; [exact N5 |]. split; [exact T5 |].
  exists f5; split; assumption.
Defined.

(** * Further properties of the scripts *)

(** ** The time grid *)

Section Grid.

Variable d : R.
Hypothesis d_pos : 0 < d.
Variable n : Z.
Variable time : list R.
Hypothesis grid : linspace 0 d n = inr time.

Lemma grid_entry (i : nat) (t : R) :
  nth_error time i = Some t ->
  (i < Z.to_nat n)%nat /\
  ((2 <= n)%Z /\ t = INR i * (d / IZR (n - 1)) \/
   n = 1%Z /\ i = 0%nat /\ t = 0).
Proof.
  intros Ht.
  destruct (schedule_grid d n time grid) as (Hlen & Hbig & Hone & Hzero).
  assert (Hi : (i < Z.to_nat n)%nat).
  { rewrite <- Hlen. apply nth_error_Some. congruence. }
  split; [exact Hi |].
  destruct (Z_lt_le_dec n 2) as [Hsmall | Hn].
  - right. assert (Hn1 : n = 1%Z) by lia.
    rewrite (Hone Hn1) in Ht. split; [exact Hn1 |].
    destruct i as [| i]; simpl in Ht.
    + injection Ht as <-. split; reflexivity.
    + destruct i; discriminate Ht.
  - left. split; [exact Hn |].
    destruct (Hbig Hn) as (Hall & _). rewrite (Hall i Hi) in Ht.
    now injection Ht as <-.
Qed.

Lemma grid_index_bound (i : nat) :
  (2 <= n)%Z -> (i < Z.to_nat n)%nat -> 0 <= INR i <= IZR (n - 1).
Proof.
  intros Hn Hi. split; [apply pos_INR |].
  rewrite INR_IZR_INZ. apply IZR_le. lia.
Qed.

Lemma grid_step_positive :
  (2 <= n)%Z -> IZR (n - 1) < d * 60 -> 1 / 60 < d / IZR (n - 1).
Proof.
  intros Hn Hlt.
  assert (Hm : 0 < IZR (n - 1)) by (apply IZR_lt; lia).
  apply (Rmult_lt_reg_r (IZR (n - 1))); [exact Hm |].
  unfold Rdiv at 2. rewrite Rmult_assoc, Rinv_l by lra. lra.
Qed.

Lemma grid_within (i : nat) (t : R) : nth_error time i = Some t -> 0 <= t <= d.
Proof.
  intros Ht. destruct (grid_entry i t Ht) as (Hi & [(Hn & ->) | (_ & _ & ->)]);
    [| lra].
  destruct (grid_index_bound i Hn Hi) as [Hlo Hhi].
  assert (Hm : 0 < IZR (n - 1)) by (apply IZR_lt; lia).
  assert (Hq : 0 < d / IZR (n - 1)) by (apply Rdiv_lt_0_compat; lra).
  split.
  - apply Rmult_le_pos; lra.
  - apply Rle_trans with (IZR (n - 1) * (d / IZR (n - 1))).
    + apply Rmult_le_compat_r; lra.
    + right. field. lra.
Qed.

Lemma grid_increasing (i j : nat) (ti tj : R) :
  (i < j)%nat -> nth_error time i = Some ti -> nth_error time j = Some tj ->
  ti < tj.
Proof.
  intros Hij Hti Htj.
  destruct (grid_entry j tj Htj) as (Hj & [(Hn & ->) | (_ & -> & _)]); [| lia].
  destruct (grid_entry i ti Hti) as (Hi & [(_ & ->) | (Hn1 & _)]); [| lia].
  assert (Hm : 0 < IZR (n - 1)) by (apply IZR_lt; lia).
  assert (Hq : 0 < d / IZR (n - 1)) by (apply Rdiv_lt_0_compat; lra).
  apply Rmult_lt_compat_r; [exact Hq |]. apply lt_INR. exact Hij.
Qed.

Lemma grid_step (i : nat) (ti tj : R) :
  nth_error time i = Some ti -> nth_error time (S i) = Some tj ->
  tj - ti = d / IZR (n - 1) /\ (IZR (n - 1) < d * 60 -> 1 / 60 < tj - ti).
Proof.
  intros Hti Htj.
  destruct (grid_entry (S i) tj Htj) as (Hj & [(Hn & ->) | (_ & Hi & _)]);
    [| discriminate Hi].
  destruct (grid_entry i ti Hti) as (Hi & [(_ & ->) | (Hn1 & _)]); [| lia].
  assert (Heq : INR (S i) * (d / IZR (n - 1)) - INR i * (d / IZR (n - 1))
                = d / IZR (n - 1)).
  { rewrite S_INR. ring. }
  rewrite Heq. split; [reflexivity |]. apply grid_step_positive. exact Hn.
Qed.

End Grid.

(** The frame count is less than [d * 60 + 1]: the product is never
    rounded up past the next integer. *)
Lemma count_pred_below `{FR : FloatRounding} (d : R) (n : Z) :
  0 <= d -> d * 60 <= IZR max_exact_int ->
  int_float (fmul d 60) = inr n -> IZR (n - 1) < d * 60.
Proof.
  intros Hd HB Hcount.
  destruct (count_frame_count d n Hd HB Hcount) as (Hn0 & _ & Hbr & Hexact).
  destruct (base_Int_part (d * 60)) as [Hlo Hhi].
  rewrite minus_IZR.
  destruct (Z_le_gt_dec n (Int_part (d * 60))) as [Hle | Hgt].
  - apply IZR_le in Hle. lra.
  - assert (Hn : n = (Int_part (d * 60) + 1)%Z) by lia.
    destruct (Req_dec (d * 60) (IZR (Int_part (d * 60)))) as [Heq | Hne].
    + exfalso. assert (Hrep : representable (d * 60)).
      { rewrite Heq. apply integer_representable.
        assert (H0 : (-1 < Int_part (d * 60))%Z) by (apply lt_IZR; lra).
        assert (H1 : (Int_part (d * 60) <= max_exact_int)%Z)
          by (apply le_IZR; lra).
        lia. }
      specialize (Hexact Hrep). lia.
    + rewrite Hn, plus_IZR. lra.
Qed.

(** X1: for a positive duration [d], every timestamp of the time grid lies
    in [[0, d]] and the timestamps are strictly increasing with the frame
    index -- in each of the three scripts, in every run that is not stopped
    by the [OverflowError] of [int] on an infinite product (which takes
    [d * 60 > 2 ^ 53]). *)
Theorem X1_time_grid_bounded_and_increasing `{FR : FloatRounding}
    (v3 : Src_c3.Vector) (v4 o4 : Src_c4.Vector) (v5 o5 : Src_c5.Vector)
    (d : R) :
  0 < d ->
  ((exists ani,
       Src_c3.create_animation v3 (Some d) = inr ani /\
       (forall i t, nth_error (Src_c3.ani_time ani) i = Some t -> 0 <= t <= d) /\
       (forall i j ti tj, (i < j)%nat ->
          nth_error (Src_c3.ani_time ani) i = Some ti ->
          nth_error (Src_c3.ani_time ani) j = Some tj -> ti < tj)) \/
   (Src_c3.create_animation v3 (Some d) = inl OverflowError /\
    IZR max_exact_int < d * 60)) /\
  ((exists ani,
       Src_c4.create_animation v4 o4 (Some d) = inr ani /\
       (forall i t, nth_error (Src_c4.ani_time ani) i = Some t -> 0 <= t <= d) /\
       (forall i j ti tj, (i < j)%nat ->
          nth_error (Src_c4.ani_time ani) i = Some ti ->
          nth_error (Src_c4.ani_time ani) j = Some tj -> ti < tj)) \/
   (Src_c4.create_animation v4 o4 (Some d) = inl OverflowError /\
    IZR max_exact_int < d * 60)) /\
  ((exists ani,
       Src_c5.create_animation v5 o5 (Some d) = inr ani /\
       (forall i t, nth_error (Src_c5.ani_time ani) i = Some t -> 0 <= t <= d) /\
       (forall i j ti tj, (i < j)%nat ->
          nth_error (Src_c5.ani_time ani) i = Some ti ->
          nth_error (Src_c5.ani_time ani) j = Some tj -> ti < tj)) \/
   (Src_c5.create_animation v5 o5 (Some d) = inl OverflowError /\
    IZR max_exact_int < d * 60)).
Proof.
  intros Hd. split; [| split].
  - destruct (c3_run_outcome v3 d) as [Hov | (ani & Hrun & _ & _ & _ & Hgrid)];
      [lra | right; exact Hov | left].
    exists ani. split; [exact Hrun |]. split.
    + apply (grid_within d Hd _ _ Hgrid).
    + apply (grid_increasing d Hd _ _ Hgrid).
  - destruct (c4_run_outcome v4 o4 d) as [Hov | (ani & Hrun & _ & _ & _ & Hgrid)];
      [lra | right; exact Hov | left].
    exists ani. split; [exact Hrun |]. split.
    + apply (grid_within d Hd _ _ Hgrid).
    + apply (grid_increasing d Hd _ _ Hgrid).
  - destruct (c5_run_outcome v5 o5 d) as [Hov | (ani & Hrun & _ & _ & _ & Hgrid)];
      [lra | right; exact Hov | left].
    exists ani. split; [exact Hrun |]. split.
    + apply (grid_within d Hd _ _ Hgrid).
    + apply (grid_increasing d Hd _ _ Hgrid).
Qed.

Lemma X1_time_grid_witness :
  0 < 10 /\
  exists ani,
    Src_c3.create_animation (FR := exact_rounding) Src_c3.default_vector
      (Some 10) = inr ani /\
    (forall i t, nth_error (Src_c3.ani_time ani) i = Some t -> 0 <= t <= 10).
Proof.
  assert (Hd : 0 < 10) by lra. split; [exact Hd |].
  destruct (proj1 (X1_time_grid_bounded_and_increasing (FR := exact_rounding)
                     Src_c3.default_vector
                     Src_c4.default_vector1 Src_c4.default_vector2
                     Src_c5.default_vector1 Src_c5.default_vector2 10 Hd))
    as [(ani & Hrun & Hin & _) | (_ & Hbig)].
  - exists ani. split; assumption.
  - exfalso. unfold max_exact_int in Hbig. lra.
Defined.

(** X2: for a positive duration [d], consecutive timestamps of the grid
    differ by [d / (frame_count - 1)]; when [d * 60 <= 2 ^ 53] this is
    strictly more than the [1 / 60] second a frame lasts in the video saved
    at 60 frames per second -- in each of the three scripts, in every run
    that is not stopped by the [OverflowError] of [int] on an infinite
    product. *)
Theorem X2_time_step_exceeds_frame_period `{FR : FloatRounding}
    (v3 : Src_c3.Vector) (v4 o4 : Src_c4.Vector) (v5 o5 : Src_c5.Vector)
    (d : R) :
  0 < d ->
  ((exists ani,
       Src_c3.create_animation v3 (Some d) = inr ani /\
       forall i ti tj,
         nth_error (Src_c3.ani_time ani) i = Some ti ->
         nth_error (Src_c3.ani_time ani) (S i) = Some tj ->
         tj - ti = d / IZR (Src_c3.ani_total_frames ani - 1) /\
         (d * 60 <= IZR max_exact_int -> 1 / 60 < tj - ti)) \/
   (Src_c3.create_animation v3 (Some d) = inl OverflowError /\
    IZR max_exact_int < d * 60)) /\
  ((exists ani,
       Src_c4.create_animation v4 o4 (Some d) = inr ani /\
       forall i ti tj,
         nth_error (Src_c4.ani_time ani) i = Some ti ->
         nth_error (Src_c4.ani_time ani) (S i) = Some tj ->
         tj - ti = d / IZR (Src_c4.ani_total_frames ani - 1) /\
         (d * 60 <= IZR max_exact_int -> 1 / 60 < tj - ti)) \/
   (Src_c4.create_animation v4 o4 (Some d) = inl OverflowError /\
    IZR max_exact_int < d * 60)) /\
  ((exists ani,
       Src_c5.create_animation v5 o5 (Some d) = inr ani /\
       forall i ti tj,
         nth_error (Src_c5.ani_time ani) i = Some ti ->
         nth_error (Src_c5.ani_time ani) (S i) = Some tj ->
         tj - ti = d / IZR (Src_c5.ani_total_frames ani - 1) /\
         (d * 60 <= IZR max_exact_int -> 1 / 60 < tj - ti)) \/
   (Src_c5.create_animation v5 o5 (Some d) = inl OverflowError /\
    IZR max_exact_int < d * 60)).
Proof.
  intros Hd. split; [| split].
  - destruct (c3_run_outcome v3 d)
      as [Hov | (ani & Hrun & _ & Hcount & _ & Hgrid)];
      [lra | right; exact Hov | left].
    exists ani. split; [exact Hrun |]. intros i ti tj Hti Htj.
    destruct (grid_step d _ _ Hgrid i ti tj Hti Htj) as [Heq Hstep].
    split; [exact Heq |]. intros HB. apply Hstep.
    apply (count_pred_below d _ ltac:(lra) HB Hcount).
  - destruct (c4_run_outcome v4 o4 d)
      as [Hov | (ani & Hrun & _ & Hcount & _ & Hgrid)];
      [lra | right; exact Hov | left].
    exists ani. split; [exact Hrun |]. intros i ti tj Hti Htj.
    destruct (grid_step d _ _ Hgrid i ti tj Hti Htj) as [Heq Hstep].
    split; [exact Heq |]. intros HB. apply Hstep.
    apply (count_pred_below d _ ltac:(lra) HB Hcount).
  - destruct (c5_run_outcome v5 o5 d)
      as [Hov | (ani & Hrun & _ & Hcount & _ & Hgrid)];
      [lra | right; exact Hov | left].
    exists ani. split; [exact Hrun |]. intros i ti tj Hti Htj.
    destruct (grid_step d _ _ Hgrid i ti tj Hti Htj) as [Heq Hstep].
    split; [exact Heq |]. intros HB. apply Hstep.
    apply (count_pred_below d _ ltac:(lra) HB Hcount).
Qed.

Lemma thirtieth_frames : 1 / 30 * 60 = IZR 2.
Proof. lra. Qed.

Lemma X2_time_step_witness :
  0 < 1 / 30 /\
  exists ani ti tj,
    Src_c3.create_animation (FR := exact_rounding) Src_c3.default_vector
      (Some (1 / 30)) = inr ani /\
    nth_error (Src_c3.ani_time ani) 0 = Some ti /\
    nth_error (Src_c3.ani_time ani) 1 = Some tj /\
    1 / 60 < tj - ti.
Proof.
  assert (Hd : 0 < 1 / 30) by lra. split; [exact Hd |].
  assert (HB : 1 / 30 * 60 <= IZR max_exact_int) by (unfold max_exact_int; lra).
  destruct (proj1 (X2_time_step_exceeds_frame_period (FR := exact_rounding)
                     Src_c3.default_vector
                     Src_c4.default_vector1 Src_c4.default_vector2
                     Src_c5.default_vector1 Src_c5.default_vector2 (1 / 30) Hd))
    as [(ani & Hrun & Hstep) | (_ & Hbig)]; [| exfalso; lra].
  destruct ((c3_run_inv (FR := exact_rounding)) _ _ ani Hrun)
    as (Hdur & Hn & Htime & _).
  simpl in Hdur. rewrite Hdur in Hn, Htime.
  assert (H2 : Src_c3.ani_total_frames ani = 2%Z).
  { unfold fmul in Hn. simpl in Hn. injection Hn as <-.
    rewrite thirtieth_frames. apply int_unique; simpl; lra. }
  rewrite H2 in Htime.
  assert (H0 : nth_error (Src_c3.ani_time ani) 0 = Some 0).
  { apply (linspace_first 0 (1 / 30) 2 _); [lia | exact Htime]. }
  pose proof (linspace_last 0 (1 / 30) 2 _ ltac:(lia) Htime) as H1.
  change (Z.to_nat 2 - 1)%nat with 1%nat in H1.
  exists ani, 0, (1 / 30). split; [exact Hrun |]. split; [exact H0 |].
  split; [exact H1 |]. apply (Hstep 0%nat 0 (1 / 30) H0 H1). exact HB.
Defined.

(** ** Outcomes of [create_animation] *)





Lemma int_one : int 1 = 1%Z.
Proof. apply int_unique; simpl; lra. Qed.







Lemma one_representable : representable 1.
Proof. apply (integer_representable 1). unfold max_exact_int. simpl. lia. Qed.


Section CountOutcomes.

Context `{FR : FloatRounding}.





End CountOutcomes.

Section Outcomes_c3.

Import Src_c3.
Context `{FR : FloatRounding}.








End Outcomes_c3.

Section Outcomes_c4.

Import Src_c4.
Context `{FR : FloatRounding}.








End Outcomes_c4.

Section Outcomes_c5.

Import Src_c5.
Context `{FR : FloatRounding}.








End Outcomes_c5.





(** ** The loop seam *)

Lemma c4_update_same_period (self other : Src_c4.Vector) (time time' : list R)
    (i j : nat) (t : R) :
  Src_c4.frequency self <> 0 ->
  Src_c4.frequency other = Src_c4.frequency self ->
  nth_error time i = Some t ->
  nth_error time' j = Some (t + 1 / Src_c4.frequency self) ->
  Src_c4.update self other time' j = Src_c4.update self other time i.
Proof.
  intros Hf Heq Ht Ht'. unfold Src_c4.update.
  rewrite (getitem_Some _ _ _ Ht), (getitem_Some _ _ _ Ht'). simpl.
  pose proof (sin_one_period (Src_c4.frequency self) t 0 Hf) as Hp.
  rewrite !Rplus_0_r in Hp.
  pose proof (sin_one_period (Src_c4.frequency self) t (PI / 2) Hf) as Hq.
  rewrite Heq, Hp, Hq. reflexivity.
Qed.

Lemma c5_update_same_period (self other : Src_c5.Vector) (time time' : list R)
    (i j : nat) (t : R) :
  Src_c5.frequency self <> 0 ->
  Src_c5.frequency other = Src_c5.frequency self ->
  nth_error time i = Some t ->
  nth_error time' j = Some (t + 1 / Src_c5.frequency self) ->
  Src_c5.update self other time' j = Src_c5.update self other time i.
Proof.
  intros Hf Heq Ht Ht'. unfold Src_c5.update.
  rewrite (getitem_Some _ _ _ Ht), (getitem_Some _ _ _ Ht'). simpl.
  pose proof (sin_one_period (Src_c5.frequency self) t 0 Hf) as Hp.
  rewrite !Rplus_0_r in Hp.
  pose proof (sin_one_period (Src_c5.frequency self) t
                (Src_c5.phase_shift other) Hf) as Hq.
  rewrite Heq, Hp, Hq. reflexivity.
Qed.

Lemma c4_default_run_loops `{FR : FloatRounding} (self other : Src_c4.Vector)
    (ani : Src_c4.Animation) :
  0 < Src_c4.frequency self ->
  Src_c4.frequency other = Src_c4.frequency self ->
  Src_c4.create_animation self other None = inr ani ->
  nth_error (Src_c4.ani_frames ani) (Z.to_nat (Src_c4.ani_total_frames ani) - 1)
  = nth_error (Src_c4.ani_frames ani) 0.
Proof.
  intros Hf Heq Hrun.
  destruct (c4_run_inv self other None ani Hrun)
    as ((_ & Hdur) & Hn & Htime & Hframes).
  destruct (schedule_grid _ _ _ Htime) as (_ & Hgrid & _ & _).
  destruct (Z_lt_le_dec (Src_c4.ani_total_frames ani) 2) as [Hsmall | Hbig].
  - replace (Z.to_nat (Src_c4.ani_total_frames ani) - 1)%nat with 0%nat by lia.
    reflexivity.
  - destruct (Hgrid Hbig) as (_ & Hfirst & Hlast).
    destruct (c4_run_frame _ _ _ _ _ _ Hrun Hfirst) as (fr0 & -> & Hu0).
    destruct (c4_run_frame _ _ _ _ _ _ Hrun Hlast) as (fr1 & -> & Hu1).
    rewrite Hdur, <- (Rplus_0_l (1 / _)) in Hlast.
    pose proof (c4_update_same_period self other _ _ _ _ 0 ltac:(lra) Heq
                  Hfirst Hlast) as Hper.
    congruence.
Qed.

Lemma c5_default_run_loops `{FR : FloatRounding} (self other : Src_c5.Vector)
    (ani : Src_c5.Animation) :
  0 < Src_c5.frequency self ->
  Src_c5.frequency other = Src_c5.frequency self ->
  Src_c5.create_animation self other None = inr ani ->
  nth_error (Src_c5.ani_frames ani) (Z.to_nat (Src_c5.ani_total_frames ani) - 1)
  = nth_error (Src_c5.ani_frames ani) 0.
Proof.
  intros Hf Heq Hrun.
  destruct (c5_run_inv self other None ani Hrun)
    as ((_ & Hdur) & Hn & Htime & Hframes).
  destruct (schedule_grid _ _ _ Htime) as (_ & Hgrid & _ & _).
  destruct (Z_lt_le_dec (Src_c5.ani_total_frames ani) 2) as [Hsmall | Hbig].
  - replace (Z.to_nat (Src_c5.ani_total_frames ani) - 1)%nat with 0%nat by lia.
    reflexivity.
  - destruct (Hgrid Hbig) as (_ & Hfirst & Hlast).
    destruct (c5_run_frame _ _ _ _ _ _ Hrun Hfirst) as (fr0 & -> & Hu0).
    destruct (c5_run_frame _ _ _ _ _ _ Hrun Hlast) as (fr1 & -> & Hu1).
    rewrite Hdur, <- (Rplus_0_l (1 / _)) in Hlast.
    pose proof (c5_update_same_period self other _ _ _ _ 0 ltac:(lra) Heq
                  Hfirst Hlast) as Hper.
    congruence.
Qed.

(** X5: in a run with the default duration (one period of the first vector,
    of positive frequency), the last rendered frame carries exactly the data
    of the first one: in [c3.py] always, in [c4.py] and [c5.py] when the
    second vector has the frequency of the first (as the scripts build
    them).  Played in a loop, the video therefore shows the same picture
    twice at the seam.  This holds of every run that is not stopped by the
    [OverflowError] of [int] on an infinite product, which takes a period
    with [1 / frequency * 60 > 2 ^ 53]. *)
Theorem X5_default_run_last_frame_repeats_first `{FR : FloatRounding}
    (v3 : Src_c3.Vector) (v4 o4 : Src_c4.Vector) (v5 o5 : Src_c5.Vector) :
  0 < Src_c3.frequency v3 ->
  0 < Src_c4.frequency v4 -> Src_c4.frequency o4 = Src_c4.frequency v4 ->
  0 < Src_c5.frequency v5 -> Src_c5.frequency o5 = Src_c5.frequency v5 ->
  ((exists ani,
       Src_c3.create_animation v3 None = inr ani /\
       nth_error (Src_c3.ani_frames ani)
         (Z.to_nat (Src_c3.ani_total_frames ani) - 1)
       = nth_error (Src_c3.ani_frames ani) 0) \/
   (Src_c3.create_animation v3 None = inl OverflowError /\
    IZR max_exact_int < 1 / Src_c3.frequency v3 * 60)) /\
  ((exists ani,
       Src_c4.create_animation v4 o4 None = inr ani /\
       nth_error (Src_c4.ani_frames ani)
         (Z.to_nat (Src_c4.ani_total_frames ani) - 1)
       = nth_error (Src_c4.ani_frames ani) 0) \/
   (Src_c4.create_animation v4 o4 None = inl OverflowError /\
    IZR max_exact_int < 1 / Src_c4.frequency v4 * 60)) /\
  ((exists ani,
       Src_c5.create_animation v5 o5 None = inr ani /\
       nth_error (Src_c5.ani_frames ani)
         (Z.to_nat (Src_c5.ani_total_frames ani) - 1)
       = nth_error (Src_c5.ani_frames ani) 0) \/
   (Src_c5.create_animation v5 o5 None = inl OverflowError /\
    IZR max_exact_int < 1 / Src_c5.frequency v5 * 60)).
Proof.
  intros H3 H4 E4 H5 E5. split; [| split].
  - destruct (c3_default_run v3 H3) as [(ani & Hrun & _) | Hov];
      [left | right; exact Hov].
    exists ani. split; [exact Hrun |]. apply (c3_default_run_loops v3 ani H3 Hrun).
  - destruct (c4_default_run v4 o4 H4) as [(ani & Hrun & _) | Hov];
      [left | right; exact Hov].
    exists ani. split; [exact Hrun |].
    apply (c4_default_run_loops v4 o4 ani H4 E4 Hrun).
  - destruct (c5_default_run v5 o5 H5) as [(ani & Hrun & _) | Hov];
      [left | right; exact Hov].
    exists ani. split; [exact Hrun |].
    apply (c5_default_run_loops v5 o5 ani H5 E5 Hrun).
Qed.

Lemma X5_default_run_witness :
  exists ani,
    Src_c5.create_animation (FR := exact_rounding) Src_c5.default_vector1
      Src_c5.default_vector2 None = inr ani /\
    nth_error (Src_c5.ani_frames ani)
      (Z.to_nat (Src_c5.ani_total_frames ani) - 1)
    = nth_error (Src_c5.ani_frames ani) 0.
Proof.
  destruct (X5_default_run_last_frame_repeats_first (FR := exact_rounding)
              Src_c3.default_vector
              Src_c4.default_vector1 Src_c4.default_vector2
              Src_c5.default_vector1 Src_c5.default_vector2)
    as (_ & _ & [Hloop | [_ Hbig]]);
    simpl; try lra; try reflexivity.
  - exact Hloop.
  - exfalso. simpl in Hbig. unfold max_exact_int in Hbig. lra.
Defined.

(** ** The samples and the axes limits *)

Lemma amplitude_sin_bound (A x : R) : 0 <= A -> - A <= A * sin x <= A.
Proof. intros HA. destruct (SIN_bound x) as [Hlo Hhi]. split; nra. Qed.

Lemma cos_sin_product_bound (a x : R) : -1 <= cos a * sin x <= 1.
Proof.
  destruct (SIN_bound x) as [Hs1 Hs2]. destruct (COS_bound a) as [Hc1 Hc2].
  split; nra.
Qed.

Lemma sin_sin_product_bound (a x : R) : -1 <= sin a * sin x <= 1.
Proof.
  destruct (SIN_bound x) as [Hs1 Hs2]. destruct (SIN_bound a) as [Hc1 Hc2].
  split; nra.
Qed.

Lemma amplitude_cos_sin_bound (A a x : R) :
  0 <= A -> - A <= A * cos a * sin x <= A.
Proof.
  intros HA. destruct (cos_sin_product_bound a x) as [Hlo Hhi].
  rewrite Rmult_assoc. split; nra.
Qed.

Lemma amplitude_sin_sin_bound (A a x : R) :
  0 <= A -> - A <= A * sin a * sin x <= A.
Proof.
  intros HA. destruct (sin_sin_product_bound a x) as [Hlo Hhi].
  rewrite Rmult_assoc. split; nra.
Qed.

Lemma c3_frame_inv `{FR : FloatRounding} (self : Src_c3.Vector) (dur : option R)
    (ani : Src_c3.Animation) (i : nat) (fr : Line2D) :
  Src_c3.create_animation self dur = inr ani ->
  nth_error (Src_c3.ani_frames ani) i = Some fr ->
  exists t,
    nth_error (Src_c3.ani_time ani) i = Some t /\
    fr = set_data [0; Src_c3.amplitude self
                      * sin (2 * PI * Src_c3.frequency self * t)] [0; 0].
Proof.
  intros Hrun Hfr.
  destruct (c3_run_inv _ _ ani Hrun) as (_ & _ & Htime & Hframes).
  assert (Hi : (i < length (Src_c3.ani_time ani))%nat).
  { rewrite (linspace_length _ _ _ _ Htime), <- range_length,
      <- (for_each_length _ _ _ Hframes).
    apply nth_error_Some. congruence. }
  destruct (getitem_ok _ i Hi) as (t & Ht & _).
  exists t. split; [exact Ht |].
  pose proof (c3_run_frame _ _ _ _ _ Hrun Ht) as Hfr'. congruence.
Qed.

Lemma c4_frame_inv `{FR : FloatRounding} (self other : Src_c4.Vector) (dur : option R)
    (ani : Src_c4.Animation) (i : nat) (fr : Src_c4.Frame) :
  Src_c4.create_animation self other dur = inr ani ->
  nth_error (Src_c4.ani_frames ani) i = Some fr ->
  exists t,
    nth_error (Src_c4.ani_time ani) i = Some t /\
    Src_c4.update self other (Src_c4.ani_time ani) i = inr fr.
Proof.
  intros Hrun Hfr.
  destruct (c4_run_inv _ _ _ ani Hrun) as (_ & _ & Htime & Hframes).
  assert (Hi : (i < length (Src_c4.ani_time ani))%nat).
  { rewrite (linspace_length _ _ _ _ Htime), <- range_length,
      <- (for_each_length _ _ _ Hframes).
    apply nth_error_Some. congruence. }
  destruct (getitem_ok _ i Hi) as (t & Ht & _).
  exists t. split; [exact Ht |].
  destruct (c4_run_frame _ _ _ _ _ _ Hrun Ht) as (fr' & Hfr' & Hupd). congruence.
Qed.

Lemma c5_frame_inv `{FR : FloatRounding} (self other : Src_c5.Vector) (dur : option R)
    (ani : Src_c5.Animation) (i : nat) (fr : Src_c5.Frame) :
  Src_c5.create_animation self other dur = inr ani ->
  nth_error (Src_c5.ani_frames ani) i = Some fr ->
  exists t,
    nth_error (Src_c5.ani_time ani) i = Some t /\
    Src_c5.update self other (Src_c5.ani_time ani) i = inr fr.
Proof.
  intros Hrun Hfr.
  destruct (c5_run_inv _ _ _ ani Hrun) as (_ & _ & Htime & Hframes).
  assert (Hi : (i < length (Src_c5.ani_time ani))%nat).
  { rewrite (linspace_length _ _ _ _ Htime), <- range_length,
      <- (for_each_length _ _ _ Hframes).
    apply nth_error_Some. congruence. }
  destruct (getitem_ok _ i Hi) as (t & Ht & _).
  exists t. split; [exact Ht |].
  destruct (c5_run_frame _ _ _ _ _ _ Hrun Ht) as (fr' & Hfr' & Hupd). congruence.
Qed.

(** The tips drawn by a frame of [c4.py] and of [c5.py], whatever its
    timestamp. *)
Lemma c4_frame_tips `{FR : FloatRounding} (self other : Src_c4.Vector) (dur : option R)
    (ani : Src_c4.Animation) (i : nat) (fr : Src_c4.Frame) :
  Src_c4.create_animation self other dur = inr ani ->
  nth_error (Src_c4.ani_frames ani) i = Some fr ->
  exists t,
    nth_error (Src_c4.ani_time ani) i = Some t /\
    tip (Src_c4.vector_self fr)
    = (if String.eqb (Src_c4.axis self) "x"
       then (Src_c4.amplitude self * sin (2 * PI * Src_c4.frequency self * t), 0)
       else (0, Src_c4.amplitude self * sin (2 * PI * Src_c4.frequency self * t))) /\
    tip (Src_c4.vector_other fr)
    = (if String.eqb (Src_c4.axis other) "y"
       then (0, Src_c4.amplitude other
                * sin (2 * PI * Src_c4.frequency other * t + PI / 2))
       else (Src_c4.amplitude other
             * sin (2 * PI * Src_c4.frequency other * t + PI / 2), 0)).
Proof.
  intros Hrun Hfr.
  destruct (c4_frame_inv _ _ _ _ _ _ Hrun Hfr) as (t & Ht & Hupd).
  destruct (c4_update_at self other _ i t Ht) as (fr' & Hupd' & Hs & Ho).
  assert (fr' = fr) as -> by congruence.
  exists t. repeat split; assumption.
Qed.

Lemma c5_frame_tips `{FR : FloatRounding} (self other : Src_c5.Vector) (dur : option R)
    (ani : Src_c5.Animation) (i : nat) (fr : Src_c5.Frame) :
  Src_c5.create_animation self other dur = inr ani ->
  nth_error (Src_c5.ani_frames ani) i = Some fr ->
  exists t,
    nth_error (Src_c5.ani_time ani) i = Some t /\
    tip (Src_c5.vector_self fr)
    = (Src_c5.amplitude self * sin (2 * PI * Src_c5.frequency self * t), 0) /\
    tip (Src_c5.vector_other fr)
    = (Src_c5.amplitude other * cos (Src_c5.angle other)
       * sin (2 * PI * Src_c5.frequency other * t + Src_c5.phase_shift other),
       Src_c5.amplitude other * sin (Src_c5.angle other)
       * sin (2 * PI * Src_c5.frequency other * t + Src_c5.phase_shift other)) /\
    tip (Src_c5.resultant_vector fr)
    = (fst (tip (Src_c5.vector_self fr)) + fst (tip (Src_c5.vector_other fr)),
       snd (tip (Src_c5.vector_self fr)) + snd (tip (Src_c5.vector_other fr))).
Proof.
  intros Hrun Hfr.
  destruct (c5_frame_inv _ _ _ _ _ _ Hrun Hfr) as (t & Ht & Hupd).
  destruct (c5_update_at self other _ i t Ht) as (fr' & Hupd' & Hs & Ho & Hr).
  assert (fr' = fr) as -> by congruence.
  exists t. repeat split; assumption.
Qed.

(** X6: in [c3.py], for a non-negative amplitude, the tip drawn at every
    frame lies inside the axes limits set by [create_animation]
    ([-amplitude - 1 .. amplitude + 1] by [-1 .. 1]). *)
Theorem X6_c3_tip_inside_axes `{FR : FloatRounding}
    (self : Src_c3.Vector) (dur : option R) (ani : Src_c3.Animation)
    (i : nat) (fr : Line2D) :
  0 <= Src_c3.amplitude self ->
  Src_c3.create_animation self dur = inr ani ->
  nth_error (Src_c3.ani_frames ani) i = Some fr ->
  within_limits (Src_c3.xlim self) (Src_c3.ylim self) (tip fr).
Proof.
  intros HA Hrun Hfr.
  destruct (c3_frame_inv _ _ _ _ _ Hrun Hfr) as (t & _ & ->).
  unfold within_limits, Src_c3.xlim, Src_c3.ylim, tip. simpl.
  destruct (amplitude_sin_bound (Src_c3.amplitude self)
              (2 * PI * Src_c3.frequency self * t) HA).
  repeat split; lra.
Qed.

Lemma c3_one_frame_run `{FR : FloatRounding} (self : Src_c3.Vector) :
  exists ani fr,
    Src_c3.create_animation self (Some (1 / 60)) = inr ani /\
    nth_error (Src_c3.ani_frames ani) 0 = Some fr.
Proof.
  destruct (c3_run_with_first_frame self (1 / 60)) as (ani & Hrun & _ & Ht);
    [apply (proj1 one_frame_duration) | apply (proj2 one_frame_duration) |].
  eexists ani, _. split; [exact Hrun |].
  apply (c3_run_frame _ _ _ _ _ Hrun Ht).
Qed.

Lemma c4_one_frame_run `{FR : FloatRounding} (self other : Src_c4.Vector) :
  exists ani fr,
    Src_c4.create_animation self other (Some (1 / 60)) = inr ani /\
    nth_error (Src_c4.ani_frames ani) 0 = Some fr.
Proof.
  destruct (c4_run_with_first_frame self other (1 / 60)) as (ani & Hrun & _ & Ht);
    [apply (proj1 one_frame_duration) | apply (proj2 one_frame_duration) |].
  destruct (c4_run_frame _ _ _ _ _ _ Hrun Ht) as (fr & Hfr & _).
  exists ani, fr. split; assumption.
Qed.

Lemma c5_one_frame_run `{FR : FloatRounding} (self other : Src_c5.Vector) :
  exists ani fr,
    Src_c5.create_animation self other (Some (1 / 60)) = inr ani /\
    nth_error (Src_c5.ani_frames ani) 0 = Some fr.
Proof.
  destruct (c5_run_with_first_frame self other (1 / 60)) as (ani & Hrun & _ & Ht);
    [apply (proj1 one_frame_duration) | apply (proj2 one_frame_duration) |].
  destruct (c5_run_frame _ _ _ _ _ _ Hrun Ht) as (fr & Hfr & _).
  exists ani, fr. split; assumption.
Qed.

Lemma X6_c3_tip_inside_axes_witness :
  exists ani fr,
    Src_c3.create_animation (FR := exact_rounding) Src_c3.default_vector (Some (1 / 60)) = inr ani /\
    nth_error (Src_c3.ani_frames ani) 0 = Some fr /\
    within_limits (Src_c3.xlim Src_c3.default_vector)
      (Src_c3.ylim Src_c3.default_vector) (tip fr).
Proof.
  destruct ((c3_one_frame_run (FR := exact_rounding)) Src_c3.default_vector) as (ani & fr & Hrun & Hfr).
  exists ani, fr. split; [exact Hrun |]. split; [exact Hfr |].
  apply ((X6_c3_tip_inside_axes (FR := exact_rounding)) Src_c3.default_vector (Some (1 / 60)) ani 0 fr);
    [simpl; lra | exact Hrun | exact Hfr].
Defined.

(** X7: in [c4.py] the axes limits come from the amplitude of the first
    vector only.  For a non-negative amplitude the tip of the first vector
    lies inside them at every frame; the tip of the second vector does when
    its amplitude is between [0] and the first amplitude plus [1] (in
    particular when both amplitudes are equal, as the script builds them). *)
Theorem X7_c4_tips_inside_axes `{FR : FloatRounding}
    (self other : Src_c4.Vector) (dur : option R) (ani : Src_c4.Animation)
    (i : nat) (fr : Src_c4.Frame) :
  0 <= Src_c4.amplitude self ->
  Src_c4.create_animation self other dur = inr ani ->
  nth_error (Src_c4.ani_frames ani) i = Some fr ->
  within_limits (Src_c4.xlim self) (Src_c4.ylim self)
    (tip (Src_c4.vector_self fr)) /\
  (0 <= Src_c4.amplitude other <= Src_c4.amplitude self + 1 ->
   within_limits (Src_c4.xlim self) (Src_c4.ylim self)
     (tip (Src_c4.vector_other fr))).
Proof.
  intros HA Hrun Hfr.
  destruct (c4_frame_tips _ _ _ _ _ _ Hrun Hfr) as (t & _ & Hs & Ho).
  rewrite Hs, Ho. unfold within_limits, Src_c4.xlim, Src_c4.ylim.
  pose proof (amplitude_sin_bound (Src_c4.amplitude self)
                (2 * PI * Src_c4.frequency self * t) HA) as [Hlo Hhi].
  split.
  - destruct (String.eqb (Src_c4.axis self) "x"); simpl; repeat split; lra.
  - intros [HB1 HB2].
    pose proof (amplitude_sin_bound (Src_c4.amplitude other)
                  (2 * PI * Src_c4.frequency other * t + PI / 2) HB1)
      as [Hlo' Hhi'].
    destruct (String.eqb (Src_c4.axis other) "y"); simpl; repeat split; lra.
Qed.

Lemma X7_c4_tips_inside_axes_witness :
  exists ani fr,
    Src_c4.create_animation (FR := exact_rounding) Src_c4.default_vector1 Src_c4.default_vector2
      (Some (1 / 60)) = inr ani /\
    nth_error (Src_c4.ani_frames ani) 0 = Some fr /\
    within_limits (Src_c4.xlim Src_c4.default_vector1)
      (Src_c4.ylim Src_c4.default_vector1) (tip (Src_c4.vector_self fr)) /\
    within_limits (Src_c4.xlim Src_c4.default_vector1)
      (Src_c4.ylim Src_c4.default_vector1) (tip (Src_c4.vector_other fr)).
Proof.
  destruct ((c4_one_frame_run (FR := exact_rounding)) Src_c4.default_vector1 Src_c4.default_vector2)
    as (ani & fr & Hrun & Hfr).
  assert (HA : 0 <= Src_c4.amplitude Src_c4.default_vector1) by (simpl; lra).
  destruct ((X7_c4_tips_inside_axes (FR := exact_rounding)) Src_c4.default_vector1
              Src_c4.default_vector2 (Some (1 / 60)) ani 0 fr HA Hrun Hfr)
    as [Hs Ho].
  exists ani, fr. split; [exact Hrun |]. split; [exact Hfr |].
  split; [exact Hs |]. apply Ho. simpl. lra.
Defined.

Lemma sin_quarter_tenth : sin (2 * PI * (1 / 10) * (5 / 2)) = 1.
Proof.
  replace (2 * PI * (1 / 10) * (5 / 2)) with (PI / 2) by field.
  apply sin_PI2.
Qed.

(** A run of [c5.py] over a duration [d] with [d * 60 = 150]: the product
    is a double, the frame count is [150] and the last frame has the
    timestamp [d]. *)
Lemma c5_run_150 `{FR : FloatRounding} (self other : Src_c5.Vector) (d : R) :
  d * 60 = 150 ->
  exists ani fr,
    Src_c5.create_animation self other (Some d) = inr ani /\
    nth_error (Src_c5.ani_time ani) 149 = Some d /\
    nth_error (Src_c5.ani_frames ani) 149 = Some fr /\
    Src_c5.update self other (Src_c5.ani_time ani) 149 = inr fr.
Proof.
  intros Hd.
  destruct (c5_run_schedule self other d)
    as (ani & Hrun & _ & _ & _ & (_ & _ & Hexact) & Hgrid);
    [lra | rewrite Hd; unfold max_exact_int; lra |].
  assert (Hn : Src_c5.ani_total_frames ani = 150%Z).
  { rewrite Hexact.
    - rewrite Hd. symmetry. apply Int_part_spec. lra.
    - rewrite Hd. apply (integer_representable 150).
      unfold max_exact_int. simpl. lia. }
  rewrite Hn in Hgrid.
  pose proof (linspace_last 0 _ 150 _ ltac:(lia) Hgrid) as Ht.
  change (Z.to_nat 150 - 1)%nat with 149%nat in Ht.
  destruct (c5_run_frame _ _ _ _ _ _ Hrun Ht) as (fr & Hfr & Hupd).
  exists ani, fr. repeat split; assumption.
Qed.

(** X8: in [c5.py], for non-negative amplitudes [A1] (first vector) and
    [A2] (second vector), at every frame: the tip of the first vector lies
    inside the axes limits; each coordinate of the tip of the second vector
    is between [-A2] and [A2]; the resultant has its x coordinate between
    [-(A1 + A2)] and [A1 + A2] and its y coordinate between [-A2] and
    [A2].  The resultant is guaranteed to stay inside the axes limits
    ([-A1 - 1 .. A1 + 1] on both axes) exactly when [A2 <= 1]: when
    [A2 <= 1] it is inside at every frame of every run; when [A2 > 1] there
    are vectors with these two amplitudes (frequency [1 / 10], angle [0],
    phase shift [0]) whose run over [5 / 2] seconds has a frame with the
    resultant at [(A1 + A2, 0)], outside the limits. *)
Theorem X8_c5_sample_bounds `{FR : FloatRounding}
    (self other : Src_c5.Vector) (dur : option R) (ani : Src_c5.Animation)
    (i : nat) (fr : Src_c5.Frame) :
  0 <= Src_c5.amplitude self ->
  0 <= Src_c5.amplitude other ->
  Src_c5.create_animation self other dur = inr ani ->
  nth_error (Src_c5.ani_frames ani) i = Some fr ->
  within_limits (Src_c5.xlim self) (Src_c5.ylim self)
    (tip (Src_c5.vector_self fr)) /\
  within_limits (- Src_c5.amplitude other, Src_c5.amplitude other)
    (- Src_c5.amplitude other, Src_c5.amplitude other)
    (tip (Src_c5.vector_other fr)) /\
  within_limits
    (- (Src_c5.amplitude self + Src_c5.amplitude other),
     Src_c5.amplitude self + Src_c5.amplitude other)
    (- Src_c5.amplitude other, Src_c5.amplitude other)
    (tip (Src_c5.resultant_vector fr)) /\
  (Src_c5.amplitude other <= 1 ->
   within_limits (Src_c5.xlim self) (Src_c5.ylim self)
     (tip (Src_c5.resultant_vector fr))) /\
  (1 < Src_c5.amplitude other ->
   exists (self' other' : Src_c5.Vector) (ani' : Src_c5.Animation) (j : nat)
          (fr' : Src_c5.Frame),
     Src_c5.amplitude self' = Src_c5.amplitude self /\
     Src_c5.amplitude other' = Src_c5.amplitude other /\
     Src_c5.create_animation self' other' (Some (5 / 2)) = inr ani' /\
     nth_error (Src_c5.ani_frames ani') j = Some fr' /\
     tip (Src_c5.resultant_vector fr')
     = (Src_c5.amplitude self + Src_c5.amplitude other, 0) /\
     ~ within_limits (Src_c5.xlim self') (Src_c5.ylim self')
         (tip (Src_c5.resultant_vector fr'))).
Proof.
  intros HA HB Hrun Hfr.
  destruct (c5_frame_tips _ _ _ _ _ _ Hrun Hfr) as (t & _ & Hs & Ho & Hr).
  pose proof (amplitude_sin_bound (Src_c5.amplitude self)
                (2 * PI * Src_c5.frequency self * t) HA) as [H1 H2].
  pose proof (amplitude_cos_sin_bound (Src_c5.amplitude other)
                (Src_c5.angle other)
                (2 * PI * Src_c5.frequency other * t + Src_c5.phase_shift other)
                HB) as [H3 H4].
  pose proof (amplitude_sin_sin_bound (Src_c5.amplitude other)
                (Src_c5.angle other)
                (2 * PI * Src_c5.frequency other * t + Src_c5.phase_shift other)
                HB) as [H5 H6].
  split; [| split; [| split; [| split]]].
  - rewrite Hs. unfold within_limits, Src_c5.xlim, Src_c5.ylim. simpl.
    repeat split; lra.
  - rewrite Ho. unfold within_limits. simpl. repeat split; lra.
  - rewrite Hr, Hs, Ho. unfold within_limits. simpl. repeat split; lra.
  - intros HB1. rewrite Hr, Hs, Ho.
    unfold within_limits, Src_c5.xlim, Src_c5.ylim. simpl. repeat split; lra.
  - intros HB1.
    set (self' := Src_c5.Build_Vector (Src_c5.amplitude self) (1 / 10) 0 0
                    (Src_c5.color self) (Src_c5.point_shape self)
                    (Src_c5.point_size self) (Src_c5.line_style self)
                    (Src_c5.dotted self)).
    set (other' := Src_c5.Build_Vector (Src_c5.amplitude other) (1 / 10) 0 0
                     (Src_c5.color other) (Src_c5.point_shape other)
                     (Src_c5.point_size other) (Src_c5.line_style other)
                     (Src_c5.dotted other)).
    destruct (c5_run_150 self' other' (5 / 2)) as (ani' & fr' & Hrun' & Ht' & Hfr' & Hupd');
      [lra |].
    destruct (c5_update_at self' other' _ 149 (5 / 2) Ht')
      as (fr'' & Hupd'' & Hs' & Ho' & Hr').
    assert (fr'' = fr') as -> by congruence.
    assert (Hres : tip (Src_c5.resultant_vector fr')
                   = (Src_c5.amplitude self + Src_c5.amplitude other, 0)).
    { rewrite Hr', Hs', Ho'. simpl.
      rewrite Rplus_0_r, sin_quarter_tenth, cos_0, sin_0. f_equal; ring. }
    exists self', other', ani', 149%nat, fr'.
    split; [reflexivity |]. split; [reflexivity |]. split; [exact Hrun' |].
    split; [exact Hfr' |]. split; [exact Hres |].
    rewrite Hres. unfold within_limits, Src_c5.xlim. simpl. lra.
Qed.

Lemma X8_c5_sample_bounds_witness :
  exists ani fr,
    Src_c5.create_animation (FR := exact_rounding) Src_c5.default_vector1
      Src_c5.default_vector2 (Some (1 / 60)) = inr ani /\
    nth_error (Src_c5.ani_frames ani) 0 = Some fr /\
    within_limits (- (2 + 2), 2 + 2) (- 2, 2)
      (tip (Src_c5.resultant_vector fr)) /\
    exists (self' other' : Src_c5.Vector) (ani' : Src_c5.Animation) (j : nat)
           (fr' : Src_c5.Frame),
      Src_c5.amplitude self' = 2 /\
      Src_c5.amplitude other' = 2 /\
      Src_c5.create_animation (FR := exact_rounding) self' other'
        (Some (5 / 2)) = inr ani' /\
      nth_error (Src_c5.ani_frames ani') j = Some fr' /\
      tip (Src_c5.resultant_vector fr') = (2 + 2, 0) /\
      ~ within_limits (Src_c5.xlim self') (Src_c5.ylim self')
          (tip (Src_c5.resultant_vector fr')).
Proof.
  destruct ((c5_one_frame_run (FR := exact_rounding)) Src_c5.default_vector1
              Src_c5.default_vector2) as (ani & fr & Hrun & Hfr).
  assert (HA : 0 <= Src_c5.amplitude Src_c5.default_vector1) by (simpl; lra).
  assert (HB : 0 <= Src_c5.amplitude Src_c5.default_vector2) by (simpl; lra).
  destruct (X8_c5_sample_bounds (FR := exact_rounding) Src_c5.default_vector1
              Src_c5.default_vector2 (Some (1 / 60)) ani 0 fr HA HB Hrun Hfr)
    as (_ & _ & Hres & _ & Hout).
  exists ani, fr. split; [exact Hrun |]. split; [exact Hfr |].
  split; [exact Hres |]. apply Hout. simpl. lra.
Defined.

Lemma sin_quarter_period (f : R) : f <> 0 -> sin (2 * PI * f * (1 / (4 * f))) = 1.
Proof.
  intros Hf. replace (2 * PI * f * (1 / (4 * f))) with (PI / 2) by (field; exact Hf).
  apply sin_PI2.
Qed.

(** X9: in [c5.py] the resultant can leave the plotted area.  When both
    vectors have the same amplitude [A > 1] and the same frequency [f], the
    second with angle [0] and phase shift [0], a frame whose timestamp is a
    quarter period, [1 / (4 * f)], shows the resultant at [(2 * A, 0)],
    beyond the x limit [A + 1] of the axes. *)
Theorem X9_c5_resultant_can_leave_axes `{FR : FloatRounding}
    (self other : Src_c5.Vector) (dur : option R) (ani : Src_c5.Animation)
    (i : nat) (fr : Src_c5.Frame) :
  1 < Src_c5.amplitude self ->
  Src_c5.amplitude other = Src_c5.amplitude self ->
  0 < Src_c5.frequency self ->
  Src_c5.frequency other = Src_c5.frequency self ->
  Src_c5.angle other = 0 ->
  Src_c5.phase_shift other = 0 ->
  Src_c5.create_animation self other dur = inr ani ->
  nth_error (Src_c5.ani_time ani) i = Some (1 / (4 * Src_c5.frequency self)) ->
  nth_error (Src_c5.ani_frames ani) i = Some fr ->
  tip (Src_c5.resultant_vector fr) = (2 * Src_c5.amplitude self, 0) /\
  ~ within_limits (Src_c5.xlim self) (Src_c5.ylim self)
      (tip (Src_c5.resultant_vector fr)).
Proof.
  intros HA EA Hf Ef Hangle Hphase Hrun Ht Hfr.
  destruct (c5_frame_tips _ _ _ _ _ _ Hrun Hfr) as (t & Ht' & Hs & Ho & Hr).
  assert (t = 1 / (4 * Src_c5.frequency self)) as -> by congruence.
  assert (Hres : tip (Src_c5.resultant_vector fr)
                 = (2 * Src_c5.amplitude self, 0)).
  { rewrite Hr, Hs, Ho, EA, Ef, Hangle, Hphase. simpl.
    rewrite Rplus_0_r, sin_quarter_period, cos_0, sin_0 by lra.
    f_equal; ring. }
  split; [exact Hres |].
  rewrite Hres. unfold within_limits, Src_c5.xlim. simpl. lra.
Qed.

Lemma X9_c5_resultant_can_leave_axes_witness :
  exists ani fr,
    Src_c5.create_animation (FR := exact_rounding) Src_c5.default_vector1
      Src_c5.default_vector1 (Some (1 / (4 * (1 / 10)))) = inr ani /\
    nth_error (Src_c5.ani_time ani) 149 = Some (1 / (4 * (1 / 10))) /\
    nth_error (Src_c5.ani_frames ani) 149 = Some fr /\
    tip (Src_c5.resultant_vector fr) = (2 * 2, 0) /\
    ~ within_limits (Src_c5.xlim Src_c5.default_vector1)
        (Src_c5.ylim Src_c5.default_vector1) (tip (Src_c5.resultant_vector fr)).
Proof.
  destruct ((c5_run_150 (FR := exact_rounding)) Src_c5.default_vector1
              Src_c5.default_vector1 (1 / (4 * (1 / 10))))
    as (ani & fr & Hrun & Ht & Hfr & _); [lra |].
  assert (Hz : radians 0 = 0) by (unfold radians; lra).
  destruct (X9_c5_resultant_can_leave_axes (FR := exact_rounding)
              Src_c5.default_vector1
              Src_c5.default_vector1 (Some (1 / (4 * (1 / 10)))) ani 149 fr)
    as [Hres Hout]; simpl; try lra; try reflexivity; try assumption.
  exists ani, fr. repeat split; assumption.
Defined.

(** ** Geometry of the samples *)

Lemma sin_quadrature (x : R) : sin (x + PI / 2) = cos x.
Proof. rewrite sin_plus, cos_PI2, sin_PI2. ring. Qed.

Lemma sin_cos_squares (x : R) : sin x * sin x + cos x * cos x = 1.
Proof. pose proof (sin2_cos2 x) as H. unfold Rsqr in H. exact H. Qed.

(** X10: in [c4.py], with the first vector on the x axis and the second on
    the y axis, of the same amplitude [A] and frequency (as the script
    builds them), at every frame the point whose abscissa is that of the
    first tip and whose ordinate is that of the second tip lies on the
    circle of radius [A]: the two vectors are in quadrature. *)
Theorem X10_c4_quadrature_circle `{FR : FloatRounding}
    (self other : Src_c4.Vector) (dur : option R) (ani : Src_c4.Animation)
    (i : nat) (fr : Src_c4.Frame) :
  Src_c4.axis self = "x"%string ->
  Src_c4.axis other = "y"%string ->
  Src_c4.amplitude other = Src_c4.amplitude self ->
  Src_c4.frequency other = Src_c4.frequency self ->
  Src_c4.create_animation self other dur = inr ani ->
  nth_error (Src_c4.ani_frames ani) i = Some fr ->
  snd (tip (Src_c4.vector_self fr)) = 0 /\
  fst (tip (Src_c4.vector_other fr)) = 0 /\
  fst (tip (Src_c4.vector_self fr)) * fst (tip (Src_c4.vector_self fr))
  + snd (tip (Src_c4.vector_other fr)) * snd (tip (Src_c4.vector_other fr))
  = Src_c4.amplitude self * Src_c4.amplitude self.
Proof.
  intros Hx Hy EA Ef Hrun Hfr.
  destruct (c4_frame_tips _ _ _ _ _ _ Hrun Hfr) as (t & _ & Hs & Ho).
  rewrite Hx in Hs. rewrite Hy in Ho. simpl in Hs, Ho.
  rewrite Hs, Ho, EA, Ef. simpl.
  split; [reflexivity |]. split; [reflexivity |].
  rewrite sin_quadrature.
  pose proof (sin_cos_squares (2 * PI * Src_c4.frequency self * t)) as H.
  nra.
Qed.

Lemma X10_c4_quadrature_circle_witness :
  exists ani fr,
    Src_c4.create_animation (FR := exact_rounding) Src_c4.default_vector1 Src_c4.default_vector2
      (Some (1 / 60)) = inr ani /\
    nth_error (Src_c4.ani_frames ani) 0 = Some fr /\
    fst (tip (Src_c4.vector_self fr)) * fst (tip (Src_c4.vector_self fr))
    + snd (tip (Src_c4.vector_other fr)) * snd (tip (Src_c4.vector_other fr))
    = 2 * 2.
Proof.
  destruct ((c4_one_frame_run (FR := exact_rounding)) Src_c4.default_vector1 Src_c4.default_vector2)
    as (ani & fr & Hrun & Hfr).
  destruct ((X10_c4_quadrature_circle (FR := exact_rounding)) Src_c4.default_vector1
              Src_c4.default_vector2 (Some (1 / 60)) ani 0 fr
              eq_refl eq_refl eq_refl eq_refl Hrun Hfr) as (_ & _ & Hc).
  exists ani, fr. split; [exact Hrun |]. split; [exact Hfr |]. exact Hc.
Defined.

(** X11: in [c4.py] an axis other than ["x"] and ["y"] is not rejected: the
    first vector then oscillates along the y axis and the second along the
    x axis (each falls into the [else] branch of its test). *)
Theorem X11_c4_unrecognised_axis `{FR : FloatRounding}
    (self other : Src_c4.Vector) (dur : option R) (ani : Src_c4.Animation)
    (i : nat) (fr : Src_c4.Frame) :
  Src_c4.create_animation self other dur = inr ani ->
  nth_error (Src_c4.ani_frames ani) i = Some fr ->
  exists t,
    nth_error (Src_c4.ani_time ani) i = Some t /\
    (Src_c4.axis self <> "x"%string ->
     tip (Src_c4.vector_self fr)
     = (0, Src_c4.amplitude self * sin (2 * PI * Src_c4.frequency self * t))) /\
    (Src_c4.axis other <> "y"%string ->
     tip (Src_c4.vector_other fr)
     = (Src_c4.amplitude other
        * sin (2 * PI * Src_c4.frequency other * t + PI / 2), 0)).
Proof.
  intros Hrun Hfr.
  destruct (c4_frame_tips _ _ _ _ _ _ Hrun Hfr) as (t & Ht & Hs & Ho).
  exists t. split; [exact Ht |]. split; intros Hax.
  - apply String.eqb_neq in Hax. rewrite Hax in Hs. exact Hs.
  - apply String.eqb_neq in Hax. rewrite Hax in Ho. exact Ho.
Qed.

Lemma X11_c4_unrecognised_axis_witness :
  exists ani fr t,
    Src_c4.create_animation (FR := exact_rounding)
      (Src_c4.Build_Vector 2 (1 / 10) "z" "#1f77b4" "o" 10 "-" false)
      (Src_c4.Build_Vector 2 (1 / 10) "z" "#ff7f0e" "o" 10 "-" false)
      (Some (1 / 60)) = inr ani /\
    nth_error (Src_c4.ani_frames ani) 0 = Some fr /\
    tip (Src_c4.vector_self fr) = (0, 2 * sin (2 * PI * (1 / 10) * t)) /\
    tip (Src_c4.vector_other fr) = (2 * sin (2 * PI * (1 / 10) * t + PI / 2), 0).
Proof.
  destruct ((c4_one_frame_run (FR := exact_rounding))
              (Src_c4.Build_Vector 2 (1 / 10) "z" "#1f77b4" "o" 10 "-" false)
              (Src_c4.Build_Vector 2 (1 / 10) "z" "#ff7f0e" "o" 10 "-" false))
    as (ani & fr & Hrun & Hfr).
  destruct ((X11_c4_unrecognised_axis (FR := exact_rounding)) _ _ _ ani 0 fr Hrun Hfr)
    as (t & _ & Hs & Ho).
  exists ani, fr, t. split; [exact Hrun |]. split; [exact Hfr |]. split.
  - apply Hs. simpl. discriminate.
  - apply Ho. simpl. discriminate.
Defined.

(** X12: in [c5.py] the tip of the second vector moves on the line through
    the origin at its angle: at every frame [x * sin angle = y * cos angle],
    and its squared distance to the origin is the squared displacement
    [(amplitude * sin (2 * PI * f * t + phase_shift))^2], so the tip is
    never further than [|amplitude|] from the origin. *)
Theorem X12_c5_second_vector_on_its_line `{FR : FloatRounding}
    (self other : Src_c5.Vector) (dur : option R) (ani : Src_c5.Animation)
    (i : nat) (fr : Src_c5.Frame) :
  Src_c5.create_animation self other dur = inr ani ->
  nth_error (Src_c5.ani_frames ani) i = Some fr ->
  exists t,
    nth_error (Src_c5.ani_time ani) i = Some t /\
    fst (tip (Src_c5.vector_other fr)) * sin (Src_c5.angle other)
    = snd (tip (Src_c5.vector_other fr)) * cos (Src_c5.angle other) /\
    fst (tip (Src_c5.vector_other fr)) * fst (tip (Src_c5.vector_other fr))
    + snd (tip (Src_c5.vector_other fr)) * snd (tip (Src_c5.vector_other fr))
    = Rsqr (Src_c5.amplitude other
            * sin (2 * PI * Src_c5.frequency other * t
                   + Src_c5.phase_shift other)) /\
    fst (tip (Src_c5.vector_other fr)) * fst (tip (Src_c5.vector_other fr))
    + snd (tip (Src_c5.vector_other fr)) * snd (tip (Src_c5.vector_other fr))
    <= Rsqr (Src_c5.amplitude other).
Proof.
  intros Hrun Hfr.
  destruct (c5_frame_tips _ _ _ _ _ _ Hrun Hfr) as (t & Ht & _ & Ho & _).
  exists t. split; [exact Ht |]. rewrite Ho. simpl.
  set (A := Src_c5.amplitude other).
  set (s := sin (2 * PI * Src_c5.frequency other * t + Src_c5.phase_shift other)).
  pose proof (sin_cos_squares (Src_c5.angle other)) as Hsc.
  assert (Hsq : A * cos (Src_c5.angle other) * s * (A * cos (Src_c5.angle other) * s)
                + A * sin (Src_c5.angle other) * s * (A * sin (Src_c5.angle other) * s)
                = Rsqr (A * s)).
  { unfold Rsqr.
    replace (A * cos (Src_c5.angle other) * s * (A * cos (Src_c5.angle other) * s)
             + A * sin (Src_c5.angle other) * s * (A * sin (Src_c5.angle other) * s))
      with (A * s * (A * s)
            * (sin (Src_c5.angle other) * sin (Src_c5.angle other)
               + cos (Src_c5.angle other) * cos (Src_c5.angle other))) by ring.
    rewrite Hsc. ring. }
  split; [ring |]. split; [exact Hsq |].
  rewrite Hsq. unfold Rsqr.
  assert (Hs : -1 <= s <= 1) by apply SIN_bound.
  assert (Hs2 : s * s <= 1) by nra.
  assert (HA2 : 0 <= A * A) by nra.
  nra.
Qed.

Lemma X12_c5_second_vector_on_its_line_witness :
  exists ani fr,
    Src_c5.create_animation (FR := exact_rounding) Src_c5.default_vector1 Src_c5.default_vector2
      (Some (1 / 60)) = inr ani /\
    nth_error (Src_c5.ani_frames ani) 0 = Some fr /\
    fst (tip (Src_c5.vector_other fr)) * sin (radians 45)
    = snd (tip (Src_c5.vector_other fr)) * cos (radians 45).
Proof.
  destruct ((c5_one_frame_run (FR := exact_rounding)) Src_c5.default_vector1 Src_c5.default_vector2)
    as (ani & fr & Hrun & Hfr).
  destruct ((X12_c5_second_vector_on_its_line (FR := exact_rounding)) Src_c5.default_vector1
              Src_c5.default_vector2 (Some (1 / 60)) ani 0 fr Hrun Hfr)
    as (t & _ & Hline & _).
  exists ani, fr. split; [exact Hrun |]. split; [exact Hfr |]. exact Hline.
Defined.









(** ** Validation of the typed inputs ([c5.py]) *)

Section Validation.

Variable float : string -> option pyfloat.
Variables (text label : string) (value step : R).

Lemma input_with_validation_range (lo hi : R) :
  lo <= value <= hi ->
  float text <> Some NaN ->
  exists r calls,
    Src_c5.input_with_validation float text label value step
      (Some lo) (Some hi) = (Finite r, calls) /\
    lo <= r <= hi.
Proof.
  intros Hval Hnan. unfold Src_c5.input_with_validation.
  destruct (float text) as [[r | | |] |]; simpl.
  - destruct (Rlt_dec r lo) as [Hlo | Hlo]; simpl.
    + destruct (Rlt_dec hi lo) as [Hbad | _]; [lra |].
      eexists _, _; split; [reflexivity | lra].
    + destruct (Rlt_dec hi r); eexists _, _; (split; [reflexivity | lra]).
  - eexists _, _; split; [reflexivity | lra].
  - destruct (Rlt_dec hi lo) as [Hbad | _]; [lra |].
    eexists _, _; split; [reflexivity | lra].
  - contradiction Hnan. reflexivity.
  - eexists _, _; split; [reflexivity | lra].
Qed.

(** X15: with both bounds given and [min_value <= max_value],
    [input_with_validation] has exactly these outcomes: a text that
    [float] rejects gives the default [value] and one error call; a number
    below [min_value] (or minus infinity) gives [min_value] and one warning;
    a number above [max_value] (or plus infinity) gives [max_value] and one
    warning; a number within the bounds is returned unchanged with no call;
    a NaN is returned unchanged with no call. *)
Theorem X15_input_with_validation_outcomes (lo hi : R) :
  lo <= hi ->
  Src_c5.input_with_validation float text label value step (Some lo) (Some hi)
  = match float text with
    | None => (Finite value, [error_invalid label])
    | Some (Finite r) =>
        if Rlt_dec r lo then (Finite lo, [warning_less label lo])
        else if Rlt_dec hi r then (Finite hi, [warning_greater label hi])
        else (Finite r, [])
    | Some PosInf => (Finite hi, [warning_greater label hi])
    | Some NegInf => (Finite lo, [warning_less label lo])
    | Some NaN => (NaN, [])
    end.
Proof.
  intros Hle. unfold Src_c5.input_with_validation.
  destruct (float text) as [[r | | |] |]; simpl; try reflexivity.
  - destruct (Rlt_dec r lo) as [Hlo | Hlo]; simpl.
    + destruct (Rlt_dec hi lo) as [Hbad | _]; [lra | reflexivity].
    + destruct (Rlt_dec hi r); reflexivity.
  - destruct (Rlt_dec hi lo) as [Hbad | _]; [lra | reflexivity].
Qed.

(** X16: with both bounds given and the default [value] within them, the
    result of [input_with_validation] is a finite number within the bounds
    for every text that [float] does not turn into a NaN -- whatever is
    typed, including texts that are not numbers and infinities. *)
Theorem X16_input_with_validation_in_range (lo hi : R) :
  lo <= value <= hi ->
  float text <> Some NaN ->
  exists r calls,
    Src_c5.input_with_validation float text label value step
      (Some lo) (Some hi) = (Finite r, calls) /\
    lo <= r <= hi.
Proof.
  intros Hval Hnan. unfold Src_c5.input_with_validation.
  destruct (float text) as [[r | | |] |]; simpl.
  - destruct (Rlt_dec r lo) as [Hlo | Hlo]; simpl.
    + destruct (Rlt_dec hi lo) as [Hbad | _]; [lra |].
      eexists _, _; split; [reflexivity | lra].
    + destruct (Rlt_dec hi r); eexists _, _; (split; [reflexivity | lra]).
  - eexists _, _; split; [reflexivity | lra].
  - destruct (Rlt_dec hi lo) as [Hbad | _]; [lra |].
    eexists _, _; split; [reflexivity | lra].
  - contradiction Hnan. reflexivity.
  - eexists _, _; split; [reflexivity | lra].
Qed.

(** X17: a NaN escapes the validation: when [float] turns the text into a
    NaN, [input_with_validation] returns the NaN with no warning and no
    error, whatever the bounds (both comparisons are false). *)
Theorem X17_input_with_validation_nan (min_value max_value : option R) :
  float text = Some NaN ->
  Src_c5.input_with_validation float text label value step min_value max_value
  = (NaN, []).
Proof.
  intros Hnan. unfold Src_c5.input_with_validation. rewrite Hnan.
  destruct min_value, max_value; reflexivity.
Qed.

(** X18: the two checks are made in sequence, the second on the result of
    the first: with inverted bounds ([max_value < min_value]) a number below
    [min_value] is first raised to [min_value], then lowered to
    [max_value], with both warnings, in this order. *)
Theorem X18_input_with_validation_inverted_bounds (lo hi r : R) :
  hi < lo -> r < lo ->
  float text = Some (Finite r) ->
  Src_c5.input_with_validation float text label value step (Some lo) (Some hi)
  = (Finite hi, [warning_less label lo; warning_greater label hi]).
Proof.
  intros Hinv Hr Hparse. unfold Src_c5.input_with_validation.
  rewrite Hparse. simpl.
  destruct (Rlt_dec r lo) as [_ | Hn]; [| contradiction]. simpl.
  destruct (Rlt_dec hi lo) as [_ | Hn]; [| contradiction]. reflexivity.
Qed.

End Validation.

Lemma X15_input_with_validation_witness :
  1 / 100 <= 1 /\
  Src_c5.input_with_validation (fun _ => Some (Finite 7)) "7" "Frequency (Hz)"
    (1 / 10) (1 / 100) (Some (1 / 100)) (Some 1)
  = (if Rlt_dec 7 (1 / 100)
     then (Finite (1 / 100), [warning_less "Frequency (Hz)" (1 / 100)])
     else if Rlt_dec 1 7
          then (Finite 1, [warning_greater "Frequency (Hz)" 1])
          else (Finite 7, [])).
Proof.
  assert (H : 1 / 100 <= 1) by lra. split; [exact H |].
  exact (X15_input_with_validation_outcomes (fun _ => Some (Finite 7)) "7"
           "Frequency (Hz)" (1 / 10) (1 / 100) (1 / 100) 1 H).
Defined.

Lemma X16_input_with_validation_witness :
  exists r calls,
    Src_c5.input_with_validation (fun _ => None) "abc" "Frequency (Hz)"
      (1 / 10) (1 / 100) (Some (1 / 100)) (Some 1) = (Finite r, calls) /\
    1 / 100 <= r <= 1.
Proof.
  apply (X16_input_with_validation_in_range (fun _ => None) "abc"
           "Frequency (Hz)" (1 / 10) (1 / 100) (1 / 100) 1).
  - lra.
  - discriminate.
Defined.

Lemma X17_input_with_validation_witness :
  Src_c5.input_with_validation (fun _ => Some NaN) "nan" "Frequency (Hz)"
    (1 / 10) (1 / 100) (Some (1 / 100)) (Some 1) = (NaN, []).
Proof.
  exact (X17_input_with_validation_nan (fun _ => Some NaN) "nan"
           "Frequency (Hz)" (1 / 10) (1 / 100) (Some (1 / 100)) (Some 1)
           eq_refl).
Defined.

Lemma X18_input_with_validation_witness :
  Src_c5.input_with_validation (fun _ => Some (Finite 0)) "0" "Point Size"
    10 1 (Some 20) (Some 5)
  = (Finite 5, [warning_less "Point Size" 20; warning_greater "Point Size" 5]).
Proof.
  apply (X18_input_with_validation_inverted_bounds (fun _ => Some (Finite 0))
           "0" "Point Size" 10 1 20 5 0); [lra | lra | reflexivity].
Defined.

(** ** The scripts on the values their widgets can return *)

Lemma int_between (x : R) (a b : Z) :
  0 <= x -> IZR a <= x <= IZR b -> (a <= int x <= b)%Z.
Proof.
  intros Hx [Ha Hb]. destruct (int_bounds x Hx) as [Hlo Hhi]. split.
  - apply Z.lt_succ_r. apply lt_IZR. rewrite succ_IZR. lra.
  - apply le_IZR. lra.
Qed.

(** The frame count of one period [1 / f] for a frequency between [lo] and
    [hi]: the product lies between two integers, which are doubles, and so
    does the double it rounds to. *)
Lemma period_frames `{FR : FloatRounding} (f lo hi : R) (a b : Z) :
  0 < lo -> lo <= f <= hi -> IZR a * hi <= 60 -> 60 <= IZR b * lo ->
  (0 <= a)%Z -> (b <= max_exact_int)%Z ->
  0 < 1 / f /\
  exists n, int_float (fmul (1 / f) 60) = inr n /\ (a <= n <= b)%Z.
Proof.
  intros Hlo [Hf1 Hf2] Ha Hb Ha0 Hbm.
  assert (Hq : 0 < / f) by (apply Rinv_0_lt_compat; lra).
  assert (Hfq : f * / f = 1) by (apply Rinv_r; lra).
  assert (HA : 0 <= IZR a) by (apply IZR_le; exact Ha0).
  split; [unfold Rdiv; lra |].
  assert (Hx : IZR a <= 1 / f * 60 <= IZR b).
  { unfold Rdiv. split.
    - assert (H1 : IZR a * f <= 60) by nra.
      assert (H2 : IZR a * f * / f <= 60 * / f)
        by (apply Rmult_le_compat_r; lra).
      replace (IZR a * f * / f) with (IZR a * (f * / f)) in H2 by ring.
      rewrite Hfq in H2. lra.
    - assert (Hb0 : 0 <= IZR b) by nra.
      assert (H1 : 60 <= IZR b * f) by nra.
      assert (H2 : 60 * / f <= IZR b * f * / f)
        by (apply Rmult_le_compat_r; lra).
      replace (IZR b * f * / f) with (IZR b * (f * / f)) in H2 by ring.
      rewrite Hfq in H2. lra. }
  assert (Hab : (a <= b)%Z) by (apply le_IZR; lra).
  destruct (round_between (IZR a) (1 / f * 60) (IZR b))
    as (p & Hp & Hpa & Hpb);
    [apply integer_representable; lia | apply integer_representable; lia
     | exact Hx |].
  exists (int p). unfold fmul. rewrite Hp. split; [reflexivity |].
  apply int_between; [lra | split; assumption].
Qed.

Lemma c3_script_run `{FR : FloatRounding} (amplitude frequency : R) (vector_color vector_shape : string)
    (vector_size : Z) (vector_dotted : bool) :
  frequency <> 0 ->
  Src_c3.script amplitude frequency vector_color vector_shape vector_size
    vector_dotted
  = Src_c3.create_animation
      (Src_c3.Build_Vector amplitude frequency vector_color vector_shape
         vector_size "-" vector_dotted) (Some (1 / frequency)).
Proof.
  intros Hf. unfold Src_c3.script. simpl. rewrite truediv_nonzero by exact Hf.
  reflexivity.
Qed.

Lemma c4_script_run `{FR : FloatRounding} (amplitude frequency : R)
    (vector1_color vector2_color vector_shape : string) (vector_size : Z)
    (vector_dotted : bool) :
  frequency <> 0 ->
  Src_c4.script amplitude frequency vector1_color vector2_color vector_shape
    vector_size vector_dotted
  = Src_c4.create_animation
      (Src_c4.Build_Vector amplitude frequency "x" vector1_color vector_shape
         vector_size "-" vector_dotted)
      (Src_c4.Build_Vector amplitude frequency "y" vector2_color vector_shape
         vector_size "-" vector_dotted) (Some (1 / frequency)).
Proof.
  intros Hf. unfold Src_c4.script. simpl. rewrite truediv_nonzero by exact Hf.
  reflexivity.
Qed.

Lemma c5_script_run `{FR : FloatRounding} (amplitude frequency : R)
    (vector1_color vector2_color vector_shape : string) (vector_size : R)
    (vector_dotted : bool) (angle_vector2 phase_shift_vector2 : R) :
  frequency <> 0 ->
  Src_c5.script amplitude frequency vector1_color vector2_color vector_shape
    vector_size vector_dotted angle_vector2 phase_shift_vector2
  = Src_c5.create_animation
      (Src_c5.Build_Vector amplitude frequency (radians 0) (radians 0)
         vector1_color vector_shape vector_size "-" vector_dotted)
      (Src_c5.Build_Vector amplitude frequency (radians angle_vector2)
         (radians phase_shift_vector2) vector2_color vector_shape vector_size
         "-" vector_dotted) (Some (1 / frequency)).
Proof.
  intros Hf. unfold Src_c5.script. simpl. rewrite truediv_nonzero by exact Hf.
  reflexivity.
Qed.

(** X19: for every pair of values the sliders of [c3.py] can return
    (amplitude and frequency in [[0.1, 5]]) the script runs without error;
    the animation lasts one period [1 / frequency], has between 12 and 600
    frames, and its time grid starts at [0] and ends at [1 / frequency]. *)
Theorem X19_c3_script_on_slider_values `{FR : FloatRounding}
    (amplitude frequency : R) (vector_color vector_shape : string)
    (vector_size : Z) (vector_dotted : bool) :
  Src_c3.slider_values amplitude frequency ->
  exists ani,
    Src_c3.script amplitude frequency vector_color vector_shape vector_size
      vector_dotted = inr ani /\
    Src_c3.ani_duration ani = 1 / frequency /\
    (12 <= Src_c3.ani_total_frames ani <= 600)%Z /\
    nth_error (Src_c3.ani_time ani) 0 = Some 0 /\
    nth_error (Src_c3.ani_time ani) (Z.to_nat (Src_c3.ani_total_frames ani) - 1)
    = Some (1 / frequency).
Proof.
  intros [_ Hf].
  destruct (period_frames frequency (1 / 10) 5 12 600) as [Hd (n & Hcount & Hn)];
    [lra | exact Hf | lra | lra | lia | unfold max_exact_int; lia |].
  rewrite c3_script_run by lra.
  destruct (c3_run_count
              (Src_c3.Build_Vector amplitude frequency vector_color vector_shape
                 vector_size "-" vector_dotted) (1 / frequency) n Hcount)
    as (ani & Hrun & Hdur & Htot & Hgrid); [lia |].
  exists ani. split; [exact Hrun |]. split; [exact Hdur |].
  rewrite Htot. split; [exact Hn |].
  destruct (schedule_grid _ _ _ Hgrid) as (_ & Hbig & _).
  destruct Hbig as (_ & Hfirst & Hlast); [lia |].
  split; assumption.
Qed.

Lemma X19_c3_script_witness :
  Src_c3.slider_values 2 1 /\
  exists ani,
    Src_c3.script (FR := exact_rounding) 2 1 "#1f77b4" "o" 10 false = inr ani /\
    Src_c3.ani_duration ani = 1 / 1 /\
    (12 <= Src_c3.ani_total_frames ani <= 600)%Z.
Proof.
  assert (H : Src_c3.slider_values 2 1) by (unfold Src_c3.slider_values; lra).
  split; [exact H |].
  destruct ((X19_c3_script_on_slider_values (FR := exact_rounding)) 2 1 "#1f77b4" "o" 10 false H)
    as (ani & Hrun & Hdur & Hn & _).
  exists ani. repeat split; try assumption; apply Hn.
Defined.

(** X20: for every pair of values the sliders of [c4.py] can return
    (amplitude in [[0.1, 5]], frequency in [[0.01, 1]]) the script runs
    without error; the animation lasts one period [1 / frequency], has
    between 60 and 6000 frames, and its time grid starts at [0] and ends at
    [1 / frequency]. *)
Theorem X20_c4_script_on_slider_values `{FR : FloatRounding}
    (amplitude frequency : R)
    (vector1_color vector2_color vector_shape : string) (vector_size : Z)
    (vector_dotted : bool) :
  Src_c4.slider_values amplitude frequency ->
  exists ani,
    Src_c4.script amplitude frequency vector1_color vector2_color vector_shape
      vector_size vector_dotted = inr ani /\
    Src_c4.ani_duration ani = 1 / frequency /\
    (60 <= Src_c4.ani_total_frames ani <= 6000)%Z /\
    nth_error (Src_c4.ani_time ani) 0 = Some 0 /\
    nth_error (Src_c4.ani_time ani) (Z.to_nat (Src_c4.ani_total_frames ani) - 1)
    = Some (1 / frequency).
Proof.
  intros [_ Hf].
  destruct (period_frames frequency (1 / 100) 1 60 6000) as [Hd (n & Hcount & Hn)];
    [lra | exact Hf | lra | lra | lia | unfold max_exact_int; lia |].
  rewrite c4_script_run by lra.
  match goal with
  | |- context [Src_c4.create_animation ?v1 ?v2 _] =>
      destruct (c4_run_count v1 v2 (1 / frequency) n Hcount)
        as (ani & Hrun & Hdur & Htot & Hgrid); [lia |]
  end.
  exists ani. split; [exact Hrun |]. split; [exact Hdur |].
  rewrite Htot. split; [exact Hn |].
  destruct (schedule_grid _ _ _ Hgrid) as (_ & Hbig & _).
  destruct Hbig as (_ & Hfirst & Hlast); [lia |].
  split; assumption.
Qed.

Lemma X20_c4_script_witness :
  Src_c4.slider_values 2 (1 / 10) /\
  exists ani,
    Src_c4.script (FR := exact_rounding) 2 (1 / 10) "#1f77b4" "#ff7f0e" "o" 10 false = inr ani /\
    Src_c4.ani_duration ani = 1 / (1 / 10) /\
    (60 <= Src_c4.ani_total_frames ani <= 6000)%Z.
Proof.
  assert (H : Src_c4.slider_values 2 (1 / 10))
    by (unfold Src_c4.slider_values; lra).
  split; [exact H |].
  destruct ((X20_c4_script_on_slider_values (FR := exact_rounding)) 2 (1 / 10) "#1f77b4" "#ff7f0e" "o"
              10 false H) as (ani & Hrun & Hdur & Hn & _).
  exists ani. repeat split; try assumption; apply Hn.
Defined.

(** X21: in [c5.py], whatever is typed for the amplitude and the frequency
    (short of a NaN), the validated values are finite, the amplitude in
    [[0.1, 5]] and the frequency in [[0.01, 1]]; the script then runs
    without error for every angle and phase shift: no division by zero, an
    animation of one period [1 / frequency] with between 60 and 6000
    frames, whose time grid starts at [0] and ends at [1 / frequency]. *)
Theorem X21_c5_script_on_validated_inputs `{FR : FloatRounding}
    (float : string -> option pyfloat) (amplitude_text frequency_text : string) :
  float amplitude_text <> Some NaN ->
  float frequency_text <> Some NaN ->
  exists amplitude frequency calls_a calls_f,
    Src_c5.amplitude_input float amplitude_text = (Finite amplitude, calls_a) /\
    Src_c5.frequency_input float frequency_text = (Finite frequency, calls_f) /\
    1 / 10 <= amplitude <= 5 /\
    1 / 100 <= frequency <= 1 /\
    forall (vector1_color vector2_color vector_shape : string)
           (vector_size : R) (vector_dotted : bool)
           (angle_vector2 phase_shift_vector2 : R),
    exists ani,
      Src_c5.script amplitude frequency vector1_color vector2_color
        vector_shape vector_size vector_dotted angle_vector2
        phase_shift_vector2 = inr ani /\
      Src_c5.ani_duration ani = 1 / frequency /\
      (60 <= Src_c5.ani_total_frames ani <= 6000)%Z /\
      nth_error (Src_c5.ani_time ani) 0 = Some 0 /\
      nth_error (Src_c5.ani_time ani)
        (Z.to_nat (Src_c5.ani_total_frames ani) - 1) = Some (1 / frequency).
Proof.
  intros Ha Hf.
  destruct (input_with_validation_range float amplitude_text
              "Amplitude (Max Displacement for Both Vectors)" 2 (1 / 10)
              (1 / 10) 5) as (A & calls_a & HA & HAr); [lra | exact Ha |].
  destruct (input_with_validation_range float frequency_text "Frequency (Hz)"
              (1 / 10) (1 / 100) (1 / 100) 1) as (f & calls_f & HF & HFr);
    [lra | exact Hf |].
  exists A, f, calls_a, calls_f.
  split; [exact HA |]. split; [exact HF |]. split; [exact HAr |].
  split; [exact HFr |].
  intros c1 c2 shape size dotted angle phase.
  destruct (period_frames f (1 / 100) 1 60 6000) as [Hd (n & Hcount & Hn)];
    [lra | exact HFr | lra | lra | lia | unfold max_exact_int; lia |].
  rewrite c5_script_run by lra.
  match goal with
  | |- context [Src_c5.create_animation ?v1 ?v2 _] =>
      destruct (c5_run_count v1 v2 (1 / f) n Hcount)
        as (ani & Hrun & Hdur & Htot & Hgrid); [lia |]
  end.
  exists ani. split; [exact Hrun |]. split; [exact Hdur |].
  rewrite Htot. split; [exact Hn |].
  destruct (schedule_grid _ _ _ Hgrid) as (_ & Hbig & _).
  destruct Hbig as (_ & Hfirst & Hlast); [lia |].
  split; assumption.
Qed.

Lemma X21_c5_script_witness :
  exists amplitude frequency calls_a calls_f,
    Src_c5.amplitude_input (fun _ => None) "two" = (Finite amplitude, calls_a) /\
    Src_c5.frequency_input (fun _ => None) "fast" = (Finite frequency, calls_f) /\
    1 / 10 <= amplitude <= 5 /\
    1 / 100 <= frequency <= 1.
Proof.
  destruct ((X21_c5_script_on_validated_inputs (FR := exact_rounding)) (fun _ => None) "two" "fast")
    as (A & f & ca & cf & HA & HF & HAr & HFr & _); try discriminate.
  exists A, f, ca, cf. repeat split; try assumption; try apply HAr; apply HFr.
Defined.

(** X22: in [c5.py], when the second vector is constructed with the
    amplitude [A] and the frequency of the first, an angle of 90 degrees and
    a phase shift of 90 degrees, the resultant is at
    [(A * sin (2 * PI * f * t), A * cos (2 * PI * f * t))] at every frame,
    of timestamp [t]: it moves on the circle of radius [|A|] around the
    origin. *)
Theorem X22_c5_resultant_on_circle `{FR : FloatRounding}
    (self other : Src_c5.Vector)
    (color point_shape line_style : string) (point_size : R) (dotted : bool)
    (dur : option R) (ani : Src_c5.Animation) (i : nat) (fr : Src_c5.Frame) :
  Src_c5.init (Src_c5.amplitude self) (Src_c5.frequency self) 90 90
    color point_shape point_size line_style dotted = inr other ->
  Src_c5.create_animation self other dur = inr ani ->
  nth_error (Src_c5.ani_frames ani) i = Some fr ->
  exists t,
    nth_error (Src_c5.ani_time ani) i = Some t /\
    tip (Src_c5.resultant_vector fr)
    = (Src_c5.amplitude self * sin (2 * PI * Src_c5.frequency self * t),
       Src_c5.amplitude self * cos (2 * PI * Src_c5.frequency self * t)) /\
    fst (tip (Src_c5.resultant_vector fr)) * fst (tip (Src_c5.resultant_vector fr))
    + snd (tip (Src_c5.resultant_vector fr)) * snd (tip (Src_c5.resultant_vector fr))
    = Src_c5.amplitude self * Src_c5.amplitude self.
Proof.
  intros Hinit Hrun Hfr.
  destruct (c5_frame_tips _ _ _ _ _ _ Hrun Hfr) as (t & Ht & Hs & Ho & Hr).
  unfold Src_c5.init in Hinit. simpl in Hinit. injection Hinit as <-.
  simpl in Ho.
  assert (Hres : tip (Src_c5.resultant_vector fr)
                 = (Src_c5.amplitude self
                    * sin (2 * PI * Src_c5.frequency self * t),
                    Src_c5.amplitude self
                    * cos (2 * PI * Src_c5.frequency self * t))).
  { rewrite Hr, Hs, Ho. simpl.
    rewrite radians_90, cos_PI2, sin_PI2, sin_quadrature. f_equal; ring. }
  exists t. split; [exact Ht |]. split; [exact Hres |].
  rewrite Hres. simpl.
  pose proof (sin_cos_squares (2 * PI * Src_c5.frequency self * t)) as H.
  nra.
Qed.

Lemma X22_c5_resultant_on_circle_witness :
  exists ani fr,
    Src_c5.create_animation (FR := exact_rounding) Src_c5.default_vector1
      (Src_c5.Build_Vector 2 (1 / 10) (radians 90) (radians 90) "#ff7f0e" "o" 10
         "-" false) (Some (1 / 60)) = inr ani /\
    nth_error (Src_c5.ani_frames ani) 0 = Some fr /\
    fst (tip (Src_c5.resultant_vector fr)) * fst (tip (Src_c5.resultant_vector fr))
    + snd (tip (Src_c5.resultant_vector fr)) * snd (tip (Src_c5.resultant_vector fr))
    = 2 * 2.
Proof.
  destruct ((c5_one_frame_run (FR := exact_rounding)) Src_c5.default_vector1
              (Src_c5.Build_Vector 2 (1 / 10) (radians 90) (radians 90)
                 "#ff7f0e" "o" 10 "-" false)) as (ani & fr & Hrun & Hfr).
  destruct ((X22_c5_resultant_on_circle (FR := exact_rounding)) Src_c5.default_vector1 _
              "#ff7f0e" "o" "-" 10 false (Some (1 / 60)) ani 0 fr
              eq_refl Hrun Hfr) as (t & _ & _ & Hc).
  exists ani, fr. split; [exact Hrun |]. split; [exact Hfr |]. exact Hc.
Defined.
